(** * Invoice-Parser-LLM: the field resolution and validation engine

    A shallow embedding of [src/core/parser.py] (class [InvoiceParser]) and
    [src/core/validator.py] (class [DataValidator], [validate_extraction]),
    with the properties stated about them.

    Conventions of the embedding.
    - Text is a [string]; character classes and case mapping are those of
      ASCII, so the embedding agrees with CPython on ASCII text
      ([ascii_text]); a statement that depends on what a character beyond
      ASCII is carries that hypothesis.
    - A Python [dict] is an association list in insertion order; assignment
      [d[k] = v] is [dict_set], which overwrites in place or appends.
    - A Python [float] is an IEEE 754 binary64 number ([spec_float] with
      precision 53 and maximal exponent 1024).
    - An exception is an explicit error result. *)

From Stdlib Require Import Bool List ZArith NArith Lia Ascii String.
From Stdlib Require Import SpecFloat.
Import ListNotations.

Set Warnings "-register-all".

Local Open Scope string_scope.
Local Open Scope list_scope.

(* ================================================================== *)
(** * Python strings *)
(* ================================================================== *)

Module PyStr.

Definition code (c : ascii) : N := N_of_ascii c.

Definition in_range (lo hi : N) (c : ascii) : bool :=
  (lo <=? code c)%N && (code c <=? hi)%N.

(** [str.isspace] on one ASCII character: TAB..CR, FS..US and SPACE. *)
Definition is_space (c : ascii) : bool := in_range 9 13 c || in_range 28 32 c.

(** [\d], [\w] of the [re] module on ASCII text. *)
Definition is_digit (c : ascii) : bool := in_range 48 57 c.
Definition is_upper (c : ascii) : bool := in_range 65 90 c.
Definition is_lower (c : ascii) : bool := in_range 97 122 c.
Definition is_alpha (c : ascii) : bool := is_upper c || is_lower c.
Definition is_alnum (c : ascii) : bool := is_alpha c || is_digit c.
Definition is_word (c : ascii) : bool := is_alnum c || Ascii.eqb c "_".

Definition lower_char (c : ascii) : ascii :=
  if is_upper c then ascii_of_N (code c + 32) else c.

(** [s.lower()] *)
Fixpoint lower (s : string) : string :=
  match s with
  | EmptyString => EmptyString
  | String c r => String (lower_char c) (lower r)
  end.

(** [sub in s] *)
Fixpoint contains (sub s : string) : bool :=
  String.prefix sub s ||
  match s with
  | EmptyString => false
  | String _ r => contains sub r
  end.

(** [any(k in s for k in ks)] *)
Definition any_in (ks : list string) (s : string) : bool :=
  existsb (fun k => contains k s) ks.

(** [s.replace(a, b)] for one-character [a] and [b]. *)
Fixpoint replace_char (a b : ascii) (s : string) : string :=
  match s with
  | EmptyString => EmptyString
  | String c r => String (if Ascii.eqb c a then b else c) (replace_char a b r)
  end.

(** [s.count(c)] for a one-character [c]. *)
Fixpoint count_char (a : ascii) (s : string) : Z :=
  match s with
  | EmptyString => 0%Z
  | String c r => ((if Ascii.eqb c a then 1 else 0) + count_char a r)%Z
  end.

Fixpoint has_char (a : ascii) (s : string) : bool :=
  match s with
  | EmptyString => false
  | String c r => Ascii.eqb c a || has_char a r
  end.

Fixpoint lstrip (s : string) : string :=
  match s with
  | EmptyString => EmptyString
  | String c r => if is_space c then lstrip r else s
  end.

Fixpoint all_space (s : string) : bool :=
  match s with
  | EmptyString => true
  | String c r => is_space c && all_space r
  end.

Fixpoint rstrip (s : string) : string :=
  match s with
  | EmptyString => EmptyString
  | String c r => if all_space s then EmptyString else String c (rstrip r)
  end.

(** [s.strip()] *)
Definition strip (s : string) : string := rstrip (lstrip s).

(** [s.split()]: the maximal runs of non-space characters.  [cur] is the
    word being read, in reverse. *)
Definition rev_string (s : string) : string :=
  string_of_list_ascii (rev (list_ascii_of_string s)).

Fixpoint split_ws_aux (cur : string) (s : string) : list string :=
  match s with
  | EmptyString =>
      match cur with EmptyString => [] | _ => [rev_string cur] end
  | String c r =>
      if is_space c then
        match cur with
        | EmptyString => split_ws_aux EmptyString r
        | _ => rev_string cur :: split_ws_aux EmptyString r
        end
      else split_ws_aux (String c cur) r
  end.

Definition split_ws (s : string) : list string := split_ws_aux EmptyString s.

(** The text after the prefix [p] of [s], when [p] is one. *)
Fixpoint drop_prefix (p s : string) : option string :=
  match p, s with
  | EmptyString, _ => Some s
  | String a p', String b s' => if Ascii.eqb a b then drop_prefix p' s' else None
  | String _ _, EmptyString => None
  end.

(** [s.split(sep)] for a non-empty [sep]: cut at every occurrence, found
    from the left and not overlapping; empty pieces are kept. *)
Fixpoint split_on_aux (sep : string) (skip : nat) (cur : string) (s : string)
  : list string :=
  match s with
  | EmptyString => [rev_string cur]
  | String c r =>
      match skip with
      | S k => split_on_aux sep k cur r
      | O =>
          match drop_prefix sep s with
          | Some _ =>
              rev_string cur :: split_on_aux sep (String.length sep - 1) EmptyString r
          | None => split_on_aux sep O (String c cur) r
          end
      end
  end.

Definition split_on (sep s : string) : list string :=
  split_on_aux sep O EmptyString s.

(** [sep.join(parts)] *)
Definition join (sep : string) (parts : list string) : string :=
  String.concat sep parts.

(** [bool(s)] *)
Definition nonempty (s : string) : bool :=
  match s with EmptyString => false | _ => true end.

Definition mem (s : string) (l : list string) : bool :=
  existsb (String.eqb s) l.

End PyStr.

Import PyStr.

(* ================================================================== *)
(** * Python floats *)
(* ================================================================== *)

Module PyFloat.

Definition prec : Z := 53.
Definition emax : Z := 1024.

Definition float := spec_float.

(** The float nearest to the integer [z] (ties to even); an integer too
    large for the format gives an infinity. *)
Definition of_Z (z : Z) : float := binary_normalize prec emax z 0 false.

(** The float nearest to [n / d], with sign [neg]. *)
Definition of_ratio (neg : bool) (n d : positive) : float :=
  let '(mz, ez, lz) := SFdiv_core_binary prec emax (Zpos n) 0 (Zpos d) 0 in
  binary_round_aux prec emax neg mz ez lz.

(** The float nearest to [(-1)^neg * m * 10^e]: what [float] yields on a
    decimal numeral. *)
Definition of_decimal (neg : bool) (m : N) (e : Z) : float :=
  match m with
  | N0 => S754_zero neg
  | Npos p =>
      match e with
      | Zneg k => of_ratio neg p (Pos.pow 10 k)
      | _ => binary_normalize prec emax
               (if neg then Z.neg p * 10 ^ e else Z.pos p * 10 ^ e)%Z 0 false
      end
  end.

Definition is_inf (x : float) : bool :=
  match x with S754_infinity _ => true | _ => false end.

Definition is_zero (x : float) : bool :=
  match x with S754_zero _ => true | _ => false end.

Definition sub := SFsub prec emax.
Definition mul := SFmul prec emax.
Definition div := SFdiv prec emax.
Definition abs := SFabs.
Definition ltb := SFltb.
Definition eqb := SFeqb.
(** [a > b] *)
Definition gtb (a b : float) : bool := SFltb b a.

End PyFloat.

Definition float : Type := PyFloat.float.

(* ================================================================== *)
(** * Python values and dictionaries *)
(* ================================================================== *)

(** The values [json.loads] produces, which are the values of a field
    mapping. *)
Inductive pyval : Type :=
| PNone
| PBool (b : bool)
| PInt (z : Z)
| PFloat (x : float)
| PStr (s : string)
| PList (l : list pyval)
| PDict (d : list (string * pyval)).

Definition dict := list (string * pyval).

(** [d[k] = v] *)
Fixpoint dict_set {A : Type} (d : list (string * A)) (k : string) (v : A)
  : list (string * A) :=
  match d with
  | [] => [(k, v)]
  | (k', v') :: r =>
      if String.eqb k' k then (k', v) :: r else (k', v') :: dict_set r k v
  end.

Fixpoint dict_get {A : Type} (d : list (string * A)) (k : string) : option A :=
  match d with
  | [] => None
  | (k', v') :: r => if String.eqb k' k then Some v' else dict_get r k
  end.

(** [v is None] *)
Definition is_none (v : pyval) : bool :=
  match v with PNone => true | _ => false end.

(* ================================================================== *)
(** * InvoiceParser: request analysis and field filtering *)
(* ================================================================== *)

(** [self.field_keywords], in insertion order. *)
Definition field_keywords : list (string * list string) :=
  [ ("invoice_number", ["invoice number"; "invoice #"; "invoice id"; "invoice no"; "inv no"; "inv #"]);
    ("vendor_name", ["vendor name"; "vendor"; "supplier"; "company name"; "seller"; "from"; "sold by"]);
    ("customer_name", ["customer name"; "customer"; "client"; "buyer"; "bill to"; "sold to"]);
    ("total_amount", ["total amount"; "final total"; "grand total"; "amount due"; "final amount";
                      "net payable"; "amount payable"; "gross worth"; "gross total"]);
    ("date", ["date"; "invoice date"; "issue date"; "created date"]);
    ("due_date", ["due date"; "payment due"; "due by"]);
    ("tax", ["tax"; "vat"; "gst"; "sales tax"; "igst"; "cgst"; "sgst"]);
    ("taxable_value", ["taxable value"; "taxable amount"; "net worth"; "net amount"]);
    ("subtotal", ["subtotal"; "sub total"]);
    ("items", ["items"; "products"; "line items"; "goods"; "services"]);
    ("address", ["address"; "billing address"; "shipping address"]);
    ("phone", ["phone"; "telephone"; "contact"; "tel"]);
    ("email", ["email"; "e-mail"; "electronic mail"]);
    ("po_number", ["po number"; "purchase order"; "po #"]);
    ("discount", ["discount"; "reduction"]);
    ("currency", ["currency"; "curr"]) ].

(** [self.field_keywords.get(field_type, [])] *)
Definition keywords_of (field_type : string) : list string :=
  match dict_get field_keywords field_type with
  | Some ks => ks
  | None => []
  end.

(** The values of [analysis['extraction_type']]. *)
Inductive extraction_mode : Type := General | Specific | All.

Record analysis : Type := mkAnalysis {
  requested_fields : list string;
  is_specific_request : bool;
  extraction_type : extraction_mode
}.

Definition total_terms : list string :=
  ["total cost"; "total amount"; "total"; "final total"].
Definition specific_indicators : list string :=
  ["only"; "just"; "extract"; "find"; "get"; "what is"].
Definition all_indicators : list string :=
  ["all"; "everything"; "complete"; "full"; "entire"].

(** [len(user_prompt.split())] *)
Definition word_count (user_prompt : string) : nat :=
  List.length (split_ws user_prompt).

(** [InvoiceParser.analyze_user_request] *)
Definition analyze_user_request (user_prompt : string) : analysis :=
  let user_prompt_lower := lower user_prompt in
  let fields0 :=
    map fst (filter (fun fk => any_in (snd fk) user_prompt_lower) field_keywords) in
  let fields :=
    if any_in total_terms user_prompt_lower then
      if mem "total_amount" fields0 then fields0 else fields0 ++ ["total_amount"]
    else fields0 in
  let a1 :=
    if any_in specific_indicators user_prompt_lower
    then mkAnalysis fields true Specific
    else mkAnalysis fields false General in
  let a2 :=
    if any_in all_indicators user_prompt_lower
    then mkAnalysis fields (is_specific_request a1) All
    else a1 in
  match fields with
  | [] =>
      if (word_count user_prompt <=? 5)%nat
      then mkAnalysis fields true Specific
      else a2
  | _ => a2
  end.

Definition total_priority : list string :=
  ["gross_total"; "gross_worth"; "final_total"; "grand_total";
   "total_amount"; "amount_due"; "total"; "final_amount"].

Definition total_avoid : list string :=
  ["taxable"; "net_worth"; "net_amount"; "subtotal"].

(** One iteration of the loop that looks for the best total field;
    [best] is the pair [(best_total_field, best_total_value)], [None] while
    [best_total_field is None]. *)
Definition best_total_step (best : option (string * pyval)) (kv : string * pyval)
  : option (string * pyval) :=
  let '(key, value) := kv in
  let key_lower := lower key in
  if any_in total_avoid key_lower then best
  else
    let best1 :=
      if any_in total_priority key_lower then
        match best with
        | None => Some (key, value)
        | Some _ => best
        end
      else best in
    match best1 with
    | None => if contains "total" key_lower then Some (key, value) else None
    | Some _ => best1
    end.

(** The whole loop, over [extracted_data.items()]. *)
Definition best_total (extracted_data : dict) : option (string * pyval) :=
  fold_left best_total_step extracted_data None.

(** The block under "Special handling for total cost/amount requests". *)
Definition total_selection (extracted_data : dict) (user_prompt_lower : string)
  : dict :=
  if any_in ["total cost"; "total amount"; "total"] user_prompt_lower then
    match best_total extracted_data with
    | Some (k, v) => if nonempty k then dict_set [] k v else []
    | None => []
    end
  else [].

(** [include_field] at the end of one iteration of the second loop. *)
Definition include_field (requested : list string) (user_prompt_lower key : string)
  : bool :=
  let key_lower := replace_char "-" " " (replace_char "_" " " (lower key)) in
  existsb (fun field_type => any_in (keywords_of field_type) key_lower) requested
  ||
  let prompt_words :=
    filter (fun word => (3 <? String.length word)%nat) (split_ws user_prompt_lower) in
  existsb (fun word =>
             contains word key_lower
             || existsb (fun keyword => contains word keyword) (split_ws key_lower))
          prompt_words.

(** The second loop: every included pair is assigned into [filtered_data]. *)
Definition select_fields (requested : list string) (user_prompt_lower : string)
    (extracted_data : dict) (filtered_data : dict) : dict :=
  fold_left
    (fun acc kv =>
       if include_field requested user_prompt_lower (fst kv)
       then dict_set acc (fst kv) (snd kv) else acc)
    extracted_data filtered_data.

(** [filtered_data] after both loops, before the lenient fallback. *)
Definition intent_filtered (extracted_data : dict) (user_prompt : string) : dict :=
  let user_prompt_lower := lower user_prompt in
  select_fields (requested_fields (analyze_user_request user_prompt))
    user_prompt_lower extracted_data
    (total_selection extracted_data user_prompt_lower).

(** The first pair whose value is not [None]. *)
Definition first_non_null (extracted_data : dict) : option (string * pyval) :=
  find (fun kv => negb (is_none (snd kv))) extracted_data.

Definition dict_nonempty {A : Type} (d : list A) : bool :=
  match d with [] => false | _ => true end.

(** [InvoiceParser.filter_extracted_data] *)
Definition filter_extracted_data (extracted_data : dict) (user_prompt : string)
  : dict :=
  let request_analysis := analyze_user_request user_prompt in
  match extraction_type request_analysis with
  | All => extracted_data
  | _ =>
      if negb (dict_nonempty (requested_fields request_analysis))
         && negb (is_specific_request request_analysis)
      then extracted_data
      else
        let filtered_data := intent_filtered extracted_data user_prompt in
        if negb (dict_nonempty filtered_data) && dict_nonempty extracted_data then
          if (word_count user_prompt <=? 3)%nat then
            match first_non_null extracted_data with
            | Some (k, v) => dict_set [] k v
            | None => extracted_data
            end
          else extracted_data
        else
          if dict_nonempty filtered_data then filtered_data else extracted_data
  end.

(* ================================================================== *)
(** * The [json] and [re] library calls the parser makes *)
(* ================================================================== *)

Module PyJson.

Definition dquote : ascii := ascii_of_N 34.
Definition backslash : ascii := ascii_of_N 92.

(** Quotes a text: [q "a"] is the three characters of a JSON string. *)
Definition q (s : string) : string :=
  String dquote (s ++ String dquote EmptyString)%string.

(** JSON whitespace: space, TAB, LF, CR. *)
Definition is_json_ws (c : ascii) : bool :=
  Ascii.eqb c " " || (code c =? 9)%N || (code c =? 10)%N || (code c =? 13)%N.

Inductive token : Type :=
| TLBrace | TRBrace | TLBracket | TRBracket | TColon | TComma
| TString (s : string)
| TAtom (v : pyval).

Definition hex_digit (c : ascii) : option N :=
  if is_digit c then Some (code c - 48)%N
  else if in_range 97 102 c then Some (code c - 87)%N
  else if in_range 65 70 c then Some (code c - 55)%N
  else None.

Definition hex4 (a b c d : ascii) : option N :=
  match hex_digit a, hex_digit b, hex_digit c, hex_digit d with
  | Some x, Some y, Some z, Some w => Some (((x * 16 + y) * 16 + z) * 16 + w)%N
  | _, _, _, _ => None
  end.

(** The UTF-8 bytes of a code point. *)
Definition utf8 (cp : N) : string :=
  let b (n : N) := String (ascii_of_N n) EmptyString in
  if (cp <? 128)%N then b cp
  else if (cp <? 2048)%N then
    (b (192 + cp / 64)%N ++ b (128 + cp mod 64)%N)%string
  else if (cp <? 65536)%N then
    (b (224 + cp / 4096)%N ++ b (128 + (cp / 64) mod 64)%N
       ++ b (128 + cp mod 64)%N)%string
  else
    (b (240 + cp / 262144)%N ++ b (128 + (cp / 4096) mod 64)%N
       ++ b (128 + (cp / 64) mod 64)%N ++ b (128 + cp mod 64)%N)%string.

Definition simple_escape (e : ascii) : option ascii :=
  if Ascii.eqb e dquote then Some dquote
  else if Ascii.eqb e backslash then Some backslash
  else if Ascii.eqb e "/" then Some "/"%char
  else if Ascii.eqb e "b" then Some (ascii_of_N 8)
  else if Ascii.eqb e "f" then Some (ascii_of_N 12)
  else if Ascii.eqb e "n" then Some (ascii_of_N 10)
  else if Ascii.eqb e "r" then Some (ascii_of_N 13)
  else if Ascii.eqb e "t" then Some (ascii_of_N 9)
  else None.

(** A low surrogate escape at the head of [s]. *)
Definition low_surrogate (s : string) : option N :=
  match s with
  | String b0 (String u (String h1 (String h2 (String h3 (String h4 _))))) =>
      if Ascii.eqb b0 backslash && Ascii.eqb u "u" then
        match hex4 h1 h2 h3 h4 with
        | Some cp => if (56320 <=? cp)%N && (cp <=? 57343)%N then Some cp else None
        | None => None
        end
      else None
  | _ => None
  end.

Definition prepend (t : string) (n : nat) (r : option (string * nat))
  : option (string * nat) :=
  match r with
  | Some (s, k) => Some ((t ++ s)%string, n + k)
  | None => None
  end.

(** The strict string scanner, started after the opening quote: the
    decoded text and the number of characters read, closing quote
    included.  [skip] counts characters of an escape already decoded. *)
Fixpoint scanstring (skip : nat) (s : string) : option (string * nat) :=
  match s with
  | EmptyString => None
  | String c r =>
      match skip with
      | S k => prepend EmptyString 1 (scanstring k r)
      | O =>
          if Ascii.eqb c dquote then Some (EmptyString, 1)
          else if Ascii.eqb c backslash then
            match r with
            | EmptyString => None
            | String e r1 =>
                if Ascii.eqb e "u" then
                  match r1 with
                  | String h1 (String h2 (String h3 (String h4 r2))) =>
                      match hex4 h1 h2 h3 h4 with
                      | None => None
                      | Some cp =>
                          if (55296 <=? cp)%N && (cp <=? 56319)%N then
                            match low_surrogate r2 with
                            | Some cp2 =>
                                prepend
                                  (utf8 (65536 + ((cp - 55296) * 1024 + (cp2 - 56320))))
                                  1 (scanstring 11 r)
                            | None => prepend (utf8 cp) 1 (scanstring 5 r)
                            end
                          else prepend (utf8 cp) 1 (scanstring 5 r)
                      end
                  | _ => None
                  end
                else
                  match simple_escape e with
                  | Some ch => prepend (String ch EmptyString) 1 (scanstring 1 r)
                  | None => None
                  end
            end
          else if (code c <=? 31)%N then None
          else prepend (String c EmptyString) 1 (scanstring 0 r)
      end
  end.

(** The longest prefix of characters satisfying [p], and the rest. *)
Fixpoint span (p : ascii -> bool) (s : string) : string * string :=
  match s with
  | EmptyString => (EmptyString, EmptyString)
  | String c r =>
      if p c then let '(a, b) := span p r in (String c a, b)
      else (EmptyString, s)
  end.

(** The value of a run of decimal digits. *)
Definition digits_value (s : string) : N :=
  fold_left (fun acc c => (acc * 10 + (code c - 48))%N) (list_ascii_of_string s) 0%N.

(** The exponent part [[eE][+-]?[0-9]+] at the head of [s]: its value and
    length, or [None] when there is none. *)
Definition read_exponent (s : string) : option (Z * nat) :=
  match s with
  | String e r =>
      if Ascii.eqb e "e" || Ascii.eqb e "E" then
        let '(neg, signlen, r1) :=
          match r with
          | String sg r' =>
              if Ascii.eqb sg "-" then (true, 1, r')
              else if Ascii.eqb sg "+" then (false, 1, r')
              else (false, 0, r)
          | EmptyString => (false, 0, r)
          end in
        let '(ds, _) := span is_digit r1 in
        match ds with
        | EmptyString => None
        | _ =>
            let v := Z.of_N (digits_value ds) in
            Some (if neg then (- v)%Z else v, 1 + signlen + String.length ds)
        end
      else None
  | EmptyString => None
  end.

(** The number scanner: an optional minus sign; a zero, or a non-zero digit
    and further digits; optionally a dot and digits; optionally an exponent.
    The result is an [int] without fraction and exponent, a [float]
    otherwise. *)
Definition read_number (s : string) : option (pyval * nat) :=
  let '(neg, r0) :=
    match s with
    | String c r => if Ascii.eqb c "-" then (true, r) else (false, s)
    | EmptyString => (false, s)
    end in
  let signlen := if neg then 1 else 0 in
  let int_part : option (string * string) :=
    match r0 with
    | String c r =>
        if Ascii.eqb c "0" then Some ("0", r)
        else if is_digit c then Some (span is_digit r0)
        else None
    | EmptyString => None
    end in
  match int_part with
  | None => None
  | Some (ip, r1) =>
      let '(fp, r2) :=
        match r1 with
        | String dot (String d _ as r') =>
            if Ascii.eqb dot "." && is_digit d then span is_digit r'
            else (EmptyString, r1)
        | _ => (EmptyString, r1)
        end in
      let fraclen := match fp with EmptyString => 0 | _ => 1 + String.length fp end in
      let ex := read_exponent r2 in
      let n := signlen + String.length ip + fraclen
               + match ex with Some (_, k) => k | None => 0 end in
      match fp, ex with
      | EmptyString, None =>
          let v := Z.of_N (digits_value ip) in
          Some (PInt (if neg then (- v)%Z else v), n)
      | _, _ =>
          let e10 := match ex with Some (e, _) => e | None => 0%Z end in
          Some (PFloat (PyFloat.of_decimal neg (digits_value (ip ++ fp)%string)
                          (e10 - Z.of_nat (String.length fp))), n)
      end
  end.

(** One token at the head of [s], and its length. *)
Definition read_token (s : string) : option (token * nat) :=
  match s with
  | EmptyString => None
  | String c r =>
      if Ascii.eqb c "{" then Some (TLBrace, 1)
      else if Ascii.eqb c "}" then Some (TRBrace, 1)
      else if Ascii.eqb c "[" then Some (TLBracket, 1)
      else if Ascii.eqb c "]" then Some (TRBracket, 1)
      else if Ascii.eqb c ":" then Some (TColon, 1)
      else if Ascii.eqb c "," then Some (TComma, 1)
      else if Ascii.eqb c dquote then
        match scanstring 0 r with
        | Some (t, n) => Some (TString t, S n)
        | None => None
        end
      else if String.prefix "null" s then Some (TAtom PNone, 4)
      else if String.prefix "true" s then Some (TAtom (PBool true), 4)
      else if String.prefix "false" s then Some (TAtom (PBool false), 5)
      else if String.prefix "NaN" s then Some (TAtom (PFloat S754_nan), 3)
      else if String.prefix "Infinity" s then
        Some (TAtom (PFloat (S754_infinity false)), 8)
      else if String.prefix "-Infinity" s then
        Some (TAtom (PFloat (S754_infinity true)), 9)
      else
        match read_number s with
        | Some (v, n) => Some (TAtom v, n)
        | None => None
        end
  end.

(** The tokens of a text; [skip] counts characters of the token just read. *)
Fixpoint lex (skip : nat) (s : string) : option (list token) :=
  match s with
  | EmptyString => Some []
  | String c r =>
      match skip with
      | S k => lex k r
      | O =>
          if is_json_ws c then lex 0 r
          else
            match read_token s with
            | Some (t, n) =>
                match lex (n - 1) r with
                | Some ts => Some (t :: ts)
                | None => None
                end
            | None => None
            end
      end
  end.

(** The containers being read, innermost first. *)
Inductive frame : Type :=
| FArr (acc : list pyval)
| FObj (acc : dict)
| FKey (acc : dict) (key : string).

Inductive mode : Type :=
| MValue | MValueOrEnd | MKeyOrEnd | MKey | MColon | MAfter
| MDone (v : pyval).

(** A value is complete: it is the result, the next element of the
    array or the value of the pending key (a later duplicate of a key
    overwrites its value). *)
Definition complete (v : pyval) (st : list frame) : option (mode * list frame) :=
  match st with
  | [] => Some (MDone v, [])
  | FArr acc :: st' => Some (MAfter, FArr (v :: acc) :: st')
  | FKey acc key :: st' => Some (MAfter, FObj (dict_set acc key v) :: st')
  | FObj _ :: _ => None
  end.

Definition start_value (t : token) (st : list frame) : option (mode * list frame) :=
  match t with
  | TLBrace => Some (MKeyOrEnd, FObj [] :: st)
  | TLBracket => Some (MValueOrEnd, FArr [] :: st)
  | TString s => complete (PStr s) st
  | TAtom v => complete v st
  | _ => None
  end.

Definition step (ms : mode * list frame) (t : token) : option (mode * list frame) :=
  let '(m, st) := ms in
  match m with
  | MValue => start_value t st
  | MValueOrEnd =>
      match t, st with
      | TRBracket, FArr acc :: st' => complete (PList (rev acc)) st'
      | _, _ => start_value t st
      end
  | MKeyOrEnd =>
      match t, st with
      | TRBrace, FObj acc :: st' => complete (PDict acc) st'
      | TString k, FObj acc :: st' => Some (MColon, FKey acc k :: st')
      | _, _ => None
      end
  | MKey =>
      match t, st with
      | TString k, FObj acc :: st' => Some (MColon, FKey acc k :: st')
      | _, _ => None
      end
  | MColon =>
      match t with
      | TColon => Some (MValue, st)
      | _ => None
      end
  | MAfter =>
      match t, st with
      | TComma, FArr _ :: _ => Some (MValue, st)
      | TComma, FObj _ :: _ => Some (MKey, st)
      | TRBracket, FArr acc :: st' => complete (PList (rev acc)) st'
      | TRBrace, FObj acc :: st' => complete (PDict acc) st'
      | _, _ => None
      end
  | MDone _ => None
  end.

Fixpoint run (ms : mode * list frame) (ts : list token) : option (mode * list frame) :=
  match ts with
  | [] => Some ms
  | t :: ts' =>
      match step ms t with
      | Some ms' => run ms' ts'
      | None => None
      end
  end.

(** [json.loads], as CPython's scanner reads a text: the value of a JSON
    document, [None] on [json.JSONDecodeError].  The interpreter's limits
    (recursion depth, digits of an integer literal) are not modelled. *)
Definition loads (s : string) : option pyval :=
  match lex 0 s with
  | None => None
  | Some ts =>
      match run (MValue, []) ts with
      | Some (MDone v, _) => Some v
      | _ => None
      end
  end.

End PyJson.

Import PyJson.

Module PyRe.

(** Whether [s] is whitespace followed by a closing brace or bracket. *)
Fixpoint closes_after_ws (s : string) : bool :=
  match s with
  | EmptyString => false
  | String c r =>
      if Ascii.eqb c "}" || Ascii.eqb c "]" then true
      else if is_space c then closes_after_ws r
      else false
  end.

(** First substitution of [fix_common_json_issues]: a comma followed by
    whitespace and a closing brace or bracket is deleted.  The whitespace
    and the bracket are re-emitted by the replacement and hold no comma, so
    the substitution deletes exactly the commas so followed. *)
Fixpoint remove_trailing_commas (s : string) : string :=
  match s with
  | EmptyString => EmptyString
  | String c r =>
      if Ascii.eqb c "," && closes_after_ws r then remove_trailing_commas r
      else String c (remove_trailing_commas r)
  end.

(** The text up to the next single quote, when a colon follows that quote. *)
Fixpoint quoted_then_colon (s : string) : option string :=
  match s with
  | EmptyString => None
  | String c r =>
      if Ascii.eqb c "'" then
        match r with
        | String d _ => if Ascii.eqb d ":" then Some EmptyString else None
        | EmptyString => None
        end
      else option_map (String c) (quoted_then_colon r)
  end.

(** Second substitution: a single-quoted text followed by a colon gets
    double quotes.  [skip] counts the characters of the match just
    replaced. *)
Fixpoint fix_quoted_keys (skip : nat) (s : string) : string :=
  match s with
  | EmptyString => EmptyString
  | String c r =>
      match skip with
      | S k => fix_quoted_keys k r
      | O =>
          if Ascii.eqb c "'" then
            match quoted_then_colon r with
            | Some body =>
                (q body ++ ":" ++ fix_quoted_keys (String.length body + 2) r)%string
            | None => String c (fix_quoted_keys 0 r)
            end
          else String c (fix_quoted_keys 0 r)
      end
  end.

(** The text up to the next single quote. *)
Fixpoint quoted (s : string) : option string :=
  match s with
  | EmptyString => None
  | String c r =>
      if Ascii.eqb c "'" then Some EmptyString
      else option_map (String c) (quoted r)
  end.

(** Whitespace, then a single-quoted text: the text and the number of
    characters read. *)
Fixpoint ws_then_quoted (s : string) : option (string * nat) :=
  match s with
  | EmptyString => None
  | String c r =>
      if Ascii.eqb c "'" then
        option_map (fun b => (b, String.length b + 2)) (quoted r)
      else if is_space c then
        option_map (fun bn => (fst bn, S (snd bn))) (ws_then_quoted r)
      else None
  end.

(** Third substitution: a colon, whitespace and a single-quoted text
    become the colon, one space and the text in double quotes. *)
Fixpoint fix_quoted_values (skip : nat) (s : string) : string :=
  match s with
  | EmptyString => EmptyString
  | String c r =>
      match skip with
      | S k => fix_quoted_values k r
      | O =>
          if Ascii.eqb c ":" then
            match ws_then_quoted r with
            | Some (body, n) => (": " ++ q body ++ fix_quoted_values n r)%string
            | None => String c (fix_quoted_values 0 r)
            end
          else String c (fix_quoted_values 0 r)
      end
  end.

(** The run of word characters at the head of [s], when a colon follows it. *)
Fixpoint word_then_colon (s : string) : option string :=
  match s with
  | EmptyString => None
  | String c r =>
      if is_word c then option_map (String c) (word_then_colon r)
      else if Ascii.eqb c ":" then Some EmptyString
      else None
  end.

(** Fourth substitution: a run of word characters followed by a colon is
    put in double quotes. *)
Fixpoint fix_unquoted_keys (skip : nat) (s : string) : string :=
  match s with
  | EmptyString => EmptyString
  | String c r =>
      match skip with
      | S k => fix_unquoted_keys k r
      | O =>
          if is_word c then
            match word_then_colon s with
            | Some w => (q w ++ ":" ++ fix_unquoted_keys (String.length w) r)%string
            | None => String c (fix_unquoted_keys 0 r)
            end
          else String c (fix_unquoted_keys 0 r)
      end
  end.

(** Deletes every character that is not a digit, a dot or a minus sign: the
    substitution of the amount pattern on ASCII text, where the digits are
    0 to 9. *)
Fixpoint strip_non_numeric (s : string) : string :=
  match s with
  | EmptyString => EmptyString
  | String c r =>
      if is_digit c || Ascii.eqb c "." || Ascii.eqb c "-"
      then String c (strip_non_numeric r)
      else strip_non_numeric r
  end.

End PyRe.

Import PyRe.

(** [float(s)] and [int(s)] on a text of digits, dots and minus signs, the
    only texts the program converts; [None] is [ValueError].  [float]
    rounds to the nearest binary64 number and overflows to an infinity.
    [int] refuses a text of more than [int_max_str_digits] digits, leading
    zeros counted and the sign not. *)
Definition split_sign (s : string) : bool * string :=
  match s with
  | String c r => if Ascii.eqb c "-" then (true, r) else (false, s)
  | EmptyString => (false, s)
  end.

Definition float_of_numeric (s : string) : option PyFloat.float :=
  let '(neg, r) := split_sign s in
  let '(ip, r1) := span is_digit r in
  match r1 with
  | EmptyString =>
      if nonempty ip then Some (PyFloat.of_decimal neg (digits_value ip) 0) else None
  | String dot r2 =>
      if Ascii.eqb dot "." then
        let '(fp, r3) := span is_digit r2 in
        if negb (nonempty r3) && (nonempty ip || nonempty fp) then
          Some (PyFloat.of_decimal neg (digits_value (ip ++ fp)%string)
                  (- Z.of_nat (String.length fp)))
        else None
      else None
  end.

(** The default of [sys.int_max_str_digits] (CPython 3.11 and later, and
    the security releases of 3.7 to 3.10). *)
Definition int_max_str_digits : N := 4300.

Definition int_of_numeric (s : string) : option Z :=
  let '(neg, r) := split_sign s in
  let '(ip, r1) := span is_digit r in
  if nonempty ip && negb (nonempty r1)
     && (N.of_nat (String.length ip) <=? int_max_str_digits)%N then
    let v := Z.of_N (digits_value ip) in
    Some (if neg then (- v)%Z else v)
  else None.

(* ================================================================== *)
(** * InvoiceParser: response parsing and post-processing *)
(* ================================================================== *)

(** The outcome of a call that may raise. *)
Inductive result (E A : Type) : Type :=
| Returns (a : A)
| Raises (e : E).
Arguments Returns {E A} a.
Arguments Raises {E A} e.

(** The exceptions [parse_llm_response] raises, by their message. *)
Inductive llm_error : Type :=
| EmptyResponseFromLLM      (* Empty response from LLM *)
| FailedToParseAsJSON       (* Failed to parse LLM response as JSON: ... *)
| NotAJSONObject.           (* Failed to parse LLM response:
                               LLM response is not a JSON object *)

Definition fence : string := "```".

(** The removal of markdown code blocks. *)
Definition strip_fences (cleaned_response : string) : string :=
  if contains "```json" cleaned_response then
    strip (nth 0 (split_on fence
                    (nth 1 (split_on "```json" cleaned_response) EmptyString))
                 EmptyString)
  else if contains fence cleaned_response then
    let parts := split_on fence cleaned_response in
    if (3 <=? List.length parts)%nat then strip (nth 1 parts EmptyString)
    else strip (last parts EmptyString)
  else cleaned_response.

(** The state of the loop over the lines; [stopped] holds after [break]. *)
Record line_scan : Type := mkScan {
  json_lines : list string;
  in_json : bool;
  brace_count : Z;
  stopped : bool
}.

Definition line_step (st : line_scan) (line : string) : line_scan :=
  if stopped st then st
  else
    let in_json' := in_json st || has_char "{" line in
    if in_json' then
      let bc := (brace_count st + (count_char "{" line - count_char "}" line))%Z in
      mkScan (json_lines st ++ [line]) true bc
             ((bc =? 0)%Z && has_char "}" line)
    else mkScan (json_lines st) in_json' (brace_count st) false.

(** [s.find(c)] and [s.rfind(c)] for a one-character [c]; [None] is -1. *)
Fixpoint find_char (a : ascii) (s : string) : option nat :=
  match s with
  | EmptyString => None
  | String c r =>
      if Ascii.eqb c a then Some 0
      else option_map S (find_char a r)
  end.

Fixpoint rfind_char (a : ascii) (s : string) : option nat :=
  match s with
  | EmptyString => None
  | String c r =>
      match rfind_char a r with
      | Some i => Some (S i)
      | None => if Ascii.eqb c a then Some 0 else None
      end
  end.

(** The text handed to the strict parse. *)
Definition isolate_json (cleaned_response : string) : string :=
  let lines := split_on (String (ascii_of_N 10) EmptyString) cleaned_response in
  let st := fold_left line_step lines (mkScan [] false 0 false) in
  match json_lines st with
  | _ :: _ => join (String (ascii_of_N 10) EmptyString) (json_lines st)
  | [] =>
      match find_char "{" cleaned_response, rfind_char "}" cleaned_response with
      | Some start_idx, Some last =>
          let end_idx := S last in
          String.substring start_idx (end_idx - start_idx) cleaned_response
      | _, _ => cleaned_response
      end
  end.

(** [InvoiceParser.fix_common_json_issues] *)
Definition fix_common_json_issues (json_str : string) : string :=
  fix_unquoted_keys 0
    (fix_quoted_values 0 (fix_quoted_keys 0 (remove_trailing_commas json_str))).

(** [isinstance(v, dict)] *)
Definition is_dict (v : pyval) : bool :=
  match v with PDict _ => true | _ => false end.

(** [InvoiceParser.parse_llm_response].  The strict parse is the first
    [json.loads]; the repair is the second one, in the handler of
    [json.JSONDecodeError]. *)
Definition parse_llm_response (response : string) : result llm_error pyval :=
  if negb (nonempty response) || negb (nonempty (strip response)) then
    Raises EmptyResponseFromLLM
  else
    let cleaned_response := strip_fences (strip response) in
    match loads (isolate_json cleaned_response) with
    | Some parsed_data =>
        if is_dict parsed_data then Returns parsed_data
        else Raises NotAJSONObject
    | None =>
        match loads (fix_common_json_issues cleaned_response) with
        | Some repaired => Returns repaired
        | None => Raises FailedToParseAsJSON
        end
    end.

Definition amount_keys : list string := ["amount"; "total"; "price"; "cost"; "tax"].
Definition null_words : list string := ["n/a"; "na"; "none"; "null"].

(** [key.strip().lower().replace(' ', '_').replace('-', '_')] *)
Definition clean_key (key : string) : string :=
  replace_char "-" "_" (replace_char " " "_" (lower (strip key))).

(** The value stored under [clean_key] by one iteration of
    [post_process_data]. *)
Definition post_process_value (clean_key : string) (value : pyval) : pyval :=
  match value with
  | PStr s =>
      let value := strip s in
      if negb (nonempty value) || mem (lower value) null_words then PNone
      else if any_in amount_keys clean_key then
        let numeric_value := strip_non_numeric value in
        if has_char "." numeric_value then
          match float_of_numeric numeric_value with
          | Some x => PFloat x
          | None => PStr value
          end
        else if nonempty numeric_value then
          match int_of_numeric numeric_value with
          | Some z => PInt z
          | None => PStr value
          end
        else PNone
      else PStr value
  | _ => value
  end.

(** [InvoiceParser.post_process_data] *)
Definition post_process_data (data : dict) : dict :=
  fold_left
    (fun processed_data kv =>
       let ck := clean_key (fst kv) in
       dict_set processed_data ck (post_process_value ck (snd kv)))
    data [].

(* ================================================================== *)
(** * DataValidator *)
(* ================================================================== *)

(** The exceptions that can arise in the validator. *)
Inductive exn : Type := ValueError | TypeError | OverflowError | ZeroDivisionError.

(** [bool(v)] *)
Definition truthy (v : pyval) : bool :=
  match v with
  | PNone => false
  | PBool b => b
  | PInt z => negb (z =? 0)%Z
  | PFloat x => negb (PyFloat.is_zero x)
  | PStr s => nonempty s
  | PList l => dict_nonempty l
  | PDict d => dict_nonempty d
  end.

(** [float(v)] for a value that is not a string. *)
Definition float_of_value (v : pyval) : result exn PyFloat.float :=
  match v with
  | PBool b => Returns (PyFloat.of_Z (if b then 1 else 0))
  | PInt z =>
      let x := PyFloat.of_Z z in
      if PyFloat.is_inf x then Raises OverflowError else Returns x
  | PFloat x => Returns x
  | PStr _ => Raises ValueError
  | PNone | PList _ | PDict _ => Raises TypeError
  end.

(** [float(re.sub(r'[^\d.-]', '', s))] *)
Definition float_of_amount_text (s : string) : result exn PyFloat.float :=
  match float_of_numeric (strip_non_numeric s) with
  | Some x => Returns x
  | None => Raises ValueError
  end.

(** [max(values)] of a non-empty list. *)
Definition py_max (x : PyFloat.float) (l : list PyFloat.float) : PyFloat.float :=
  fold_left (fun m y => if PyFloat.gtb y m then y else m) l x.

(** [l.sort(reverse=True)]: a stable sort into descending order.  (Lists
    holding a NaN have no order; on them the result of Python's sort depends
    on its algorithm.) *)
Fixpoint insert_desc (x : PyFloat.float) (l : list PyFloat.float)
  : list PyFloat.float :=
  match l with
  | [] => [x]
  | y :: r => if PyFloat.ltb y x then x :: l else y :: insert_desc x r
  end.

Definition sort_desc (l : list PyFloat.float) : list PyFloat.float :=
  fold_left (fun acc x => insert_desc x acc) l [].

(** The messages of a report, by their text in the source. *)
Inductive msg : Type :=
| NoDataExtracted
    (* No data extracted from invoice *)
| TotalBelowTaxable (max_total max_taxable : PyFloat.float)
    (* ERROR: Extracted 'total' (max_total) is less than taxable value
       (max_taxable). This suggests the wrong amount was extracted as 'total'. *)
| WrongAmountAdvice
    (* The system may have extracted 'Net Worth' or 'Taxable Value' instead
       of 'Gross Total'. Look for the final amount that includes all taxes. *)
| TotalEqualsTaxable (max_total : PyFloat.float)
    (* Warning: Total amount (max_total) equals taxable value. Check if taxes
       are included in the total. *)
| OnlyTaxableFound
    (* Only taxable/net amounts found. The final total (including taxes) may
       be missing. *)
| LookForGrossAdvice
    (* Look for 'Gross Total', 'Grand Total', or 'Final Amount' which
       includes all taxes. *)
| TaxRateAdvice (difference_percent highest : PyFloat.float)
    (* The amounts suggest a difference_percent% tax rate. Ensure the higher
       amount (highest) is extracted as the total. *)
| InvalidEmail (field_name : string)
    (* Invalid email format for field_name *)
| QuestionablePhone (field_name : string)
    (* Questionable phone format for field_name *)
| InvalidAmount (field_name : string)
    (* Invalid amount format for field_name *)
| CriticalPreTax (field_name : string) (numeric_value : PyFloat.float)
    (* CRITICAL ERROR: 'field_name' appears to be a pre-tax amount
       ($numeric_value), but user requested total amount. Look for
       'Gross Total' or 'Grand Total' instead. *)
| QuestionableDate (field_name : string)
    (* Questionable date format for field_name *)
| QuestionableInvoiceNumber (field_name : string)
    (* Questionable invoice number format for field_name *)
| PossiblyMissing (field : string)
    (* Possibly missing field: field *)
| ValidationError (e : exn).
    (* Validation error: str(e) *)

(** The [message] of a field validation. *)
Inductive field_message : Type :=
| NoMessage
| FieldIsNull
| InvalidEmailFormat
| InvalidPhoneFormat
| InvalidAmountFormat
| CorrectlyIdentifiedTotal (numeric_value : PyFloat.float)
| InvalidDateFormat
| InvalidInvoiceNumberFormat.

Record field_validation : Type := mkFieldValidation {
  valid : bool;
  message : field_message
}.

Record summary_counts : Type := mkSummary {
  total_fields : nat;
  valid_fields : nat;
  error_count : nat;
  warning_count : nat;
  recommendation_count : nat
}.

(** The dictionary [validation_results]; [summary] is [None] while the key
    is absent. *)
Record report : Type := mkReport {
  is_valid : bool;
  errors : list msg;
  warnings : list msg;
  recommendations : list msg;
  field_validations : list (string * field_validation);
  summary : option summary_counts
}.

Definition set_invalid (r : report) : report :=
  mkReport false (errors r) (warnings r) (recommendations r)
           (field_validations r) (summary r).
Definition add_errors (ms : list msg) (r : report) : report :=
  mkReport (is_valid r) (errors r ++ ms) (warnings r) (recommendations r)
           (field_validations r) (summary r).
Definition add_warnings (ms : list msg) (r : report) : report :=
  mkReport (is_valid r) (errors r) (warnings r ++ ms) (recommendations r)
           (field_validations r) (summary r).
Definition add_recommendations (ms : list msg) (r : report) : report :=
  mkReport (is_valid r) (errors r) (warnings r) (recommendations r ++ ms)
           (field_validations r) (summary r).
Definition set_field_validation (k : string) (fv : field_validation) (r : report)
  : report :=
  mkReport (is_valid r) (errors r) (warnings r) (recommendations r)
           (dict_set (field_validations r) k fv) (summary r).
Definition set_summary (s : summary_counts) (r : report) : report :=
  mkReport (is_valid r) (errors r) (warnings r) (recommendations r)
           (field_validations r) (Some s).

(** The result of [validate_total_amount_accuracy]. *)
Record total_validation : Type := mkTotalValidation {
  tv_valid : bool;
  tv_warnings : list msg;
  tv_recommendations : list msg
}.

Section Validator.

(** [str(v)] for a value that is not a string, and whether
    [datetime.strptime(text, fmt)] succeeds: library functions, left open. *)
Variable py_str : pyval -> string.
Variable strptime_ok : string -> string -> bool.

Definition to_str (v : pyval) : string :=
  match v with
  | PStr s => s
  | _ => py_str v
  end.

Definition email_local_char (c : ascii) : bool :=
  is_alnum c || has_char c "._%+-".
Definition email_domain_char (c : ascii) : bool :=
  is_alnum c || has_char c ".-".

Definition all_chars (p : ascii -> bool) (s : string) : bool :=
  forallb p (list_ascii_of_string s).

(** A text without its final newline: the end anchor of a pattern also
    matches before a newline that ends the text. *)
Fixpoint chomp (s : string) : string :=
  match s with
  | EmptyString => EmptyString
  | String c EmptyString => if (code c =? 10)%N then EmptyString else s
  | String c r => String c (chomp r)
  end.

(** The part of the email pattern after the at sign: characters of the
    domain class, a dot, and two letters or more up to the end. *)
Definition email_domain_ok (w : string) : bool :=
  all_chars email_domain_char w &&
  match rfind_char "." w with
  | Some i =>
      let tld := String.substring (S i) (String.length w - S i) w in
      (0 <? i)%nat && (2 <=? String.length tld)%nat && all_chars is_alpha tld
  | None => false
  end.

(** [re.match(email_pattern, s)] *)
Definition email_match (s : string) : bool :=
  let '(loc, r) := span email_local_char s in
  nonempty loc &&
  match r with
  | String c dom => Ascii.eqb c "@" && email_domain_ok (chomp dom)
  | EmptyString => false
  end.

(** [DataValidator.validate_email] *)
Definition validate_email (email : pyval) : result exn bool :=
  if negb (truthy email) then Returns true
  else
    match email with
    | PStr s => Returns (email_match s)
    | _ => Raises TypeError
    end.

Fixpoint remove_chars (p : ascii -> bool) (s : string) : string :=
  match s with
  | EmptyString => EmptyString
  | String c r => if p c then remove_chars p r else String c (remove_chars p r)
  end.

(** [DataValidator.validate_phone] *)
Definition validate_phone (phone : pyval) : bool :=
  if negb (truthy phone) then true
  else
    let cleaned_phone :=
      remove_chars (fun c => is_space c || has_char c "-()+") (to_str phone) in
    (nonempty cleaned_phone && all_chars is_digit cleaned_phone)
    && (7 <=? String.length cleaned_phone)%nat
    && (String.length cleaned_phone <=? 15)%nat.

(** [DataValidator.validate_amount] *)
Definition validate_amount (amount : pyval) : result exn bool :=
  match amount with
  | PNone => Returns true
  | PStr s =>
      let cleaned_amount :=
        remove_chars (fun c => negb (is_digit c || has_char c ".-,")) s in
      if negb (nonempty cleaned_amount) then Returns true
      else
        match float_of_numeric (replace_char "," "." cleaned_amount) with
        | Some _ => Returns true
        | None => Returns false
        end
  | _ =>
      match float_of_value amount with
      | Returns _ => Returns true
      | Raises ValueError | Raises TypeError => Returns false
      | Raises e => Raises e
      end
  end.

Definition date_formats : list string :=
  ["%Y-%m-%d"; "%d/%m/%Y"; "%m/%d/%Y"; "%d-%m-%Y"; "%m-%d-%Y"; "%d.%m.%Y";
   "%B %d, %Y"; "%b %d, %Y"; "%d-%m-%Y"].

(** [DataValidator.validate_date] *)
Definition validate_date (date_str : pyval) : bool :=
  if negb (truthy date_str) then true
  else existsb (strptime_ok (to_str date_str)) date_formats.

(** [DataValidator.validate_invoice_number] *)
Definition validate_invoice_number (invoice_number : pyval) : bool :=
  if negb (truthy invoice_number) then true
  else
    let s := chomp (to_str invoice_number) in
    nonempty s && all_chars (fun c => is_alnum c || has_char c "-_/#") s.

(** The local [field_keywords] of [validate_required_fields]. *)
Definition required_keywords : list (string * list string) :=
  [ ("invoice_number", ["invoice number"; "invoice #"; "invoice id"]);
    ("total_amount", ["total"; "amount"; "total amount"; "grand total"; "final total";
                      "total cost"; "gross total"; "gross worth"]);
    ("vendor_name", ["vendor"; "supplier"; "company"; "from"; "sold by"]);
    ("date", ["date"; "invoice date"; "due date"]);
    ("customer_name", ["customer"; "client"; "to"; "bill to"]) ].

Definition pre_tax_terms : list string := ["taxable"; "net_worth"; "net_amount"].

(** [found] at the end of the loop over [data.keys()]. *)
Definition field_found (field : string) (keywords : list string) (data : dict)
  : bool :=
  existsb
    (fun kv =>
       let key_lower := lower (fst kv) in
       let matches :=
         existsb (fun keyword => contains (replace_char " " "_" keyword) key_lower)
                 keywords in
       if String.eqb field "total_amount"
       then matches && negb (any_in pre_tax_terms key_lower)
       else matches)
    data.

(** [DataValidator.validate_required_fields] *)
Definition validate_required_fields (data : dict) (user_prompt : string)
  : list string :=
  let prompt_lower := lower user_prompt in
  map fst
    (filter (fun fk => any_in (snd fk) prompt_lower
                       && negb (field_found (fst fk) (snd fk) data))
            required_keywords).

(** The three dictionaries of amounts. *)
Record amount_fields : Type := mkAmounts {
  total_amounts : list (string * PyFloat.float);
  taxable_amounts : list (string * PyFloat.float);
  other_amounts : list (string * PyFloat.float)
}.

(** One iteration of the loop that categorizes the amount fields. *)
Definition categorize_step (acc : amount_fields) (kv : string * pyval)
  : result exn amount_fields :=
  let '(key, value) := kv in
  let key_lower := lower key in
  if any_in ["amount"; "total"; "cost"; "price"; "worth"] key_lower then
    let converted :=
      match value with
      | PStr s => float_of_amount_text s
      | _ => float_of_value value
      end in
    match converted with
    | Returns numeric_value =>
        if any_in pre_tax_terms key_lower then
          Returns (mkAmounts (total_amounts acc)
                     (dict_set (taxable_amounts acc) key numeric_value)
                     (other_amounts acc))
        else if any_in ["total"; "grand"; "final"; "gross_worth"; "gross_total"] key_lower then
          Returns (mkAmounts (dict_set (total_amounts acc) key numeric_value)
                     (taxable_amounts acc) (other_amounts acc))
        else
          Returns (mkAmounts (total_amounts acc) (taxable_amounts acc)
                     (dict_set (other_amounts acc) key numeric_value))
    | Raises ValueError | Raises TypeError => Returns acc
    | Raises e => Raises e
    end
  else Returns acc.

Fixpoint categorize (acc : amount_fields) (data : dict) : result exn amount_fields :=
  match data with
  | [] => Returns acc
  | kv :: rest =>
      match categorize_step acc kv with
      | Returns acc' => categorize acc' rest
      | Raises e => Raises e
      end
  end.

(** [{**a, **b}] *)
Definition dict_merge {A : Type} (a b : list (string * A)) : list (string * A) :=
  fold_left (fun acc kv => dict_set acc (fst kv) (snd kv)) b a.

Definition common_tax_rates : list Z := [10; 15; 18; 20; 25]%Z.

(** The check of the two highest amounts; the division raises when the
    second one is zero. *)
Definition tax_rate_advice (all_amounts : list (string * PyFloat.float))
  : result exn (list msg) :=
  if (1 <? List.length all_amounts)%nat then
    match sort_desc (map snd all_amounts) with
    | highest :: second_highest :: _ =>
        if PyFloat.is_zero second_highest then Raises ZeroDivisionError
        else
          let difference_percent :=
            PyFloat.mul
              (PyFloat.div (PyFloat.sub highest second_highest) second_highest)
              (PyFloat.of_Z 100) in
          if existsb
               (fun rate =>
                  PyFloat.ltb
                    (PyFloat.abs (PyFloat.sub difference_percent (PyFloat.of_Z rate)))
                    (PyFloat.of_Z 1))
               common_tax_rates
          then Returns [TaxRateAdvice difference_percent highest]
          else Returns []
    | _ => Returns []
    end
  else Returns [].

(** The comparison of the highest total with the highest taxable value. *)
Definition compare_totals (a : amount_fields) : total_validation :=
  match map snd (total_amounts a), map snd (taxable_amounts a) with
  | t :: ts, x :: xs =>
      let max_total := py_max t ts in
      let max_taxable := py_max x xs in
      if PyFloat.gtb max_taxable max_total then
        mkTotalValidation false [TotalBelowTaxable max_total max_taxable]
                          [WrongAmountAdvice]
      else if PyFloat.eqb max_taxable max_total then
        mkTotalValidation true [TotalEqualsTaxable max_total] []
      else mkTotalValidation true [] []
  | [], _ :: _ => mkTotalValidation true [OnlyTaxableFound] [LookForGrossAdvice]
  | _, [] => mkTotalValidation true [] []
  end.

(** [DataValidator.validate_total_amount_accuracy] *)
Definition validate_total_amount_accuracy (data : dict) (user_prompt : string)
  : result exn total_validation :=
  let prompt_lower := lower user_prompt in
  if negb (any_in ["total"; "amount"; "cost"] prompt_lower) then
    Returns (mkTotalValidation true [] [])
  else
    match categorize (mkAmounts [] [] []) data with
    | Raises e => Raises e
    | Returns a =>
        let v := compare_totals a in
        let all_amounts :=
          dict_merge (dict_merge (dict_merge [] (total_amounts a)) (taxable_amounts a))
                     (other_amounts a) in
        match tax_rate_advice all_amounts with
        | Raises e => Raises e
        | Returns advice =>
            Returns (mkTotalValidation (tv_valid v) (tv_warnings v)
                       (tv_recommendations v ++ advice))
        end
    end.

Definition amount_field_terms : list string :=
  ["amount"; "total"; "price"; "cost"; "subtotal"; "tax"; "worth"].

(** [isinstance(v, (int, float))] *)
Definition is_number (v : pyval) : bool :=
  match v with PBool _ | PInt _ | PFloat _ => true | _ => false end.

(** The body of the loop over the fields, for one field.  An exception
    arises before the iteration has changed [validation_results]. *)
Definition validate_field (user_prompt : string) (r : report) (kv : string * pyval)
  : result exn report :=
  let '(field_name, field_value) := kv in
  let store fv r' := Returns (set_field_validation field_name fv r') in
  if is_none field_value then store (mkFieldValidation true FieldIsNull) r
  else
    let field_name_lower := lower field_name in
    if contains "email" field_name_lower then
      match validate_email field_value with
      | Raises e => Raises e
      | Returns true => store (mkFieldValidation true NoMessage) r
      | Returns false =>
          store (mkFieldValidation false InvalidEmailFormat)
                (add_errors [InvalidEmail field_name] r)
      end
    else if contains "phone" field_name_lower || contains "tel" field_name_lower then
      if validate_phone field_value then store (mkFieldValidation true NoMessage) r
      else store (mkFieldValidation false InvalidPhoneFormat)
                 (add_warnings [QuestionablePhone field_name] r)
    else if any_in amount_field_terms field_name_lower then
      match validate_amount field_value with
      | Raises e => Raises e
      | Returns false =>
          store (mkFieldValidation false InvalidAmountFormat)
                (add_errors [InvalidAmount field_name] r)
      | Returns true =>
          let converted :=
            if is_number field_value then float_of_value field_value
            else float_of_amount_text (to_str field_value) in
          match converted with
          | Returns numeric_value =>
              if any_in ["total"; "total amount"; "total cost"] (lower user_prompt) then
                if any_in pre_tax_terms field_name_lower then
                  store (mkFieldValidation true NoMessage)
                        (set_invalid
                           (add_errors [CriticalPreTax field_name numeric_value] r))
                else if any_in ["total"; "grand"; "final"; "gross"] field_name_lower then
                  store (mkFieldValidation true (CorrectlyIdentifiedTotal numeric_value)) r
                else store (mkFieldValidation true NoMessage) r
              else store (mkFieldValidation true NoMessage) r
          | Raises ValueError | Raises TypeError =>
              store (mkFieldValidation true NoMessage) r
          | Raises e => Raises e
          end
      end
    else if contains "date" field_name_lower then
      if validate_date field_value then store (mkFieldValidation true NoMessage) r
      else store (mkFieldValidation false InvalidDateFormat)
                 (add_warnings [QuestionableDate field_name] r)
    else if contains "invoice" field_name_lower && contains "number" field_name_lower then
      if validate_invoice_number field_value
      then store (mkFieldValidation true NoMessage) r
      else store (mkFieldValidation false InvalidInvoiceNumberFormat)
                 (add_warnings [QuestionableInvoiceNumber field_name] r)
    else store (mkFieldValidation true NoMessage) r.

(** The loop over the fields: the report reached, and the exception that
    stopped the loop, if any. *)
Fixpoint validate_fields (user_prompt : string) (r : report) (data : dict)
  : report * option exn :=
  match data with
  | [] => (r, None)
  | kv :: rest =>
      match validate_field user_prompt r kv with
      | Returns r' => validate_fields user_prompt r' rest
      | Raises e => (r, Some e)
      end
  end.

Definition initial_report : report := mkReport true [] [] [] [] None.

Definition count_valid (fvs : list (string * field_validation)) : nat :=
  List.length (filter (fun kfv => valid (snd kfv)) fvs).

(** The end of the [try] block, after the loop over the fields: the
    warnings for missing fields, the overall status and the summary. *)
Definition finish_report (extracted_data : dict) (user_prompt : string)
    (r3 : report) : report :=
  let missing_fields := validate_required_fields extracted_data user_prompt in
  let r4 := add_warnings (map PossiblyMissing missing_fields) r3 in
  let r5 := if dict_nonempty (errors r4) then set_invalid r4 else r4 in
  set_summary
    (mkSummary (List.length extracted_data)
               (count_valid (field_validations r5))
               (List.length (errors r5))
               (List.length (warnings r5))
               (List.length (recommendations r5)))
    r5.

(** The report after the check of the totals, before the loop over the
    fields. *)
Definition after_total_check (v : total_validation) : report :=
  let r1 :=
    add_recommendations (tv_recommendations v)
      (add_warnings (tv_warnings v) initial_report) in
  if tv_valid v then r1 else set_invalid r1.

(** The body of the [try] block after the check for empty data: the report
    reached, and the exception that left the block, if any. *)
Definition validation_body (extracted_data : dict) (user_prompt : string)
  : report * option exn :=
  match validate_total_amount_accuracy extracted_data user_prompt with
  | Raises e => (initial_report, Some e)
  | Returns total_validation =>
      match validate_fields user_prompt (after_total_check total_validation)
                            extracted_data with
      | (r3, Some e) => (r3, Some e)
      | (r3, None) => (finish_report extracted_data user_prompt r3, None)
      end
  end.

(** [validate_extraction] *)
Definition validate_extraction (extracted_data : dict) (user_prompt : string)
  : report :=
  if negb (dict_nonempty extracted_data) then
    add_errors [NoDataExtracted] (set_invalid initial_report)
  else
    match validation_body extracted_data user_prompt with
    | (r, None) => r
    | (r, Some e) => add_errors [ValidationError e] (set_invalid r)
    end.

End Validator.

(* ================================================================== *)
(** * InvoiceParser: cleaning of the extracted text *)
(* ================================================================== *)

(** The index of the last newline in the whitespace at the head of [s]. *)
Fixpoint last_newline_in_space (s : string) : option nat :=
  match s with
  | EmptyString => None
  | String c r =>
      if is_space c then
        match last_newline_in_space r with
        | Some j => Some (S j)
        | None => if (code c =? 10)%N then Some 0 else None
        end
      else None
  end.

Definition newline : ascii := ascii_of_N 10.

(** First substitution of [clean_extracted_text]: a newline, whitespace
    and a newline become two newlines.  The whitespace is matched as far as
    its last newline; [skip] counts the characters of the match just
    replaced. *)
Fixpoint collapse_blank_lines (skip : nat) (s : string) : string :=
  match s with
  | EmptyString => EmptyString
  | String c r =>
      match skip with
      | S k => collapse_blank_lines k r
      | O =>
          if (code c =? 10)%N then
            match last_newline_in_space r with
            | Some j => String newline (String newline (collapse_blank_lines (S j) r))
            | None => String c (collapse_blank_lines 0 r)
            end
          else String c (collapse_blank_lines 0 r)
      end
  end.

(** Second substitution: a run of spaces becomes one space. *)
Fixpoint collapse_spaces (s : string) : string :=
  match s with
  | EmptyString => EmptyString
  | String c r =>
      if Ascii.eqb c " " then
        match r with
        | String d _ => if Ascii.eqb d " " then collapse_spaces r
                        else String c (collapse_spaces r)
        | EmptyString => String c EmptyString
        end
      else String c (collapse_spaces r)
  end.

(** The class of the last substitution, on the code of a character: the
    codes 0 to 8, 11, 12, 14 to 31 and 127 to 255; on ASCII text these are
    the control characters other than TAB, LF and CR. *)
Definition is_control (c : ascii) : bool :=
  in_range 0 8 c || in_range 11 12 c || in_range 14 31 c || in_range 127 255 c.

(** [InvoiceParser.clean_extracted_text] *)
Definition clean_extracted_text (text : string) : string :=
  remove_chars is_control (strip (collapse_spaces (collapse_blank_lines 0 text))).

(* ================================================================== *)
(** * validate_json_response *)
(* ================================================================== *)

(** [field_mappings], in insertion order. *)
Definition field_mappings : list (string * list string) :=
  [ ("invoice_number", ["Invoice Number"; "invoice_number"; "InvoiceNumber"]);
    ("date", ["Date of Issue"; "date"; "Date"; "invoice_date"]);
    ("seller", ["Seller"; "seller"; "vendor"; "from"]);
    ("client", ["Client"; "client"; "customer"; "to"]);
    ("total", ["gross_total"; "gross_worth"; "final_total"; "grand_total";
               "total"; "Total"; "amount_due"]);
    ("taxable_value", ["taxable_value"; "taxable_amount"; "net_worth"; "net_amount"]);
    ("items", ["Items"; "items"; "line_items"]) ].

(** The value of the first of [names] that is a key of [data]. *)
Fixpoint first_present (names : list string) (data : dict) : option pyval :=
  match names with
  | [] => None
  | name :: rest =>
      match dict_get data name with
      | Some v => Some v
      | None => first_present rest data
      end
  end.

(** One iteration of the loop over [field_mappings]. *)
Definition map_field (data : dict) (validated_data : dict)
    (fm : string * list string) : dict :=
  match first_present (snd fm) data with
  | Some v => dict_set validated_data (fst fm) v
  | None => validated_data
  end.

(** The priority of a key as a candidate for the total, if it is one. *)
Definition candidate_priority (key_lower : string) : option nat :=
  if any_in ["gross_total"; "gross_worth"; "final_total"; "grand_total"] key_lower
  then Some 1
  else if any_in ["total"; "amount_due"] key_lower
          && negb (any_in ["taxable"; "net_worth"; "net_amount"; "subtotal"] key_lower)
  then Some 2
  else if any_in ["amount"] key_lower
          && negb (any_in ["taxable"; "net_"; "subtotal"] key_lower)
  then Some 3
  else None.

(** The dictionary [total_candidates]: value and priority by key. *)
Definition total_candidates (data : dict) : list (string * (pyval * nat)) :=
  fold_left
    (fun acc kv =>
       match candidate_priority (lower (fst kv)) with
       | Some p => dict_set acc (fst kv) (snd kv, p)
       | None => acc
       end)
    data [].

(** [min(items, key=priority)] of a non-empty list: the first item of the
    least priority. *)
Definition min_candidate (c : string * (pyval * nat))
    (l : list (string * (pyval * nat))) : string * (pyval * nat) :=
  fold_left (fun best x => if (snd (snd x) <? snd (snd best))%nat then x else best) l c.

(** The special handling of a missing total. *)
Definition add_fallback_total (data validated_data : dict) : dict :=
  match dict_get validated_data "total" with
  | Some _ => validated_data
  | None =>
      match total_candidates data with
      | [] => validated_data
      | c :: l => dict_set validated_data "total" (fst (snd (min_candidate c l)))
      end
  end.

(** The validation of the items: the elements that are dictionaries. *)
Definition keep_dict_items (validated_data : dict) : dict :=
  match dict_get validated_data "items" with
  | Some (PList items) => dict_set validated_data "items" (PList (filter is_dict items))
  | _ => validated_data
  end.

(** [validate_json_response] *)
Definition validate_json_response (data : pyval) : dict :=
  match data with
  | PDict d =>
      match dict_get d "error" with
      | Some _ => d
      | None =>
          keep_dict_items
            (add_fallback_total d (fold_left (map_field d) field_mappings []))
      end
  | _ => [("error", PStr "Invalid response format")]
  end.

(** The printable characters: the codes 33 to 126. *)
Definition printable (c : ascii) : bool := in_range 33 126 c.

(** The printable characters of a text, in order. *)
Definition printable_part (s : string) : string :=
  remove_chars (fun c => negb (printable c)) s.

Definition standard_fields : list string := map fst field_mappings.

(* ================================================================== *)
(** * Scenarios and notions of the statements *)
(* ================================================================== *)

(** The float a decimal literal of the scenarios denotes: [dec m e] is
    [m * 10^e]. *)
Definition dec (m : N) (e : Z) : pyval := PFloat (PyFloat.of_decimal false m e).

Definition scenario_request : string := "Extract the invoice number and total.".

Definition scenario_raw : dict :=
  [ ("invoice_number", PStr "INV-001");
    ("net_worth", dec 19281 (-2));
    ("vat", dec 1928 (-2));
    ("gross_worth", dec 21209 (-2)) ].

(** A key is a candidate for the total when it holds none of the
    excluded terms and holds a name of the priority list or the word total. *)
Definition total_candidate (kv : string * pyval) : bool :=
  let key_lower := lower (fst kv) in
  negb (any_in total_avoid key_lower)
  && (any_in total_priority key_lower || contains "total" key_lower).

(** The text [{"a": 1, "b": 2,}], with a trailing comma. *)
Definition trailing_comma_response : string :=
  ("{" ++ q "a" ++ ": 1, " ++ q "b" ++ ": 2,}")%string.

(** The text [{'a': 1}], with single quotes. *)
Definition single_quote_response : string := "{'a': 1}".

(** The strict parse of a response: the first [json.loads] of
    [parse_llm_response]. *)
Definition strict_parse (response : string) : option pyval :=
  loads (isolate_json (strip_fences (strip response))).

(** One iteration of [post_process_data]. *)
Definition post_process_step (processed_data : dict) (kv : string * pyval) : dict :=
  dict_set processed_data (clean_key (fst kv))
           (post_process_value (clean_key (fst kv)) (snd kv)).

(** [grows r r']: from [r] to [r'] the report is invalidated only together
    with an error, and it loses neither its invalidity nor its errors nor
    gains a summary. *)
Definition grows (r r' : report) : Prop :=
  (is_valid r' = false -> is_valid r = false \/ errors r' <> [])
  /\ (is_valid r = false -> is_valid r' = false)
  /\ (errors r <> [] -> errors r' <> [])
  /\ (summary r = None -> summary r' = None).

(** Whether the cross-field check of the totals reported the highest
    taxable value above the highest total. *)
Definition total_check_failed (data : dict) (user_prompt : string) : bool :=
  match validate_total_amount_accuracy data user_prompt with
  | Returns v => negb (tv_valid v)
  | Raises _ => false
  end.

Definition pre_tax_only : dict := [("taxable_value", dec 2000 (-1))].

Definition inverted_totals : dict := [("total", PInt 100); ("net_worth", PInt 200)].

(** Stand-ins for the two library functions, for the evaluation of the
    validator on the inputs that do not reach them. *)
Definition no_str : pyval -> string := fun _ => EmptyString.
Definition no_strptime : string -> string -> bool := fun _ _ => false.

Definition scenario_canonical : dict :=
  [ ("invoice_number", PStr "INV-001"); ("gross_worth", dec 21209 (-2)) ].

(** The exception that leaves the checks of [validate_extraction], if any. *)
Definition validation_exception (py_str : pyval -> string)
    (strptime_ok : string -> string -> bool) (data : dict) (user_prompt : string)
  : option exn :=
  snd (validation_body py_str strptime_ok data user_prompt).

(** The character-wise image of a text. *)
Fixpoint smap (f : ascii -> ascii) (s : string) : string :=
  match s with
  | EmptyString => EmptyString
  | String c r => String (f c) (smap f r)
  end.

(** What [clean_key] does to one character of the trimmed key. *)
Definition clean_char (c : ascii) : ascii :=
  let l := lower_char c in
  if Ascii.eqb l " " then "_"%char
  else if Ascii.eqb l "-" then "_"%char
  else l.

(** A key in canonical form: no upper-case letter, space or hyphen, and no
    whitespace at either end. *)
Definition canonical_key (k : string) : Prop :=
  forallb (fun c => negb (is_upper c || Ascii.eqb c " " || Ascii.eqb c "-"))
          (list_ascii_of_string k) = true
  /\ strip k = k.

(** A value in canonical form: a string value is trimmed, not empty and
    no placeholder. *)
Definition canonical_value (v : pyval) : Prop :=
  match v with
  | PStr s => strip s = s /\ nonempty s = true /\ mem (lower s) null_words = false
  | _ => True
  end.

(** A text that does not begin with whitespace. *)
Definition no_leading_space (s : string) : bool :=
  match s with
  | EmptyString => true
  | String c _ => negb (is_space c)
  end.

(** A text without its first [n] characters. *)
Fixpoint drop_chars (n : nat) (s : string) : string :=
  match n, s with
  | O, _ => s
  | S k, String _ r => drop_chars k r
  | S _, EmptyString => EmptyString
  end.

(** The amount a value stands for in the check of the totals: the
    conversion [validate_total_amount_accuracy] applies to the value of an
    amount-bearing key. *)
Definition amount_of_value (value : pyval) : result exn PyFloat.float :=
  match value with
  | PStr s => float_of_amount_text s
  | _ => float_of_value value
  end.

(** The field validation of a null value. *)
Definition null_validation : field_validation := mkFieldValidation true FieldIsNull.

(** The amounts recorded so far come from amount-bearing fields of [data]. *)
Definition amounts_from (data : dict) (a : amount_fields) : Prop :=
  forall k x,
    In (k, x) (total_amounts a) \/ In (k, x) (taxable_amounts a)
    \/ In (k, x) (other_amounts a) ->
    any_in ["amount"; "total"; "cost"; "price"; "worth"] (lower k) = true
    /\ exists v, In (k, v) data /\ amount_of_value v = Returns x.


(** Where an error of a report comes from: the early return for an empty
    mapping, the handler of an exception, or the check of a field whose key
    is of the class the error is about. *)
Definition error_origin (data : dict) (user_prompt : string) (m : msg) : Prop :=
  match m with
  | NoDataExtracted => data = []
  | ValidationError _ => True
  | InvalidEmail k =>
      In k (map fst data) /\ contains "email" (lower k) = true
  | InvalidAmount k =>
      In k (map fst data) /\ any_in amount_field_terms (lower k) = true
  | CriticalPreTax k _ =>
      In k (map fst data)
      /\ any_in pre_tax_terms (lower k) = true
      /\ any_in ["total"; "total amount"; "total cost"] (lower user_prompt) = true
  | _ => False
  end.

(** The automaton under an array: while the outermost container is an
    array the mode is not [MDone], and the value it ends with is a list. *)
Definition under_array (ms : mode * list frame) : Prop :=
  (exists st1 acc, snd ms = st1 ++ [FArr acc]) /\ forall w, fst ms <> MDone w.

(** The texts on which the embedding reads a character as CPython does:
    those of ASCII characters. *)
Definition is_ascii (c : ascii) : bool := (code c <? 128)%N.
Definition ascii_text (s : string) : bool := all_chars is_ascii s.

(** A text with a minus sign before it, or without; the integer a signed
    run of digits denotes. *)
Definition signed (neg : bool) (s : string) : string :=
  if neg then String "-" s else s.

Definition signed_value (neg : bool) (ds : string) : Z :=
  let v := Z.of_N (digits_value ds) in if neg then (- v)%Z else v.

(** A text with blank lines, runs of spaces, a NUL and a form feed. *)
Definition control_text : string :=
  ("  Invoice   42" ++ String (ascii_of_N 0) (String newline (String " " (String newline
     (String (ascii_of_N 12) "Total:  5 ")))))%string.

(** A run of [n] nines. *)
Definition nines (n : nat) : string := string_of_list_ascii (repeat "9"%char n).

Arguments any_in : simpl never.
Arguments contains : simpl never.
Arguments lower : simpl never.

(* ================================================================== *)
(** * Properties of the field filter *)
(* ================================================================== *)

(** The request of the scenario asks for the invoice number and the total,
    in a specific way. *)
Lemma scenario_analysis :
  analyze_user_request scenario_request
  = mkAnalysis ["invoice_number"; "total_amount"] true Specific.
Proof. vm_compute. reflexivity. Qed.

(** C1: for the request "Extract the invoice number and total." and the raw
    mapping with invoice_number, net_worth, vat and gross_worth, the filter
    returns exactly the pairs of gross_worth and invoice_number; net_worth
    and vat are not in the result. *)
Theorem C1_filter_scenario :
  filter_extracted_data scenario_raw scenario_request
  = [ ("gross_worth", dec 21209 (-2)); ("invoice_number", PStr "INV-001") ]
  /\ dict_get (filter_extracted_data scenario_raw scenario_request) "net_worth" = None
  /\ dict_get (filter_extracted_data scenario_raw scenario_request) "vat" = None.
Proof. repeat split; vm_compute; reflexivity. Qed.

Lemma best_total_step_some (b : string * pyval) (kv : string * pyval) :
  best_total_step (Some b) kv = Some b.
Proof.
  unfold best_total_step. destruct kv as [k v].
  destruct (any_in total_avoid (lower k)); [reflexivity|].
  destruct (any_in total_priority (lower k)); reflexivity.
Qed.

Lemma best_total_step_none (kv : string * pyval) :
  best_total_step None kv = if total_candidate kv then Some kv else None.
Proof.
  unfold best_total_step, total_candidate. destruct kv as [k v]. simpl.
  destruct (any_in total_avoid (lower k)); simpl; [reflexivity|].
  destruct (any_in total_priority (lower k)); simpl; [reflexivity|].
  destruct (contains "total" (lower k)); reflexivity.
Qed.

Lemma fold_best_total_some (data : dict) (b : string * pyval) :
  fold_left best_total_step data (Some b) = Some b.
Proof.
  induction data as [|kv rest IH]; simpl; [reflexivity|].
  rewrite best_total_step_some. exact IH.
Qed.

(** The loop keeps the first candidate in the order of the mapping: the
    priority list decides whether a key is a candidate, not which candidate
    is kept. *)
Lemma best_total_is_first_candidate (data : dict) :
  best_total data = find total_candidate data.
Proof.
  unfold best_total.
  induction data as [|kv rest IH]; simpl; [reflexivity|].
  rewrite best_total_step_none.
  destruct (total_candidate kv); [apply fold_best_total_some | exact IH].
Qed.

(** C2: evaluation of the filter on a mapping with a total key before a
    gross_total key.  The key kept for the total is the first candidate of
    the mapping, total, and not the one of highest priority, gross_total;
    the result holds both pairs, and with the keys in the other order it
    holds the gross_total pair alone. *)
Theorem C2_total_follows_key_order :
  best_total [("total", PInt 100); ("gross_total", PInt 120)]
  = Some ("total", PInt 100)
  /\ best_total [("gross_total", PInt 120); ("total", PInt 100)]
     = Some ("gross_total", PInt 120)
  /\ filter_extracted_data [("total", PInt 100); ("gross_total", PInt 120)]
       "what is the total?"
     = [("total", PInt 100); ("gross_total", PInt 120)]
  /\ filter_extracted_data [("gross_total", PInt 120); ("total", PInt 100)]
       "what is the total?"
     = [("gross_total", PInt 120)].
Proof. repeat split; vm_compute; reflexivity. Qed.






Lemma dict_set_nonempty {A : Type} (d : list (string * A)) (k : string) (v : A) :
  dict_set d k v <> [].
Proof.
  destruct d as [|[k' v'] r]; simpl; [discriminate|].
  destruct (String.eqb k' k); discriminate.
Qed.

Lemma dict_nonempty_false {A : Type} (d : list A) :
  dict_nonempty d = false <-> d = [].
Proof. destruct d; simpl; split; intro H; try reflexivity; discriminate. Qed.

Lemma first_non_null_spec (data : dict) (k : string) (v : pyval) :
  first_non_null data = Some (k, v) -> In (k, v) data /\ v <> PNone.
Proof.
  unfold first_non_null. intro H. apply find_some in H.
  destruct H as [Hin Hv]. split; [exact Hin|].
  simpl in Hv. intro Heq. subst v. discriminate.
Qed.

(** C10: on a non-empty raw mapping the filter returns a non-empty mapping;
    when the selection by intent is empty, the result is the whole raw
    mapping or, for a request of three words or fewer, the single first
    pair whose value is not null. *)
Theorem C10_filter_keeps_some_data (extracted_data : dict) (user_prompt : string) :
  extracted_data <> [] ->
  filter_extracted_data extracted_data user_prompt <> []
  /\ (intent_filtered extracted_data user_prompt = [] ->
      filter_extracted_data extracted_data user_prompt = extracted_data
      \/ ((word_count user_prompt <= 3)%nat
          /\ exists k v,
               In (k, v) extracted_data /\ v <> PNone
               /\ filter_extracted_data extracted_data user_prompt = [(k, v)])).
Proof.
  intro Hne. unfold filter_extracted_data.
  destruct (extraction_type (analyze_user_request user_prompt));
    try (split; [exact Hne | intros _; left; reflexivity]).
  all: destruct (negb (dict_nonempty (requested_fields (analyze_user_request user_prompt)))
                 && negb (is_specific_request (analyze_user_request user_prompt)));
    try (split; [exact Hne | intros _; left; reflexivity]).
  all: destruct (intent_filtered extracted_data user_prompt) as [|p f] eqn:Hf;
    cbn [dict_nonempty negb andb];
    try (split; [discriminate | intro Habs; discriminate Habs]).
  all: destruct extracted_data as [|kv0 rest]; [contradiction|];
    cbn [dict_nonempty].
  all: destruct (word_count user_prompt <=? 3)%nat eqn:Hwc;
    try (split; [exact Hne | intros _; left; reflexivity]).
  all: destruct (first_non_null (kv0 :: rest)) as [[k v]|] eqn:Hfn;
    try (split; [exact Hne | intros _; left; reflexivity]).
  all: split; [apply dict_set_nonempty|].
  all: intros _; right; split; [apply Nat.leb_le; exact Hwc|].
  all: exists k, v; apply first_non_null_spec in Hfn; destruct Hfn as [Hin Hv].
  all: repeat split; assumption.
Qed.

(** The theorem at a mapping of two pairs and the request phone, which
    selects nothing. *)
Lemma C10_filter_keeps_some_data_witness :
  filter_extracted_data [("foo", PNone); ("bar", PInt 7)] "phone" <> []
  /\ (intent_filtered [("foo", PNone); ("bar", PInt 7)] "phone" = [] ->
      filter_extracted_data [("foo", PNone); ("bar", PInt 7)] "phone"
      = [("foo", PNone); ("bar", PInt 7)]
      \/ ((word_count "phone" <= 3)%nat
          /\ exists k v,
               In (k, v) [("foo", PNone); ("bar", PInt 7)] /\ v <> PNone
               /\ filter_extracted_data [("foo", PNone); ("bar", PInt 7)] "phone"
                  = [(k, v)])).
Proof.
  apply (C10_filter_keeps_some_data [("foo", PNone); ("bar", PInt 7)] "phone").
  discriminate.
Defined.

(* ================================================================== *)
(** * Properties of response parsing *)
(* ================================================================== *)

(** The repair pass puts both texts into strict JSON. *)
Lemma repair_of_scenarios :
  fix_common_json_issues trailing_comma_response
  = ("{" ++ q "a" ++ ": 1, " ++ q "b" ++ ": 2}")%string
  /\ fix_common_json_issues single_quote_response = ("{" ++ q "a" ++ ": 1}")%string.
Proof. split; vm_compute; reflexivity. Qed.

(** C7: the response with a trailing comma and the response in single
    quotes both fail the strict parse and are returned as mappings by the
    one repair attempt; the response "not json at all" raises the failure
    to parse. *)
Theorem C7_repair_scenarios :
  (strict_parse trailing_comma_response = None
   /\ parse_llm_response trailing_comma_response
      = Returns (PDict [("a", PInt 1); ("b", PInt 2)]))
  /\ (strict_parse single_quote_response = None
      /\ parse_llm_response single_quote_response = Returns (PDict [("a", PInt 1)]))
  /\ parse_llm_response "not json at all" = Raises FailedToParseAsJSON.
Proof. repeat split; vm_compute; reflexivity. Qed.

(** C6: evaluation of [parse_llm_response] on a JSON array with a trailing
    comma.  The strict parse fails, the repaired text parses to a list, and
    the list is returned: the handler of the decode error returns the
    repaired value without the test for a dictionary that the strict path
    makes, which rejects the same array without the comma. *)
Theorem C6_repaired_array_is_returned :
  strict_parse "[1, 2,]" = None
  /\ parse_llm_response "[1, 2,]" = Returns (PList [PInt 1; PInt 2])
  /\ is_dict (PList [PInt 1; PInt 2]) = false
  /\ parse_llm_response "[1, 2]" = Raises NotAJSONObject.
Proof. repeat split; vm_compute; reflexivity. Qed.

(* ================================================================== *)
(** * Properties of post-processing *)
(* ================================================================== *)

Lemma dict_get_set_same {A : Type} (d : list (string * A)) (k : string) (v : A) :
  dict_get (dict_set d k v) k = Some v.
Proof.
  induction d as [|[k' v'] r IH]; simpl.
  - rewrite String.eqb_refl. reflexivity.
  - destruct (String.eqb k' k) eqn:E; simpl; rewrite E; [reflexivity | exact IH].
Qed.

Lemma dict_get_set_other {A : Type} (d : list (string * A)) (k k0 : string) (v : A) :
  k0 <> k -> dict_get (dict_set d k0 v) k = dict_get d k.
Proof.
  intro Hne. induction d as [|[k' v'] r IH]; simpl.
  - destruct (String.eqb k0 k) eqn:E; [|reflexivity].
    apply String.eqb_eq in E. contradiction.
  - destruct (String.eqb k' k0) eqn:E0; simpl.
    + apply String.eqb_eq in E0. subst k'.
      destruct (String.eqb k0 k) eqn:E; [|reflexivity].
      apply String.eqb_eq in E. contradiction.
    + destruct (String.eqb k' k); [reflexivity | exact IH].
Qed.

Lemma post_process_data_fold (data : dict) :
  post_process_data data = fold_left post_process_step data [].
Proof. reflexivity. Qed.

Lemma post_process_later_keys (after : dict) (acc : dict) (ck : string) :
  (forall kv, In kv after -> clean_key (fst kv) <> ck) ->
  dict_get (fold_left post_process_step after acc) ck = dict_get acc ck.
Proof.
  revert acc. induction after as [|kv rest IH]; intros acc H; simpl; [reflexivity|].
  rewrite IH.
  - unfold post_process_step. apply dict_get_set_other. apply H. left. reflexivity.
  - intros kv' Hin. apply H. right. exact Hin.
Qed.

(** The value of a canonical key is the processed value of the last pair
    with that canonical key. *)
Lemma post_process_data_last (before after : dict) (key : string) (value : pyval) :
  (forall kv, In kv after -> clean_key (fst kv) <> clean_key key) ->
  dict_get (post_process_data (before ++ (key, value) :: after)) (clean_key key)
  = Some (post_process_value (clean_key key) value).
Proof.
  intro H. rewrite post_process_data_fold, fold_left_app. simpl.
  rewrite post_process_later_keys by exact H.
  unfold post_process_step. simpl. apply dict_get_set_same.
Qed.

(** C8, as stated, fails: under the key tax the text abc, which is no
    placeholder and holds no digit, becomes null and is not kept. *)
Lemma C8_digitless_text_counterexample :
  any_in amount_keys (clean_key "tax") = true
  /\ mem (lower (strip "abc")) null_words = false
  /\ post_process_data [("tax", PStr "abc")] = [("tax", PNone)]
  /\ post_process_data [("tax", PStr "abc")] <> [("tax", PStr "abc")].
Proof.
  repeat split; try (vm_compute; reflexivity).
  vm_compute. discriminate.
Qed.

Lemma span_all (p : ascii -> bool) (a : string) :
  all_chars p a = true -> span p a = (a, EmptyString).
Proof.
  unfold all_chars. induction a as [|c r IH]; cbn [list_ascii_of_string forallb span];
    [reflexivity|].
  intro H. apply andb_true_iff in H. destruct H as [Hc Hr].
  rewrite Hc, (IH Hr). reflexivity.
Qed.

Lemma span_until (p : ascii -> bool) (a : string) (c : ascii) (r : string) :
  all_chars p a = true -> p c = false ->
  span p (a ++ String c r)%string = (a, String c r).
Proof.
  unfold all_chars. intros Ha Hc.
  induction a as [|x a' IH]; cbn [list_ascii_of_string forallb] in Ha;
    cbn [append span].
  - rewrite Hc. reflexivity.
  - apply andb_true_iff in Ha. destruct Ha as [Hx Ha].
    rewrite Hx, (IH Ha). reflexivity.
Qed.

Lemma has_char_none_of (p : ascii -> bool) (c : ascii) (a : string) :
  all_chars p a = true -> p c = false -> has_char c a = false.
Proof.
  unfold all_chars. intros Ha Hc.
  induction a as [|x a' IH]; cbn [list_ascii_of_string forallb] in Ha;
    cbn [has_char]; [reflexivity|].
  apply andb_true_iff in Ha. destruct Ha as [Hx Ha]. rewrite (IH Ha), orb_false_r.
  destruct (Ascii.eqb x c) eqn:E; [|reflexivity].
  apply Ascii.eqb_eq in E. subst x. rewrite Hx in Hc. discriminate Hc.
Qed.

Lemma has_char_after (c : ascii) (a r : string) :
  has_char c (a ++ String c r)%string = true.
Proof.
  induction a as [|x a' IH]; cbn [append has_char].
  - rewrite Ascii.eqb_refl. reflexivity.
  - rewrite IH. apply orb_true_r.
Qed.

Lemma digits_no_sign (ds : string) :
  all_chars is_digit ds = true ->
  split_sign ds = (false, ds).
Proof.
  unfold all_chars. destruct ds as [|c r]; [reflexivity|].
  cbn [list_ascii_of_string forallb split_sign]. intro H.
  apply andb_true_iff in H. destruct H as [Hc _].
  destruct (Ascii.eqb c "-") eqn:E; [|reflexivity].
  apply Ascii.eqb_eq in E. subst c. discriminate Hc.
Qed.

(** [int] of a signed run of digits: its value, unless the digits are more
    than [int_max_str_digits]. *)
Lemma int_of_signed_digits (neg : bool) (ds : string) :
  nonempty ds = true -> all_chars is_digit ds = true ->
  int_of_numeric (signed neg ds)
  = if (N.of_nat (String.length ds) <=? int_max_str_digits)%N
    then Some (signed_value neg ds) else None.
Proof.
  intros Hne Hds. unfold int_of_numeric.
  assert (Hsign : split_sign (signed neg ds) = (neg, ds)).
  { destruct neg; [reflexivity|].
    apply digits_no_sign. exact Hds. }
  rewrite Hsign, (span_all is_digit ds Hds), Hne. reflexivity.
Qed.

(** [float] of a signed text of digits, a dot and digits, with a digit on
    one side of the dot at least. *)
Lemma float_of_signed_decimal (neg : bool) (ip fp : string) :
  all_chars is_digit ip = true -> all_chars is_digit fp = true ->
  nonempty (ip ++ fp)%string = true ->
  float_of_numeric (signed neg (ip ++ String "." fp)%string)
  = Some (PyFloat.of_decimal neg (digits_value (ip ++ fp)%string)
            (- Z.of_nat (String.length fp))).
Proof.
  intros Hip Hfp Hne. unfold float_of_numeric.
  assert (Hsign : split_sign (signed neg (ip ++ String "." fp)%string)
                  = (neg, (ip ++ String "." fp)%string)).
  { destruct neg; [reflexivity|].
    unfold signed. destruct ip as [|c r]; [reflexivity|].
    unfold all_chars in Hip. cbn [list_ascii_of_string forallb] in Hip.
    apply andb_true_iff in Hip. destruct Hip as [Hc _].
    cbn [append split_sign].
    destruct (Ascii.eqb c "-") eqn:E; [|reflexivity].
    apply Ascii.eqb_eq in E. subst c. discriminate Hc. }
  rewrite Hsign, (span_until is_digit ip "." fp Hip eq_refl).
  cbv beta iota. change (Ascii.eqb "." ".") with true. cbv iota.
  rewrite (span_all is_digit fp Hfp).
  assert (Hor : nonempty ip || nonempty fp = true)
    by (destruct ip; [exact Hne | reflexivity]).
  rewrite Hor. reflexivity.
Qed.

(** C8 (amended): for a string value of ASCII characters that, trimmed, is
    neither empty nor a placeholder, under a key whose canonical form
    contains amount, total, price, cost or tax, [post_process_data] deletes
    every character that is not a digit, a dot or a minus sign.  When
    nothing is left the value becomes null.  When a dot is left the value
    becomes the float the text denotes, and a signed text of digits, a dot
    and digits with a digit at least does denote one.  When no dot is left
    the value becomes the integer the text denotes, and a signed run of at
    most 4300 digits does denote one while a longer run does not.  Whenever
    the conversion fails the value is kept as the trimmed string. *)
Theorem C8_amount_text_coercion (before after : dict) (key s : string) :
  (forall kv, In kv after -> clean_key (fst kv) <> clean_key key) ->
  any_in amount_keys (clean_key key) = true ->
  ascii_text s = true ->
  nonempty (strip s) = true ->
  mem (lower (strip s)) null_words = false ->
  let numeric_value := strip_non_numeric (strip s) in
  let stored :=
    dict_get (post_process_data (before ++ (key, PStr s) :: after)) (clean_key key) in
  (numeric_value = EmptyString -> stored = Some PNone)
  /\ (has_char "." numeric_value = true ->
      forall x, float_of_numeric numeric_value = Some x -> stored = Some (PFloat x))
  /\ (has_char "." numeric_value = true ->
      float_of_numeric numeric_value = None -> stored = Some (PStr (strip s)))
  /\ (has_char "." numeric_value = false -> numeric_value <> EmptyString ->
      forall z, int_of_numeric numeric_value = Some z -> stored = Some (PInt z))
  /\ (has_char "." numeric_value = false -> numeric_value <> EmptyString ->
      int_of_numeric numeric_value = None -> stored = Some (PStr (strip s)))
  /\ (forall neg ip fp,
        numeric_value = signed neg (ip ++ String "." fp)%string ->
        all_chars is_digit ip = true -> all_chars is_digit fp = true ->
        nonempty (ip ++ fp)%string = true ->
        stored = Some (PFloat (PyFloat.of_decimal neg (digits_value (ip ++ fp)%string)
                                 (- Z.of_nat (String.length fp)))))
  /\ (forall neg ds,
        numeric_value = signed neg ds ->
        nonempty ds = true -> all_chars is_digit ds = true ->
        stored = Some (if (N.of_nat (String.length ds) <=? int_max_str_digits)%N
                       then PInt (signed_value neg ds) else PStr (strip s))).
Proof.
  intros Hafter Hkey _ Hne Hnull numeric_value stored.
  assert (Hstored : stored = Some (post_process_value (clean_key key) (PStr s))).
  { unfold stored. apply post_process_data_last. exact Hafter. }
  rewrite Hstored. unfold post_process_value.
  rewrite Hne, Hnull, Hkey. cbn [negb orb].
  fold numeric_value.
  repeat split.
  - intro H0. rewrite H0. reflexivity.
  - intros Hdot x Hx. rewrite Hdot, Hx. reflexivity.
  - intros Hdot Hx. rewrite Hdot, Hx. reflexivity.
  - intros Hdot Hn z Hz. rewrite Hdot, Hz.
    destruct numeric_value; [contradiction | reflexivity].
  - intros Hdot Hn Hz. rewrite Hdot, Hz.
    destruct numeric_value; [contradiction | reflexivity].
  - intros neg ip fp Hshape Hip Hfp Hdigit. rewrite Hshape.
    assert (Hdot : has_char "." (signed neg (ip ++ String "." fp)%string) = true).
    { destruct neg; unfold signed; cbn [has_char]; rewrite has_char_after;
        [apply orb_true_r | reflexivity]. }
    rewrite Hdot, (float_of_signed_decimal neg ip fp Hip Hfp Hdigit). reflexivity.
  - intros neg ds Hshape Hds Hdigits. rewrite Hshape.
    assert (Hdot : has_char "." (signed neg ds) = false).
    { destruct neg; unfold signed; cbn [has_char];
        rewrite (has_char_none_of is_digit "." ds Hdigits eq_refl); reflexivity. }
    assert (Hn : nonempty (signed neg ds) = true)
      by (destruct neg; [reflexivity | exact Hds]).
    rewrite Hdot, Hn, (int_of_signed_digits neg ds Hds Hdigits).
    destruct (N.of_nat (String.length ds) <=? int_max_str_digits)%N; reflexivity.
Qed.

(** The theorem at four texts under the key total: an amount with a
    currency sign and a comma becomes a float, an amount with a comma and a
    unit becomes an integer, digits around a minus sign are kept as the
    text, and so is a run of 4301 digits. *)
Lemma C8_amount_text_coercion_witness :
  dict_get (post_process_data [("Total", PStr "$1,234.50")]) "total"
  = Some (dec 12345 (-1))
  /\ dict_get (post_process_data [("Total", PStr " 1,234 USD ")]) "total"
     = Some (PInt 1234)
  /\ dict_get (post_process_data [("Total", PStr " 1-2 ")]) "total"
     = Some (PStr "1-2")
  /\ dict_get (post_process_data [("Total", PStr (nines 4301))]) "total"
     = Some (PStr (nines 4301)).
Proof.
  assert (Hafter : forall kv : string * pyval,
             In kv [] -> clean_key (fst kv) <> clean_key "Total")
    by (intros kv Hin; destruct Hin).
  split; [|split; [|split]].
  - etransitivity.
    + refine (proj1 (proj2 (proj2 (proj2 (proj2 (proj2
                (C8_amount_text_coercion [] [] "Total" "$1,234.50" Hafter _ _ _ _))))))
                false "1234" "50" _ _ _ _); vm_compute; reflexivity.
    + vm_compute. reflexivity.
  - refine (proj2 (proj2 (proj2 (proj2 (proj2 (proj2
              (C8_amount_text_coercion [] [] "Total" " 1,234 USD " Hafter _ _ _ _))))))
              false "1234" _ _ _); vm_compute; reflexivity.
  - refine (proj1 (proj2 (proj2 (proj2 (proj2
              (C8_amount_text_coercion [] [] "Total" " 1-2 " Hafter _ _ _ _)))))
              _ _ _); vm_compute; solve [reflexivity | discriminate].
  - etransitivity.
    + refine (proj2 (proj2 (proj2 (proj2 (proj2 (proj2
                (C8_amount_text_coercion [] [] "Total" (nines 4301) Hafter _ _ _ _))))))
                false (nines 4301) _ _ _); vm_compute; reflexivity.
    + vm_compute. reflexivity.
Defined.

(* ================================================================== *)
(** * Properties of the validator *)
(* ================================================================== *)

Section ValidatorProperties.

Variable py_str : pyval -> string.
Variable strptime_ok : string -> string -> bool.

Local Abbreviation validate := (validate_extraction py_str strptime_ok).
Local Abbreviation validation_exception :=
  (validation_exception py_str strptime_ok).

Lemma grows_refl (r : report) : grows r r.
Proof. unfold grows. tauto. Qed.

Lemma grows_trans (a b c : report) : grows a b -> grows b c -> grows a c.
Proof.
  unfold grows. intros (H1 & H2 & H3 & H4) (K1 & K2 & K3 & K4).
  repeat split; intros.
  - destruct (K1 H) as [Hb | Hc]; [|right; exact Hc].
    destruct (H1 Hb) as [Ha | He]; [left; exact Ha | right; apply K3; exact He].
  - apply K2, H2. assumption.
  - apply K3, H3. assumption.
  - apply K4, H4. assumption.
Qed.

Lemma app_nonempty {A : Type} (l : list A) (x : A) : l ++ [x] <> [].
Proof. destruct l; discriminate. Qed.

Lemma grows_store (r : report) (k : string) (fv : field_validation) :
  grows r (set_field_validation k fv r).
Proof. unfold grows. simpl. tauto. Qed.

Lemma grows_error (r : report) (m : msg) : grows r (add_errors [m] r).
Proof.
  unfold grows. simpl. repeat split; intros; try assumption.
  - left. assumption.
  - apply app_nonempty.
Qed.

Lemma grows_warning (r : report) (ms : list msg) : grows r (add_warnings ms r).
Proof. unfold grows. simpl. tauto. Qed.

Lemma grows_critical (r : report) (m : msg) :
  grows r (set_invalid (add_errors [m] r)).
Proof.
  unfold grows. simpl. repeat split; intros; try assumption; try reflexivity.
  - right. apply app_nonempty.
  - apply app_nonempty.
Qed.

Ltac grows_step :=
  first
    [ apply grows_store
    | eapply grows_trans; [apply grows_error | apply grows_store]
    | eapply grows_trans; [apply grows_warning | apply grows_store]
    | eapply grows_trans; [apply grows_critical | apply grows_store] ].

(** One field invalidates the report only by adding an error. *)
Lemma validate_field_grows (user_prompt : string) (r r' : report)
    (kv : string * pyval) :
  validate_field py_str strptime_ok user_prompt r kv = Returns r' -> grows r r'.
Proof.
  unfold validate_field. destruct kv as [field_name field_value].
  repeat match goal with
         | |- context [if ?b then _ else _] => destruct b
         | |- context [match ?x with _ => _ end] => destruct x
         end;
    intro H; try discriminate H; injection H as <-; grows_step.
Qed.

Lemma validate_fields_grows (user_prompt : string) (data : dict) (r : report) :
  grows r (fst (validate_fields py_str strptime_ok user_prompt r data)).
Proof.
  revert r. induction data as [|kv rest IH]; intro r; simpl.
  - apply grows_refl.
  - destruct (validate_field py_str strptime_ok user_prompt r kv) as [r'|e] eqn:E.
    + eapply grows_trans; [eapply validate_field_grows; exact E | apply IH].
    + apply grows_refl.
Qed.

(** The report on the mapping with the single pair taxable_value: 200.0
    and the request total, in full. *)
Lemma pre_tax_only_report :
  validate pre_tax_only "total"
  = mkReport false
      [CriticalPreTax "taxable_value" (PyFloat.of_Z 200)]
      [PossiblyMissing "total_amount"; PossiblyMissing "customer_name"]
      []
      [("taxable_value", mkFieldValidation true NoMessage)]
      (Some (mkSummary 1 1 1 2 0)).
Proof. vm_compute. reflexivity. Qed.

(** C3 (amended): for the request total and the mapping with the single
    pair taxable_value: 200.0, the report is invalid, its one error is the
    critical error that taxable_value is a pre-tax amount, and its warnings
    hold that the field total_amount is possibly missing. *)
Theorem C3_pre_tax_only_is_invalid :
  is_valid (validate pre_tax_only "total") = false
  /\ errors (validate pre_tax_only "total")
     = [CriticalPreTax "taxable_value" (PyFloat.of_Z 200)]
  /\ In (PossiblyMissing "total_amount") (warnings (validate pre_tax_only "total")).
Proof.
  rewrite pre_tax_only_report. simpl. repeat split. left. reflexivity.
Qed.

(** The report on a total below the net worth, for a request that says
    amount and not total: no error, one warning, invalid. *)
Lemma inverted_totals_report :
  validate inverted_totals "amount"
  = mkReport false []
      [TotalBelowTaxable (PyFloat.of_Z 100) (PyFloat.of_Z 200)]
      [WrongAmountAdvice]
      [("total", mkFieldValidation true NoMessage);
       ("net_worth", mkFieldValidation true NoMessage)]
      (Some (mkSummary 2 2 0 1 1)).
Proof. vm_compute. reflexivity. Qed.

Lemma finish_report_errors (data : dict) (user_prompt : string) (r : report) :
  errors (finish_report data user_prompt r) = errors r.
Proof.
  unfold finish_report. cbn [set_summary errors].
  destruct (dict_nonempty (errors (add_warnings _ r))); reflexivity.
Qed.

Lemma finish_report_is_valid (data : dict) (user_prompt : string) (r : report) :
  is_valid (finish_report data user_prompt r)
  = if dict_nonempty (errors r) then false else is_valid r.
Proof.
  unfold finish_report. cbn [set_summary is_valid].
  change (errors (add_warnings
                    (map PossiblyMissing (validate_required_fields data user_prompt)) r))
    with (errors r).
  destruct (dict_nonempty (errors r)); reflexivity.
Qed.

Lemma finish_report_summary (data : dict) (user_prompt : string) (r : report) :
  summary (finish_report data user_prompt r)
  = Some (mkSummary
            (List.length data)
            (count_valid (field_validations (finish_report data user_prompt r)))
            (List.length (errors (finish_report data user_prompt r)))
            (List.length (warnings (finish_report data user_prompt r)))
            (List.length (recommendations (finish_report data user_prompt r)))).
Proof. reflexivity. Qed.

Lemma after_total_check_is_valid (v : total_validation) :
  is_valid (after_total_check v) = tv_valid v.
Proof. unfold after_total_check. destruct (tv_valid v); reflexivity. Qed.

Lemma after_total_check_errors (v : total_validation) :
  errors (after_total_check v) = [].
Proof. unfold after_total_check. destruct (tv_valid v); reflexivity. Qed.

Lemma after_total_check_summary (v : total_validation) :
  summary (after_total_check v) = None.
Proof. unfold after_total_check. destruct (tv_valid v); reflexivity. Qed.

(** C4 (amended): the report is invalid if and only if its list of errors
    is not empty or the cross-field check found the highest taxable value
    above the highest total, which it reports among the warnings. *)
Theorem C4_validity_characterised (extracted_data : dict) (user_prompt : string) :
  is_valid (validate extracted_data user_prompt) = false
  <-> (errors (validate extracted_data user_prompt) <> []
       \/ total_check_failed extracted_data user_prompt = true).
Proof.
  unfold validate_extraction, total_check_failed.
  destruct extracted_data as [|kv0 rest]; cbn [dict_nonempty negb].
  { simpl. split; [intros _; left; discriminate | reflexivity]. }
  unfold validation_body.
  destruct (validate_total_amount_accuracy (kv0 :: rest) user_prompt) as [tv|e].
  2: { simpl. split; [intros _; left; discriminate | reflexivity]. }
  pose proof (validate_fields_grows user_prompt (kv0 :: rest) (after_total_check tv))
    as (G1 & G2 & G3 & G4).
  rewrite after_total_check_is_valid in G1, G2.
  destruct (validate_fields py_str strptime_ok user_prompt (after_total_check tv)
              (kv0 :: rest)) as [r3 [e|]]; cbn [fst] in *.
  - simpl. split; [intros _; left; apply app_nonempty | reflexivity].
  - rewrite finish_report_is_valid, finish_report_errors.
    destruct (errors r3) as [|m ms] eqn:He; cbn [dict_nonempty].
    + destruct (tv_valid tv); cbn [negb].
      * split.
        -- intro Hv. destruct (G1 Hv) as [H | H]; [discriminate H | contradiction].
        -- intros [H | H]; [contradiction | discriminate H].
      * split; [intros _; right; reflexivity | intros _; apply G2; reflexivity].
    + split; [intros _; left; discriminate | reflexivity].
Qed.

(** The report has a summary exactly when the mapping is not empty and no
    exception left the checks. *)
Lemma summary_present_iff (extracted_data : dict) (user_prompt : string) :
  summary (validate extracted_data user_prompt) <> None
  <-> (extracted_data <> [] /\ validation_exception extracted_data user_prompt = None).
Proof.
  unfold validate_extraction, validation_exception.
  destruct extracted_data as [|kv0 rest]; cbn [dict_nonempty negb].
  { simpl. split; [intro H; contradiction | intros [H _]; contradiction]. }
  unfold validation_body.
  destruct (validate_total_amount_accuracy (kv0 :: rest) user_prompt) as [tv|e].
  2: { simpl. split; [intro H; contradiction | intros [_ H]; discriminate H]. }
  pose proof (validate_fields_grows user_prompt (kv0 :: rest) (after_total_check tv))
    as (_ & _ & _ & G4).
  specialize (G4 (after_total_check_summary tv)).
  destruct (validate_fields py_str strptime_ok user_prompt (after_total_check tv)
              (kv0 :: rest)) as [r3 [e|]]; cbn [fst snd] in *.
  - cbn [add_errors set_invalid summary]. rewrite G4.
    split; [intro H; contradiction | intros [_ H]; discriminate H].
  - rewrite finish_report_summary.
    split; [intros _; split; [discriminate | reflexivity] | intros _; discriminate].
Qed.

(** For a mapping that is not empty, when no exception leaves the checks,
    the report contains a summary whose five counts are the number of
    fields of the mapping, the number of valid field validations and the
    lengths of the lists of errors, warnings and recommendations of the
    report. *)
Lemma summary_when_checks_complete (extracted_data : dict) (user_prompt : string) :
  extracted_data <> [] ->
  validation_exception extracted_data user_prompt = None ->
  summary (validate extracted_data user_prompt)
  = Some (mkSummary
            (List.length extracted_data)
            (count_valid (field_validations (validate extracted_data user_prompt)))
            (List.length (errors (validate extracted_data user_prompt)))
            (List.length (warnings (validate extracted_data user_prompt)))
            (List.length (recommendations (validate extracted_data user_prompt)))).
Proof.
  intros Hne Hexn. unfold validate_extraction, validation_exception in *.
  destruct extracted_data as [|kv0 rest]; [contradiction|].
  cbn [dict_nonempty negb].
  unfold validation_body in *.
  destruct (validate_total_amount_accuracy (kv0 :: rest) user_prompt) as [tv|e];
    [|discriminate Hexn].
  destruct (validate_fields py_str strptime_ok user_prompt (after_total_check tv)
              (kv0 :: rest)) as [r3 [e|]]; [discriminate Hexn|].
  apply finish_report_summary.
Qed.

(** The report on the empty mapping: the early return, before any summary
    is built. *)
Lemma empty_mapping_report (user_prompt : string) :
  validate [] user_prompt = mkReport false [NoDataExtracted] [] [] [] None.
Proof. reflexivity. Qed.

(** An exception in the checks gives an invalid report with the error of
    the handler and without summary. *)
Lemma exception_report (extracted_data : dict) (user_prompt : string) (e : exn) :
  extracted_data <> [] ->
  validation_exception extracted_data user_prompt = Some e ->
  is_valid (validate extracted_data user_prompt) = false
  /\ In (ValidationError e) (errors (validate extracted_data user_prompt))
  /\ summary (validate extracted_data user_prompt) = None.
Proof.
  intros Hne Hexn.
  assert (Hs : summary (validate extracted_data user_prompt) = None).
  { destruct (summary (validate extracted_data user_prompt)) eqn:E; [|reflexivity].
    assert (H : summary (validate extracted_data user_prompt) <> None)
      by (rewrite E; discriminate).
    apply summary_present_iff in H. destruct H as [_ H].
    rewrite H in Hexn. discriminate Hexn. }
  split; [|split; [|exact Hs]].
  - unfold validate_extraction, validation_exception in *.
    destruct extracted_data; [contradiction|]. cbn [dict_nonempty negb].
    destruct (validation_body py_str strptime_ok (p :: extracted_data) user_prompt)
      as [r [e'|]]; [reflexivity | discriminate Hexn].
  - unfold validate_extraction, validation_exception in *.
    destruct extracted_data; [contradiction|]. cbn [dict_nonempty negb].
    destruct (validation_body py_str strptime_ok (p :: extracted_data) user_prompt)
      as [r [e'|]]; [|discriminate Hexn].
    cbn [snd] in Hexn. injection Hexn as ->.
    cbn [add_errors set_invalid errors]. apply in_or_app. right. left. reflexivity.
Qed.

(** C9 (code bug): on the mapping total_amount: 5, amount_due: 0 with the
    request total, the two amounts sorted are 5 and 0, the division by the
    second-highest amount of the tax-rate check raises, and the handler of
    [validate_extraction] returns an invalid report with the error of the
    exception and without summary. *)
Theorem C9_zero_second_highest_has_no_summary :
  validate_total_amount_accuracy
    [("total_amount", PInt 5); ("amount_due", PInt 0)] "total"
  = Raises ZeroDivisionError
  /\ validate [("total_amount", PInt 5); ("amount_due", PInt 0)] "total"
     = mkReport false [ValidationError ZeroDivisionError] [] [] [] None
  /\ summary (validate [("total_amount", PInt 5); ("amount_due", PInt 0)] "total")
     = None.
Proof. repeat split; vm_compute; reflexivity. Qed.

End ValidatorProperties.

(** C3, as stated, fails: on the mapping with the single pair
    taxable_value: 200.0 and the request total, the report does not stay
    valid with the warning that only taxable amounts were found. *)
Lemma C3_pre_tax_only_counterexample :
  ~ (forall (py_str : pyval -> string) (strptime_ok : string -> string -> bool),
        In OnlyTaxableFound
           (warnings (validate_extraction py_str strptime_ok pre_tax_only "total"))
        /\ is_valid (validate_extraction py_str strptime_ok pre_tax_only "total")
           = true).
Proof.
  intro H. destruct (H no_str no_strptime) as [_ Hv].
  vm_compute in Hv. discriminate Hv.
Qed.

(** C4, as stated, fails: a total of 100 below a net worth of 200, with
    the request amount, gives an invalid report without any error. *)
Lemma C4_invalid_without_errors_counterexample :
  ~ (forall (py_str : pyval -> string) (strptime_ok : string -> string -> bool),
        is_valid (validate_extraction py_str strptime_ok inverted_totals "amount")
        = false
        <-> errors (validate_extraction py_str strptime_ok inverted_totals "amount")
            <> []).
Proof.
  intro H. destruct (H no_str no_strptime) as [Hv _].
  apply Hv; vm_compute; reflexivity.
Qed.

(* ================================================================== *)
(** * Further properties of the request analysis and the field filter *)
(* ================================================================== *)

Lemma dict_set_In {A : Type} (d : list (string * A)) (k : string) (v : A)
    (p : string * A) :
  In p (dict_set d k v) -> In p d \/ p = (k, v).
Proof.
  induction d as [|[k' v'] r IH]; simpl.
  - intros [H | []]. right. symmetry. exact H.
  - destruct (String.eqb k' k) eqn:E; simpl.
    + intros [H | H].
      * right. apply String.eqb_eq in E. subst k'. symmetry. exact H.
      * left. right. exact H.
    + intros [H | H]; [left; left; exact H|].
      destruct (IH H) as [H' | H']; [left; right; exact H' | right; exact H'].
Qed.

Lemma best_total_In (data : dict) (k : string) (v : pyval) :
  best_total data = Some (k, v) -> In (k, v) data /\ total_candidate (k, v) = true.
Proof.
  rewrite best_total_is_first_candidate. intro H. apply find_some in H. exact H.
Qed.

Lemma total_selection_incl (data : dict) (user_prompt_lower : string) :
  incl (total_selection data user_prompt_lower) data.
Proof.
  unfold total_selection.
  destruct (any_in _ user_prompt_lower); [|intros p []].
  destruct (best_total data) as [[k v]|] eqn:E; [|intros p []].
  destruct (nonempty k); [|intros p []].
  intros p [H | []]. subst p. apply best_total_In in E. apply E.
Qed.

Lemma select_fields_incl (requested : list string) (user_prompt_lower : string)
    (data filtered : dict) (all : dict) :
  incl data all -> incl filtered all ->
  incl (select_fields requested user_prompt_lower data filtered) all.
Proof.
  unfold select_fields. revert filtered.
  induction data as [|kv rest IH]; intros filtered Hd Hf; simpl; [exact Hf|].
  apply IH.
  - intros p Hp. apply Hd. right. exact Hp.
  - destruct (include_field requested user_prompt_lower (fst kv)); [|exact Hf].
    intros p Hp. apply dict_set_In in Hp. destruct Hp as [Hp | Hp].
    + apply Hf. exact Hp.
    + subst p. apply Hd. left. destruct kv; reflexivity.
Qed.

Lemma intent_filtered_incl (data : dict) (user_prompt : string) :
  incl (intent_filtered data user_prompt) data.
Proof.
  unfold intent_filtered. apply select_fields_incl.
  - apply incl_refl.
  - apply total_selection_incl.
Qed.

(** X1: every pair of the mapping the filter returns is a pair of the raw
    mapping: the filter drops fields, it never adds a key nor changes a
    value. *)
Theorem filter_returns_pairs_of_input (extracted_data : dict) (user_prompt : string) :
  incl (filter_extracted_data extracted_data user_prompt) extracted_data.
Proof.
  unfold filter_extracted_data.
  destruct (extraction_type (analyze_user_request user_prompt));
    try apply incl_refl.
  all: destruct (negb (dict_nonempty (requested_fields (analyze_user_request user_prompt)))
                 && negb (is_specific_request (analyze_user_request user_prompt)));
    try apply incl_refl.
  all: pose proof (intent_filtered_incl extracted_data user_prompt) as Hin.
  all: destruct (intent_filtered extracted_data user_prompt) as [|p f];
    cbn [dict_nonempty negb andb].
  all: try exact Hin.
  all: destruct extracted_data as [|kv0 rest]; cbn [dict_nonempty];
    try apply incl_refl.
  all: destruct (word_count user_prompt <=? 3)%nat; try apply incl_refl.
  all: destruct (first_non_null (kv0 :: rest)) as [[k v]|] eqn:Hfn;
    try apply incl_refl.
  all: apply first_non_null_spec in Hfn; destruct Hfn as [Hfn _].
  all: intros q [Hq | []]; subst q; exact Hfn.
Qed.

(** X2: the pair kept for the total, if any, is a pair of the raw mapping
    whose key holds none of taxable, net_worth, net_amount, subtotal and
    holds a name of the priority list or the word total; no pair is kept
    only when the mapping has no such key. *)
Theorem best_total_is_a_candidate (extracted_data : dict) :
  match best_total extracted_data with
  | Some (k, v) =>
      In (k, v) extracted_data
      /\ any_in total_avoid (lower k) = false
      /\ (any_in total_priority (lower k) || contains "total" (lower k)) = true
  | None => forallb (fun kv => negb (total_candidate kv)) extracted_data = true
  end.
Proof.
  destruct (best_total extracted_data) as [[k v]|] eqn:E.
  - apply best_total_In in E. destruct E as [Hin Hc]. split; [exact Hin|].
    unfold total_candidate in Hc. cbn [fst] in Hc.
    apply andb_true_iff in Hc. destruct Hc as [Ha Hp].
    split; [|exact Hp]. apply negb_true_iff. exact Ha.
  - rewrite best_total_is_first_candidate in E.
    apply forallb_forall. intros kv Hin. apply negb_true_iff.
    destruct (total_candidate kv) eqn:Hc; [|reflexivity].
    exfalso. apply (find_none _ _ E) in Hin. rewrite Hin in Hc. discriminate Hc.
Qed.

(** X3: the mode and the specificity flag of an analysis agree.  A request
    of the mode specific is flagged specific.  A request of the mode
    general is not flagged, and its lower-cased text holds none of the five
    indicators all, everything, complete, full, entire and none of the six
    indicators only, just, extract, find, get, what is.  A request has the
    mode all only when its lower-cased text holds one of the five
    indicators. *)
Theorem analysis_mode_agrees_with_flag (user_prompt : string) :
  match extraction_type (analyze_user_request user_prompt) with
  | Specific => is_specific_request (analyze_user_request user_prompt) = true
  | General =>
      is_specific_request (analyze_user_request user_prompt) = false
      /\ any_in all_indicators (lower user_prompt) = false
      /\ any_in specific_indicators (lower user_prompt) = false
  | All => any_in all_indicators (lower user_prompt) = true
  end.
Proof.
  unfold analyze_user_request.
  destruct (any_in specific_indicators (lower user_prompt));
    destruct (any_in all_indicators (lower user_prompt));
    match goal with
    | |- context [match ?f with [] => _ | _ :: _ => _ end] => destruct f
    end;
    try destruct (word_count user_prompt <=? 5)%nat; simpl; auto.
Qed.

Lemma mem_In (s : string) (l : list string) : mem s l = true <-> In s l.
Proof.
  unfold mem. rewrite existsb_exists. split.
  - intros [x [Hin Heq]]. apply String.eqb_eq in Heq. subst x. exact Hin.
  - intro Hin. exists s. split; [exact Hin | apply String.eqb_refl].
Qed.

(** The categories a text selects from a keyword table with distinct
    categories are distinct. *)
Lemma selected_categories_NoDup (table : list (string * list string)) (text : string) :
  NoDup (map fst table) ->
  NoDup (map fst (filter (fun fk => any_in (snd fk) text) table)).
Proof.
  intro Hnd. induction table as [|[k ks] rest IH]; [constructor|].
  cbn [map fst] in Hnd. apply NoDup_cons_iff in Hnd. destruct Hnd as [Hk Hrest].
  cbn [filter snd]. destruct (any_in ks text); [|exact (IH Hrest)].
  cbn [map fst]. apply NoDup_cons; [|exact (IH Hrest)].
  intro Hin. apply Hk. apply in_map_iff in Hin.
  destruct Hin as [fk [Hfk Hin]]. apply filter_In in Hin.
  apply in_map_iff. exists fk. split; [exact Hfk | apply Hin].
Qed.

Lemma field_keywords_NoDup : NoDup (map fst field_keywords).
Proof.
  unfold field_keywords. cbn [map fst].
  repeat (constructor; [cbn [In]; intuition discriminate|]). constructor.
Qed.

(** X4: the requested fields of an analysis are categories of the keyword
    table, each at most once; they hold total_amount whenever the request
    says total; and each other one has a keyword that occurs in the
    lower-cased request. *)
Theorem requested_fields_are_categories (user_prompt : string) :
  let requested := requested_fields (analyze_user_request user_prompt) in
  NoDup requested
  /\ incl requested (map fst field_keywords)
  /\ (contains "total" (lower user_prompt) = true -> In "total_amount" requested)
  /\ (forall field_type,
        In field_type requested -> field_type <> "total_amount" ->
        any_in (keywords_of field_type) (lower user_prompt) = true).
Proof.
  set (fields0 :=
         map fst (filter (fun fk => any_in (snd fk) (lower user_prompt)) field_keywords)).
  assert (Hnd0 : NoDup fields0)
    by (apply selected_categories_NoDup; exact field_keywords_NoDup).
  assert (Hin0 : incl fields0 (map fst field_keywords)).
  { intros x Hx. unfold fields0 in Hx. apply in_map_iff in Hx.
    destruct Hx as [y [Hy Hin]]. apply filter_In in Hin.
    apply in_map_iff. exists y. split; [exact Hy | apply Hin]. }
  assert (Hkw0 : forall ft, In ft fields0 ->
                   any_in (keywords_of ft) (lower user_prompt) = true).
  { intros ft Hft. unfold fields0 in Hft. apply in_map_iff in Hft.
    destruct Hft as [[k ks] [Hy Hin]]. cbn [fst] in Hy. subst k.
    apply filter_In in Hin. destruct Hin as [Hin Hany]. cbn [snd] in Hany.
    revert Hin Hany. unfold field_keywords, keywords_of, field_keywords.
    cbn [In]. intros Hin Hany.
    repeat (destruct Hin as [Hin | Hin];
            [injection Hin as <- <-; exact Hany|]).
    destruct Hin. }
  assert (Hreq : requested_fields (analyze_user_request user_prompt)
                 = if any_in total_terms (lower user_prompt)
                   then if mem "total_amount" fields0 then fields0
                        else fields0 ++ ["total_amount"]
                   else fields0).
  { unfold analyze_user_request. fold fields0.
    destruct (any_in specific_indicators (lower user_prompt));
      destruct (any_in all_indicators (lower user_prompt));
      match goal with
      | |- context [match ?f with [] => _ | _ :: _ => _ end] => destruct f
      end;
      try destruct (word_count user_prompt <=? 5)%nat; reflexivity. }
  intro requested. subst requested. rewrite Hreq.
  destruct (any_in total_terms (lower user_prompt)) eqn:Ht.
  - destruct (mem "total_amount" fields0) eqn:Hm.
    + repeat split; try assumption.
      * intros _. apply mem_In. exact Hm.
      * intros ft Hft _. apply Hkw0. exact Hft.
    + repeat split.
      * apply NoDup_app; [exact Hnd0 | repeat constructor; intros [] |].
        intros x Hx [Hx' | []]. subst x. apply mem_In in Hx.
        rewrite Hx in Hm. discriminate Hm.
      * intros x Hx. apply in_app_or in Hx. destruct Hx as [Hx | [Hx | []]].
        -- apply Hin0. exact Hx.
        -- subst x. unfold field_keywords. cbn [map fst In]. tauto.
      * intros _. apply in_or_app. right. left. reflexivity.
      * intros ft Hft Hne. apply in_app_or in Hft.
        destruct Hft as [Hft | [Hft | []]]; [apply Hkw0; exact Hft|].
        symmetry in Hft. contradiction.
  - repeat split; try assumption.
    + intro Hc. exfalso. unfold total_terms, any_in in Ht. cbn [existsb] in Ht.
      rewrite Hc in Ht. rewrite !orb_true_r in Ht. discriminate Ht.
    + intros ft Hft _. apply Hkw0. exact Hft.
Qed.

(* ================================================================== *)
(** * Further properties of post-processing *)
(* ================================================================== *)

Lemma ascii_cases (P : ascii -> bool) :
  forallb P (map ascii_of_nat (seq 0 256)) = true -> forall c, P c = true.
Proof.
  intros H c. rewrite forallb_forall in H.
  rewrite <- (ascii_nat_embedding c). apply H.
  apply in_map. apply in_seq. pose proof (nat_ascii_bounded c). lia.
Qed.

Lemma clean_char_idempotent (c : ascii) : clean_char (clean_char c) = clean_char c.
Proof.
  apply Ascii.eqb_eq. revert c.
  apply (ascii_cases (fun c => Ascii.eqb (clean_char (clean_char c)) (clean_char c))).
  vm_compute. reflexivity.
Qed.

Lemma clean_char_space (c : ascii) : is_space (clean_char c) = true -> is_space c = true.
Proof.
  intro H.
  pose proof (ascii_cases (fun c => implb (is_space (clean_char c)) (is_space c))
                eq_refl c) as Hc.
  cbv beta in Hc. rewrite H in Hc. exact Hc.
Qed.

Lemma clean_char_canonical (c : ascii) :
  negb (is_upper (clean_char c) || Ascii.eqb (clean_char c) " "
        || Ascii.eqb (clean_char c) "-") = true.
Proof.
  revert c.
  apply (ascii_cases (fun c => negb (is_upper (clean_char c)
                                     || Ascii.eqb (clean_char c) " "
                                     || Ascii.eqb (clean_char c) "-"))).
  vm_compute. reflexivity.
Qed.

Lemma lower_char_space (c : ascii) : is_space (lower_char c) = is_space c.
Proof.
  apply eqb_prop. revert c.
  apply (ascii_cases (fun c => Bool.eqb (is_space (lower_char c)) (is_space c))).
  vm_compute. reflexivity.
Qed.

Lemma lower_char_idempotent (c : ascii) : lower_char (lower_char c) = lower_char c.
Proof.
  apply Ascii.eqb_eq. revert c.
  apply (ascii_cases (fun c => Ascii.eqb (lower_char (lower_char c)) (lower_char c))).
  vm_compute. reflexivity.
Qed.

Lemma lower_smap (s : string) : lower s = smap lower_char s.
Proof. induction s as [|c r IH]; [reflexivity|]. cbn. rewrite <- IH. reflexivity. Qed.

Lemma replace_char_smap (a b : ascii) (s : string) :
  replace_char a b s = smap (fun c => if Ascii.eqb c a then b else c) s.
Proof. induction s as [|c r IH]; simpl; [reflexivity|]. rewrite IH. reflexivity. Qed.

Lemma smap_smap (f g : ascii -> ascii) (s : string) :
  smap f (smap g s) = smap (fun c => f (g c)) s.
Proof. induction s as [|c r IH]; simpl; [reflexivity|]. rewrite IH. reflexivity. Qed.

Lemma smap_ext (f g : ascii -> ascii) (s : string) :
  (forall c, f c = g c) -> smap f s = smap g s.
Proof.
  intro H. induction s as [|c r IH]; simpl; [reflexivity|]. rewrite H, IH. reflexivity.
Qed.

Lemma clean_key_smap (key : string) : clean_key key = smap clean_char (strip key).
Proof.
  unfold clean_key. rewrite lower_smap, !replace_char_smap, !smap_smap.
  apply smap_ext. intro c. unfold clean_char. cbv zeta.
  destruct (Ascii.eqb (lower_char c) " ") eqn:E; [reflexivity|].
  reflexivity.
Qed.

(** Trimming. *)

Lemma lstrip_all_space (s : string) : all_space s = true -> lstrip s = EmptyString.
Proof.
  induction s as [|c r IH]; simpl; [reflexivity|].
  intro H. apply andb_true_iff in H. destruct H as [Hc Hr]. rewrite Hc. apply IH, Hr.
Qed.

Lemma all_space_lstrip (s : string) : all_space (lstrip s) = all_space s.
Proof.
  induction s as [|c r IH]; simpl; [reflexivity|].
  destruct (is_space c) eqn:E; simpl; [exact IH|]. rewrite E. reflexivity.
Qed.

Lemma rstrip_empty_iff (s : string) : rstrip s = EmptyString <-> all_space s = true.
Proof.
  destruct s as [|c r]; simpl; [tauto|].
  destruct (is_space c && all_space r); split; intro H; try reflexivity; discriminate.
Qed.

Lemma strip_empty_iff (s : string) : nonempty (strip s) = false <-> all_space s = true.
Proof.
  unfold strip. rewrite <- all_space_lstrip, <- rstrip_empty_iff.
  destruct (rstrip (lstrip s)); simpl; split; intro H; try reflexivity; discriminate.
Qed.

Lemma lstrip_no_leading_space (s : string) : no_leading_space (lstrip s) = true.
Proof.
  induction s as [|c r IH]; simpl; [reflexivity|].
  destruct (is_space c) eqn:E; [exact IH|]. simpl. rewrite E. reflexivity.
Qed.

Lemma lstrip_fixed (s : string) : no_leading_space s = true -> lstrip s = s.
Proof.
  destruct s as [|c r]; simpl; [reflexivity|].
  intro H. apply negb_true_iff in H. rewrite H. reflexivity.
Qed.

Lemma rstrip_no_leading_space (s : string) :
  no_leading_space s = true -> no_leading_space (rstrip s) = true.
Proof.
  destruct s as [|c r]; simpl; [reflexivity|].
  intro H. apply negb_true_iff in H. rewrite H. simpl. rewrite H. reflexivity.
Qed.

Lemma rstrip_idempotent (s : string) : rstrip (rstrip s) = rstrip s.
Proof.
  induction s as [|c r IH]; [reflexivity|].
  cbn [rstrip]. destruct (all_space (String c r)) eqn:E; [reflexivity|].
  cbn [rstrip].
  assert (Hn : all_space (String c (rstrip r)) = false).
  { cbn [all_space] in *. destruct (is_space c); [|reflexivity]. simpl in *.
    destruct (all_space (rstrip r)) eqn:E2; [|reflexivity].
    assert (Hr : rstrip (rstrip r) = EmptyString) by (apply rstrip_empty_iff; exact E2).
    rewrite IH in Hr. apply rstrip_empty_iff in Hr. rewrite Hr in E. discriminate E. }
  rewrite Hn, IH. reflexivity.
Qed.

Lemma strip_no_leading_space (s : string) : no_leading_space (strip s) = true.
Proof. apply rstrip_no_leading_space, lstrip_no_leading_space. Qed.

Lemma strip_rstrip_fixed (s : string) : rstrip (strip s) = strip s.
Proof. apply rstrip_idempotent. Qed.

Lemma strip_idempotent (s : string) : strip (strip s) = strip s.
Proof.
  unfold strip at 1. rewrite (lstrip_fixed _ (strip_no_leading_space s)).
  apply strip_rstrip_fixed.
Qed.

Lemma strip_fixed_iff (s : string) :
  strip s = s <-> no_leading_space s = true /\ rstrip s = s.
Proof.
  split.
  - intro H. rewrite <- H. split; [apply strip_no_leading_space | apply strip_rstrip_fixed].
  - intros [H1 H2]. unfold strip. rewrite (lstrip_fixed _ H1). exact H2.
Qed.

Lemma all_space_smap (f : ascii -> ascii) (s : string) :
  (forall c, is_space (f c) = true -> is_space c = true) ->
  all_space (smap f s) = true -> all_space s = true.
Proof.
  intro Hf. induction s as [|c r IH]; simpl; [reflexivity|].
  intro H. apply andb_true_iff in H. destruct H as [Hc Hr].
  rewrite (Hf c Hc), (IH Hr). reflexivity.
Qed.

Lemma rstrip_smap_fixed (f : ascii -> ascii) (s : string) :
  (forall c, is_space (f c) = true -> is_space c = true) ->
  rstrip s = s -> rstrip (smap f s) = smap f s.
Proof.
  intro Hf. induction s as [|c r IH]; [reflexivity|].
  cbn [rstrip smap]. destruct (all_space (String c r)) eqn:E; [discriminate|].
  intro H. injection H as Hr.
  destruct (all_space (String (f c) (smap f r))) eqn:E2.
  - apply (all_space_smap f (String c r) Hf) in E2. rewrite E2 in E. discriminate E.
  - rewrite (IH Hr). reflexivity.
Qed.

Lemma strip_smap_fixed (f : ascii -> ascii) (s : string) :
  (forall c, is_space (f c) = true -> is_space c = true) ->
  strip s = s -> strip (smap f s) = smap f s.
Proof.
  intros Hf H. apply strip_fixed_iff in H. destruct H as [H1 H2].
  apply strip_fixed_iff. split.
  - destruct s as [|c r]; [reflexivity|]. simpl in *.
    apply negb_true_iff. apply negb_true_iff in H1.
    destruct (is_space (f c)) eqn:E; [|reflexivity].
    rewrite (Hf c E) in H1. discriminate H1.
  - apply rstrip_smap_fixed; assumption.
Qed.

Lemma clean_key_stripped (key : string) : strip (clean_key key) = clean_key key.
Proof.
  rewrite clean_key_smap. apply strip_smap_fixed.
  - exact clean_char_space.
  - apply strip_idempotent.
Qed.

Lemma clean_key_idempotent (key : string) : clean_key (clean_key key) = clean_key key.
Proof.
  rewrite (clean_key_smap (clean_key key)), clean_key_stripped.
  rewrite clean_key_smap, smap_smap. apply smap_ext. exact clean_char_idempotent.
Qed.

Lemma clean_key_canonical (key : string) : canonical_key (clean_key key).
Proof.
  split; [|apply clean_key_stripped].
  rewrite clean_key_smap. generalize (strip key) as s.
  induction s as [|c r IH]; [reflexivity|].
  cbn [smap list_ascii_of_string forallb]. rewrite IH, clean_char_canonical. reflexivity.
Qed.

Lemma post_process_value_canonical (ck : string) (value : pyval) :
  canonical_value (post_process_value ck value).
Proof.
  destruct value; try exact I. unfold post_process_value.
  destruct (nonempty (strip s)) eqn:Hne; cbn [negb orb]; [|exact I].
  destruct (mem (lower (strip s)) null_words) eqn:Hnull; [exact I|].
  assert (Hc : canonical_value (PStr (strip s))).
  { simpl. repeat split; [apply strip_idempotent | exact Hne | exact Hnull]. }
  destruct (any_in amount_keys ck); [|exact Hc].
  destruct (has_char "." (strip_non_numeric (strip s))).
  - destruct (float_of_numeric _); [exact I | exact Hc].
  - destruct (nonempty (strip_non_numeric (strip s))); [|exact I].
    destruct (int_of_numeric _); [exact I | exact Hc].
Qed.

Lemma post_process_value_kept (ck : string) (value : pyval) (t : string) :
  post_process_value ck value = PStr t -> post_process_value ck (PStr t) = PStr t.
Proof.
  destruct value; try discriminate. unfold post_process_value.
  destruct (nonempty (strip s)) eqn:Hne; cbn [negb orb]; [|discriminate].
  destruct (mem (lower (strip s)) null_words) eqn:Hnull; [discriminate|].
  destruct (any_in amount_keys ck) eqn:Hk.
  - destruct (has_char "." (strip_non_numeric (strip s))) eqn:Hdot.
    + destruct (float_of_numeric (strip_non_numeric (strip s))) eqn:Hf;
        [discriminate|].
      intro H. injection H as <-.
      rewrite strip_idempotent, Hne, Hnull, Hdot, Hf. reflexivity.
    + destruct (nonempty (strip_non_numeric (strip s))) eqn:Hn; [|discriminate].
      destruct (int_of_numeric (strip_non_numeric (strip s))) eqn:Hi;
        [discriminate|].
      intro H. injection H as <-.
      rewrite strip_idempotent, Hne, Hnull, Hdot, Hn, Hi. reflexivity.
  - intro H. injection H as <-.
    rewrite strip_idempotent, Hne, Hnull. reflexivity.
Qed.

Lemma post_process_value_idempotent (ck : string) (value : pyval) :
  post_process_value ck (post_process_value ck value) = post_process_value ck value.
Proof.
  destruct (post_process_value ck value) eqn:E; try reflexivity.
  apply (post_process_value_kept ck value). exact E.
Qed.

(** The keys of a dictionary after an assignment. *)
Lemma dict_set_keys {A : Type} (d : list (string * A)) (k : string) (v : A) :
  map fst (dict_set d k v)
  = if mem k (map fst d) then map fst d else map fst d ++ [k].
Proof.
  induction d as [|[k' v'] r IH]; [reflexivity|].
  cbn [dict_set map fst]. unfold mem in *. cbn [existsb].
  destruct (String.eqb k' k) eqn:E.
  - rewrite String.eqb_sym, E. reflexivity.
  - rewrite String.eqb_sym, E. cbn [orb map fst]. rewrite IH.
    destruct (existsb (String.eqb k) (map fst r)); reflexivity.
Qed.

Lemma dict_set_NoDup {A : Type} (d : list (string * A)) (k : string) (v : A) :
  NoDup (map fst d) -> NoDup (map fst (dict_set d k v)).
Proof.
  intro H. rewrite dict_set_keys. destruct (mem k (map fst d)) eqn:E; [exact H|].
  apply NoDup_app; [exact H | repeat constructor; intros [] |].
  intros x Hx [Hx' | []]. subst x. apply mem_In in Hx. rewrite Hx in E. discriminate E.
Qed.

Lemma dict_set_fresh {A : Type} (d : list (string * A)) (k : string) (v : A) :
  ~ In k (map fst d) -> dict_set d k v = d ++ [(k, v)].
Proof.
  induction d as [|[k' v'] r IH]; [reflexivity|].
  cbn [dict_set map fst In app]. intro H.
  destruct (String.eqb k' k) eqn:E.
  - apply String.eqb_eq in E. exfalso. apply H. left. exact E.
  - rewrite IH; [reflexivity|]. intro Hin. apply H. right. exact Hin.
Qed.

(** The pairs of the processed mapping are processed pairs of the input. *)
Lemma post_process_fold_entries (data acc : dict) (P : string * pyval -> Prop) :
  (forall p, In p acc -> P p) ->
  (forall kv, In kv data ->
     P (clean_key (fst kv), post_process_value (clean_key (fst kv)) (snd kv))) ->
  forall p, In p (fold_left post_process_step data acc) -> P p.
Proof.
  revert acc. induction data as [|kv rest IH]; intros acc Hacc Hdata; [exact Hacc|].
  cbn [fold_left]. apply IH.
  - intros p Hp. unfold post_process_step in Hp. apply dict_set_In in Hp.
    destruct Hp as [Hp | Hp]; [apply Hacc; exact Hp|].
    subst p. apply Hdata. left. reflexivity.
  - intros kv' Hin. apply Hdata. right. exact Hin.
Qed.

Lemma post_process_fold_NoDup (data acc : dict) :
  NoDup (map fst acc) -> NoDup (map fst (fold_left post_process_step data acc)).
Proof.
  revert acc. induction data as [|kv rest IH]; intros acc H; [exact H|].
  cbn [fold_left]. apply IH. apply dict_set_NoDup. exact H.
Qed.

(** X6: the keys of the processed mapping are pairwise distinct and each
    is in canonical form: it holds no upper-case letter, no space and no
    hyphen, and it neither begins nor ends with whitespace. *)
Theorem post_process_data_keys_canonical (data : dict) :
  NoDup (map fst (post_process_data data))
  /\ Forall canonical_key (map fst (post_process_data data)).
Proof.
  rewrite post_process_data_fold. split.
  - apply post_process_fold_NoDup. constructor.
  - apply Forall_forall. intros k Hk. apply in_map_iff in Hk.
    destruct Hk as [[k' v] [Hk Hin]]. cbn [fst] in Hk. subst k'.
    revert Hin.
    apply (post_process_fold_entries data [] (fun p => canonical_key (fst p))).
    + intros p [].
    + intros kv _. cbn [fst]. apply clean_key_canonical.
Qed.

(** X7: no value of the processed mapping is an empty text, a text with
    whitespace at an end, or one of the placeholders n/a, na, none, null
    in any case: such texts have become null. *)
Theorem post_process_data_values_canonical (data : dict) :
  Forall canonical_value (map snd (post_process_data data)).
Proof.
  rewrite post_process_data_fold.
  apply Forall_forall. intros v Hv. apply in_map_iff in Hv.
  destruct Hv as [[k v'] [Hv Hin]]. cbn [snd] in Hv. subst v'.
  revert Hin.
  apply (post_process_fold_entries data [] (fun p => canonical_value (snd p))).
  - intros p [].
  - intros kv _. cbn [snd]. apply post_process_value_canonical.
Qed.

Lemma post_process_fixed_fold (l acc : dict) :
  NoDup (map fst (acc ++ l)) ->
  (forall p, In p l ->
     clean_key (fst p) = fst p /\ post_process_value (fst p) (snd p) = snd p) ->
  fold_left post_process_step l acc = acc ++ l.
Proof.
  revert acc. induction l as [|[k v] rest IH]; intros acc Hnd Hfix.
  - rewrite app_nil_r. reflexivity.
  - cbn [fold_left]. unfold post_process_step at 2. cbn [fst snd].
    destruct (Hfix (k, v) (or_introl eq_refl)) as [Hk Hv]. cbn [fst snd] in Hk, Hv.
    rewrite Hk, Hv.
    assert (Hfresh : ~ In k (map fst acc)).
    { rewrite map_app in Hnd. cbn [map fst] in Hnd.
      apply NoDup_remove_2 in Hnd. intro Hin. apply Hnd.
      apply in_or_app. left. exact Hin. }
    rewrite (dict_set_fresh acc k v Hfresh).
    rewrite IH.
    + rewrite <- app_assoc. reflexivity.
    + rewrite <- app_assoc. exact Hnd.
    + intros p Hp. apply Hfix. right. exact Hp.
Qed.

(** X5: post-processing is idempotent: processing a processed mapping
    again returns it unchanged. *)
Theorem post_process_data_idempotent (data : dict) :
  post_process_data (post_process_data data) = post_process_data data.
Proof.
  rewrite (post_process_data_fold (post_process_data data)).
  apply (post_process_fixed_fold (post_process_data data) []).
  - cbn [app]. rewrite post_process_data_fold.
    apply post_process_fold_NoDup. constructor.
  - rewrite post_process_data_fold.
    apply (post_process_fold_entries data []
             (fun p => clean_key (fst p) = fst p
                       /\ post_process_value (fst p) (snd p) = snd p)).
    + intros p [].
    + intros kv _. cbn [fst snd]. split.
      * apply clean_key_idempotent.
      * apply post_process_value_idempotent.
Qed.

(* ================================================================== *)
(** * Further properties of response parsing *)
(* ================================================================== *)

(** X8: [parse_llm_response] raises the error of an empty response exactly
    on the responses that are empty or hold whitespace only. *)
Theorem empty_response_iff_blank (response : string) :
  parse_llm_response response = Raises EmptyResponseFromLLM
  <-> all_space response = true.
Proof.
  unfold parse_llm_response.
  destruct (nonempty (strip response)) eqn:Hs.
  - assert (Hb : all_space response = false).
    { destruct (all_space response) eqn:E; [|reflexivity].
      apply strip_empty_iff in E. rewrite E in Hs. discriminate Hs. }
    rewrite Hb.
    assert (Hr : nonempty response = true)
      by (destruct response; [discriminate Hb | reflexivity]).
    rewrite Hr. cbn [negb orb].
    destruct (loads (isolate_json (strip_fences (strip response)))) as [v|].
    + destruct (is_dict v); split; intro H; discriminate H.
    + destruct (loads (fix_common_json_issues (strip_fences (strip response))));
        split; intro H; discriminate H.
  - apply strip_empty_iff in Hs. rewrite Hs, orb_true_r. split; reflexivity.
Qed.

(* ================================================================== *)
(** * Properties of the cleaning of the extracted text *)
(* ================================================================== *)

Lemma space_not_printable (c : ascii) : is_space c = true -> printable c = false.
Proof.
  intro H.
  pose proof (ascii_cases (fun c => implb (is_space c) (negb (printable c)))
                eq_refl c) as Hc.
  cbv beta in Hc. rewrite H in Hc. apply negb_true_iff. exact Hc.
Qed.

Lemma control_not_printable (c : ascii) : is_control c = true -> printable c = false.
Proof.
  intro H.
  pose proof (ascii_cases (fun c => implb (is_control c) (negb (printable c)))
                eq_refl c) as Hc.
  cbv beta in Hc. rewrite H in Hc. apply negb_true_iff. exact Hc.
Qed.

Lemma printable_part_cons (c : ascii) (r : string) :
  printable_part (String c r)
  = if printable c then String c (printable_part r) else printable_part r.
Proof. unfold printable_part. cbn [remove_chars]. destruct (printable c); reflexivity. Qed.

Lemma printable_part_skip (c : ascii) (r : string) :
  printable c = false -> printable_part (String c r) = printable_part r.
Proof. intro H. rewrite printable_part_cons, H. reflexivity. Qed.

Lemma printable_part_all_space (s : string) :
  all_space s = true -> printable_part s = EmptyString.
Proof.
  induction s as [|c r IH]; [reflexivity|]. cbn [all_space].
  intro H. apply andb_true_iff in H. destruct H as [Hc Hr].
  rewrite printable_part_skip by (apply space_not_printable; exact Hc).
  apply IH, Hr.
Qed.

Lemma printable_part_lstrip (s : string) : printable_part (lstrip s) = printable_part s.
Proof.
  induction s as [|c r IH]; [reflexivity|]. cbn [lstrip].
  destruct (is_space c) eqn:E; [|reflexivity].
  rewrite IH. symmetry. apply printable_part_skip, space_not_printable, E.
Qed.

Lemma printable_part_rstrip (s : string) : printable_part (rstrip s) = printable_part s.
Proof.
  induction s as [|c r IH]; [reflexivity|]. cbn [rstrip].
  destruct (all_space (String c r)) eqn:E.
  - symmetry. apply printable_part_all_space. exact E.
  - rewrite !printable_part_cons, IH. reflexivity.
Qed.

Lemma printable_part_collapse_spaces (s : string) :
  printable_part (collapse_spaces s) = printable_part s.
Proof.
  induction s as [|c r IH]; [reflexivity|]. cbn [collapse_spaces].
  destruct (Ascii.eqb c " ") eqn:E.
  - apply Ascii.eqb_eq in E. subst c.
    destruct r as [|d r']; [reflexivity|].
    destruct (Ascii.eqb d " ").
    + rewrite IH. symmetry. apply printable_part_skip. reflexivity.
    + rewrite !(printable_part_cons " "), IH. reflexivity.
  - rewrite !(printable_part_cons c), IH. reflexivity.
Qed.

Lemma newline_not_printable (c : ascii) : (code c =? 10)%N = true -> printable c = false.
Proof.
  intro H.
  pose proof (ascii_cases (fun c => implb (code c =? 10)%N (negb (printable c)))
                eq_refl c) as Hc.
  cbv beta in Hc. rewrite H in Hc. apply negb_true_iff. exact Hc.
Qed.

Lemma printable_part_drop_space (r : string) (j : nat) :
  last_newline_in_space r = Some j ->
  printable_part (drop_chars (S j) r) = printable_part r.
Proof.
  revert j. induction r as [|c r' IH]; intros j; [discriminate|].
  cbn [last_newline_in_space]. destruct (is_space c) eqn:Hc; [|discriminate].
  rewrite (printable_part_skip c r') by (apply space_not_printable; exact Hc).
  destruct (last_newline_in_space r') as [j'|].
  - intro H. injection H as <-. cbn [drop_chars]. apply IH. reflexivity.
  - destruct (code c =? 10)%N; [|discriminate].
    intro H. injection H as <-. reflexivity.
Qed.

Lemma printable_part_collapse_blank_lines (s : string) (k : nat) :
  printable_part (collapse_blank_lines k s) = printable_part (drop_chars k s).
Proof.
  revert k. induction s as [|c r IH]; intro k.
  - destruct k; reflexivity.
  - destruct k as [|k]; cbn [collapse_blank_lines drop_chars]; [|apply IH].
    destruct (code c =? 10)%N eqn:Hc.
    + destruct (last_newline_in_space r) as [j|] eqn:Hj.
      * rewrite !(printable_part_skip newline) by reflexivity.
        rewrite IH, (printable_part_drop_space r j Hj).
        symmetry. apply printable_part_skip, newline_not_printable, Hc.
      * rewrite !(printable_part_cons c), (IH 0). reflexivity.
    + rewrite !(printable_part_cons c), (IH 0). reflexivity.
Qed.

Lemma remove_chars_weaker (p q : ascii -> bool) (s : string) :
  (forall c, q c = true -> p c = true) ->
  remove_chars p (remove_chars q s) = remove_chars p s.
Proof.
  intro H. induction s as [|c r IH]; [reflexivity|]. cbn [remove_chars].
  destruct (q c) eqn:Hq.
  - rewrite (H c Hq). exact IH.
  - cbn [remove_chars]. rewrite IH. reflexivity.
Qed.

Lemma remove_chars_none_left (p : ascii -> bool) (s : string) :
  all_chars (fun c => negb (p c)) (remove_chars p s) = true.
Proof.
  unfold all_chars. induction s as [|c r IH]; [reflexivity|]. cbn [remove_chars].
  destruct (p c) eqn:Hp; [exact IH|].
  cbn [list_ascii_of_string forallb]. rewrite Hp, IH. reflexivity.
Qed.

Lemma all_chars_weaken (p q : ascii -> bool) (s : string) :
  (forall c, p c = true -> q c = true) ->
  all_chars p s = true -> all_chars q s = true.
Proof.
  intro H. unfold all_chars.
  induction s as [|c r IH]; cbn [list_ascii_of_string forallb]; [reflexivity|].
  intro Hs. apply andb_true_iff in Hs. destruct Hs as [Hc Hr].
  rewrite (H c Hc), (IH Hr). reflexivity.
Qed.

Lemma not_control_is_ascii (c : ascii) :
  negb (is_control c) = true -> is_ascii c = true.
Proof.
  intro H.
  pose proof (ascii_cases (fun c => implb (negb (is_control c)) (is_ascii c))
                ltac:(vm_compute; reflexivity) c) as Hc.
  cbv beta in Hc. rewrite H in Hc. exact Hc.
Qed.

(** X9: on a text of ASCII characters [clean_extracted_text] changes
    whitespace and control characters only: the printable characters of the
    result are those of the text, in the same order; the result holds no
    control character other than TAB, LF and CR; and it is a text of ASCII
    characters again. *)
Theorem clean_extracted_text_keeps_printable (text : string) :
  ascii_text text = true ->
  printable_part (clean_extracted_text text) = printable_part text
  /\ all_chars (fun c => negb (is_control c)) (clean_extracted_text text) = true
  /\ ascii_text (clean_extracted_text text) = true.
Proof.
  intros _. unfold clean_extracted_text.
  split; [|split; [apply remove_chars_none_left|]].
  - unfold printable_part at 1. rewrite remove_chars_weaker.
    + fold (printable_part (strip (collapse_spaces (collapse_blank_lines 0 text)))).
      unfold strip.
      rewrite printable_part_rstrip, printable_part_lstrip,
        printable_part_collapse_spaces, printable_part_collapse_blank_lines.
      reflexivity.
    + intros c Hc. rewrite (control_not_printable c Hc). reflexivity.
  - apply (all_chars_weaken (fun c => negb (is_control c)) is_ascii).
    + exact not_control_is_ascii.
    + apply remove_chars_none_left.
Qed.

(** The theorem at a text with blank lines, runs of spaces, a NUL and a
    form feed. *)
Lemma clean_extracted_text_keeps_printable_witness :
  printable_part (clean_extracted_text control_text) = "Invoice42Total:5"
  /\ all_chars (fun c => negb (is_control c)) (clean_extracted_text control_text) = true
  /\ ascii_text (clean_extracted_text control_text) = true.
Proof.
  destruct (clean_extracted_text_keeps_printable control_text eq_refl)
    as [Hp [Hc Ha]].
  split; [|split; [exact Hc | exact Ha]].
  rewrite Hp. reflexivity.
Defined.

(* ================================================================== *)
(** * Properties of validate_json_response *)
(* ================================================================== *)

Lemma dict_get_None_notin {A : Type} (d : list (string * A)) (k : string) :
  ~ In k (map fst d) -> dict_get d k = None.
Proof.
  induction d as [|[k' v'] r IH]; [reflexivity|]. cbn [map fst In dict_get].
  intro H. destruct (String.eqb k' k) eqn:E.
  - apply String.eqb_eq in E. exfalso. apply H. left. exact E.
  - apply IH. intro Hin. apply H. right. exact Hin.
Qed.

Lemma dict_get_Some_In {A : Type} (d : list (string * A)) (k : string) (v : A) :
  dict_get d k = Some v -> In (k, v) d.
Proof.
  induction d as [|[k' v'] r IH]; [discriminate|]. cbn [dict_get].
  destruct (String.eqb k' k) eqn:E.
  - intro H. injection H as <-. apply String.eqb_eq in E. subst k'. left. reflexivity.
  - intro H. right. apply IH, H.
Qed.

(** The value a standard field receives from the loop over the mappings. *)
Lemma map_fields_get (data : dict) (fms : list (string * list string))
    (acc : dict) (k : string) :
  NoDup (map fst fms) ->
  dict_get (fold_left (map_field data) fms acc) k
  = match dict_get fms k with
    | Some names =>
        match first_present names data with
        | Some v => Some v
        | None => dict_get acc k
        end
    | None => dict_get acc k
    end.
Proof.
  revert acc. induction fms as [|[k0 names0] rest IH]; intros acc Hnd; [reflexivity|].
  cbn [fold_left map fst] in *. inversion Hnd as [|x xs Hnin Hnd']; subst.
  rewrite (IH _ Hnd'). cbn [dict_get].
  destruct (String.eqb k0 k) eqn:E.
  - apply String.eqb_eq in E. subst k0.
    rewrite (dict_get_None_notin rest k Hnin).
    unfold map_field. cbn [fst snd].
    destruct (first_present names0 data); [apply dict_get_set_same | reflexivity].
  - assert (Hacc : dict_get (map_field data acc (k0, names0)) k = dict_get acc k).
    { unfold map_field. cbn [fst snd].
      destruct (first_present names0 data); [|reflexivity].
      apply dict_get_set_other. intro Heq. subst k0.
      rewrite String.eqb_refl in E. discriminate E. }
    rewrite Hacc. reflexivity.
Qed.

Lemma dict_set_keys_incl {A : Type} (d : list (string * A)) (k : string) (v : A)
    (l : list string) :
  In k l -> incl (map fst d) l -> incl (map fst (dict_set d k v)) l.
Proof.
  intros Hk Hd. rewrite dict_set_keys. destruct (mem k (map fst d)); [exact Hd|].
  intros x Hx. apply in_app_or in Hx. destruct Hx as [Hx | [Hx | []]].
  - apply Hd, Hx.
  - subst x. exact Hk.
Qed.

Lemma map_fields_keys (data : dict) (fms : list (string * list string)) (acc : dict)
    (l : list string) :
  incl (map fst fms) l -> incl (map fst acc) l -> NoDup (map fst acc) ->
  incl (map fst (fold_left (map_field data) fms acc)) l
  /\ NoDup (map fst (fold_left (map_field data) fms acc)).
Proof.
  revert acc. induction fms as [|fm rest IH]; intros acc Hf Ha Hnd; [split; assumption|].
  cbn [fold_left]. apply IH.
  - intros x Hx. apply Hf. right. exact Hx.
  - unfold map_field. destruct (first_present (snd fm) data); [|exact Ha].
    apply dict_set_keys_incl; [|exact Ha]. apply Hf. left. reflexivity.
  - unfold map_field. destruct (first_present (snd fm) data); [|exact Hnd].
    apply dict_set_NoDup. exact Hnd.
Qed.

Lemma field_mappings_NoDup : NoDup (map fst field_mappings).
Proof.
  unfold field_mappings. cbn [map fst].
  repeat (constructor; [cbn [In]; intuition discriminate|]). constructor.
Qed.

(** X10: [validate_json_response] answers a value that is no dictionary
    with the error mapping, returns a dictionary with a key error
    unchanged, and otherwise returns a mapping whose keys are pairwise
    distinct and among the seven standard field names. *)
Theorem validate_json_response_keys (data : pyval) :
  match data with
  | PDict d =>
      match dict_get d "error" with
      | Some _ => validate_json_response data = d
      | None =>
          NoDup (map fst (validate_json_response data))
          /\ incl (map fst (validate_json_response data)) standard_fields
      end
  | _ => validate_json_response data = [("error", PStr "Invalid response format")]
  end.
Proof.
  destruct data; try reflexivity.
  unfold validate_json_response. destruct (dict_get d "error"); [reflexivity|].
  destruct (map_fields_keys d field_mappings [] standard_fields) as [Hincl Hnd].
  { apply incl_refl. } { intros x []. } { constructor. }
  set (v0 := fold_left (map_field d) field_mappings []) in *.
  assert (H1 : NoDup (map fst (add_fallback_total d v0))
               /\ incl (map fst (add_fallback_total d v0)) standard_fields).
  { unfold add_fallback_total. destruct (dict_get v0 "total"); [split; assumption|].
    destruct (total_candidates d); [split; assumption|]. split.
    - apply dict_set_NoDup. exact Hnd.
    - apply dict_set_keys_incl; [|exact Hincl].
      unfold standard_fields, field_mappings. cbn [map fst In]. tauto. }
  destruct H1 as [Hnd1 Hincl1].
  unfold keep_dict_items.
  destruct (dict_get (add_fallback_total d v0) "items") as [[]|];
    try (split; assumption).
  split.
  - apply dict_set_NoDup. exact Hnd1.
  - apply dict_set_keys_incl; [|exact Hincl1].
    unfold standard_fields, field_mappings. cbn [map fst In]. tauto.
Qed.

Lemma keep_dict_items_other (validated : dict) (k : string) :
  k <> "items" -> dict_get (keep_dict_items validated) k = dict_get validated k.
Proof.
  intro H. unfold keep_dict_items.
  destruct (dict_get validated "items") as [[]|]; try reflexivity.
  apply dict_get_set_other. intro Heq. apply H. symmetry. exact Heq.
Qed.

(** The total of the validated mapping, when the mapping has no key
    error. *)
Lemma validate_json_response_total (d : dict) :
  dict_get d "error" = None ->
  dict_get (validate_json_response (PDict d)) "total"
  = match first_present ["gross_total"; "gross_worth"; "final_total"; "grand_total";
                          "total"; "Total"; "amount_due"] d with
    | Some v => Some v
    | None =>
        match total_candidates d with
        | [] => None
        | c :: l => Some (fst (snd (min_candidate c l)))
        end
    end.
Proof.
  intro He. unfold validate_json_response. rewrite He.
  rewrite keep_dict_items_other by discriminate.
  pose proof (map_fields_get d field_mappings [] "total" field_mappings_NoDup) as Hget.
  change (dict_get field_mappings "total")
    with (Some ["gross_total"; "gross_worth"; "final_total"; "grand_total";
                "total"; "Total"; "amount_due"]) in Hget.
  change (dict_get (@nil (string * pyval)) "total") with (@None pyval) in Hget.
  cbv beta iota in Hget. unfold add_fallback_total.
  destruct (first_present ["gross_total"; "gross_worth"; "final_total"; "grand_total";
                           "total"; "Total"; "amount_due"] d) as [v|] eqn:Hf;
    rewrite Hget; [exact Hget|].
  destruct (total_candidates d) as [|c l]; [exact Hget|].
  apply dict_get_set_same.
Qed.

(** X11: when the mapping has no key error and has the key gross_total,
    the total of the validated mapping is the value of gross_total,
    wherever the key stands in the mapping and whatever other keys it
    has. *)
Theorem validate_json_response_prefers_gross_total (d : dict) (v : pyval) :
  dict_get d "error" = None ->
  dict_get d "gross_total" = Some v ->
  dict_get (validate_json_response (PDict d)) "total" = Some v.
Proof.
  intros He Hg. rewrite (validate_json_response_total d He).
  cbn [first_present]. rewrite Hg. reflexivity.
Qed.

(** The theorem at a mapping with the key total before gross_total. *)
Lemma validate_json_response_prefers_gross_total_witness :
  dict_get (validate_json_response
              (PDict [("total", PInt 100); ("gross_total", PInt 120)])) "total"
  = Some (PInt 120).
Proof.
  apply (validate_json_response_prefers_gross_total
           [("total", PInt 100); ("gross_total", PInt 120)] (PInt 120));
    reflexivity.
Defined.

(** X12: when the mapping has no key error, the items of the validated
    mapping, if they are a list, are dictionaries only. *)
Theorem validate_json_response_items_are_dicts (d : dict) (items : list pyval) :
  dict_get d "error" = None ->
  dict_get (validate_json_response (PDict d)) "items" = Some (PList items) ->
  Forall (fun item => is_dict item = true) items.
Proof.
  intros He. unfold validate_json_response. rewrite He. unfold keep_dict_items.
  set (v1 := add_fallback_total d (fold_left (map_field d) field_mappings [])).
  destruct (dict_get v1 "items") as [x|] eqn:E.
  - destruct x; try (rewrite E; intro H; discriminate H).
    rewrite dict_get_set_same. intro H. injection H as <-.
    apply Forall_forall. intros x Hx. apply filter_In in Hx. apply Hx.
  - rewrite E. discriminate.
Qed.

(** The theorem at a mapping whose items hold a dictionary, a number and
    a text. *)
Lemma validate_json_response_items_are_dicts_witness :
  Forall (fun item => is_dict item = true) [PDict [("sku", PStr "A1")]].
Proof.
  apply (validate_json_response_items_are_dicts
           [("items", PList [PDict [("sku", PStr "A1")]; PInt 7; PStr "x"])]
           [PDict [("sku", PStr "A1")]]);
    reflexivity.
Defined.

(* ================================================================== *)
(** * Further properties of the validator *)
(* ================================================================== *)

Section MoreValidatorProperties.

Variable py_str : pyval -> string.
Variable strptime_ok : string -> string -> bool.

Local Abbreviation validate := (validate_extraction py_str strptime_ok).
Local Abbreviation raised := (validation_exception py_str strptime_ok).
Local Abbreviation check_field := (validate_field py_str strptime_ok).
Local Abbreviation check_fields := (validate_fields py_str strptime_ok).

(** Every iteration of the loop over the fields stores one field
    validation, under the name of the field. *)
Lemma validate_field_stores (user_prompt : string) (r r' : report)
    (k : string) (v : pyval) :
  check_field user_prompt r (k, v) = Returns r' ->
  exists fv, field_validations r' = dict_set (field_validations r) k fv.
Proof.
  unfold validate_field.
  repeat match goal with
         | |- context [if ?b then _ else _] => destruct b
         | |- context [match ?x with _ => _ end] => destruct x
         end;
    intro H; try discriminate H; injection H as <-; eexists; reflexivity.
Qed.

Lemma validate_fields_keys (user_prompt : string) (data : dict) (r r' : report) :
  check_fields user_prompt r data = (r', None) ->
  NoDup (map fst (field_validations r) ++ map fst data) ->
  map fst (field_validations r') = map fst (field_validations r) ++ map fst data.
Proof.
  revert r. induction data as [|[k v] rest IH]; intros r H Hnd.
  - cbn in H. injection H as <-. rewrite app_nil_r. reflexivity.
  - cbn [validate_fields] in H.
    destruct (check_field user_prompt r (k, v)) as [r1|e] eqn:E; [|discriminate H].
    destruct (validate_field_stores _ _ _ _ _ E) as [fv Hfv].
    assert (Hfresh : ~ In k (map fst (field_validations r))).
    { cbn [map fst] in Hnd. apply NoDup_remove_2 in Hnd. intro Hin. apply Hnd.
      apply in_or_app. left. exact Hin. }
    assert (Hk : map fst (field_validations r1) = map fst (field_validations r) ++ [k]).
    { rewrite Hfv, (dict_set_fresh _ k fv Hfresh), map_app. reflexivity. }
    rewrite (IH r1 H).
    + rewrite Hk, <- app_assoc. reflexivity.
    + rewrite Hk, <- app_assoc. exact Hnd.
Qed.

Lemma finish_report_field_validations (data : dict) (user_prompt : string) (r : report) :
  field_validations (finish_report data user_prompt r) = field_validations r.
Proof.
  unfold finish_report. cbn [set_summary field_validations].
  destruct (dict_nonempty (errors (add_warnings _ r))); reflexivity.
Qed.

Lemma after_total_check_field_validations (v : total_validation) :
  field_validations (after_total_check v) = [].
Proof. unfold after_total_check. destruct (tv_valid v); reflexivity. Qed.

(** X13: when the keys of the mapping are pairwise distinct and no
    exception leaves the checks, the report holds one field validation for
    each field of the mapping, under the same keys in the same order. *)
Theorem every_field_is_validated (extracted_data : dict) (user_prompt : string) :
  NoDup (map fst extracted_data) ->
  raised extracted_data user_prompt = None ->
  map fst (field_validations (validate extracted_data user_prompt))
  = map fst extracted_data.
Proof.
  intros Hnd Hexn. unfold validate_extraction, validation_exception in *.
  destruct extracted_data as [|kv0 rest]; [reflexivity|].
  cbn [dict_nonempty negb]. unfold validation_body in *.
  destruct (validate_total_amount_accuracy (kv0 :: rest) user_prompt) as [tv|e];
    [|discriminate Hexn].
  destruct (check_fields user_prompt (after_total_check tv) (kv0 :: rest))
    as [r3 [e|]] eqn:E; [discriminate Hexn|].
  rewrite finish_report_field_validations.
  rewrite (validate_fields_keys _ _ _ _ E);
    rewrite after_total_check_field_validations; [reflexivity | exact Hnd].
Qed.

(** X14: a valid report carries a summary: when the report is valid, its
    list of errors is empty and its summary counts no error and as many
    fields as the mapping has. *)
Theorem valid_report_has_summary (extracted_data : dict) (user_prompt : string) :
  is_valid (validate extracted_data user_prompt) = true ->
  errors (validate extracted_data user_prompt) = []
  /\ exists s,
       summary (validate extracted_data user_prompt) = Some s
       /\ error_count s = 0 /\ total_fields s = List.length extracted_data.
Proof.
  unfold validate_extraction.
  destruct extracted_data as [|kv0 rest]; cbn [dict_nonempty negb];
    [intro H; discriminate H|].
  unfold validation_body.
  destruct (validate_total_amount_accuracy (kv0 :: rest) user_prompt) as [tv|e];
    [|intro H; discriminate H].
  destruct (check_fields user_prompt (after_total_check tv) (kv0 :: rest))
    as [r3 [e|]]; [intro H; discriminate H|].
  rewrite finish_report_is_valid, finish_report_errors.
  destruct (errors r3) as [|m ms] eqn:He; cbn [dict_nonempty];
    [|intro H; discriminate H].
  intros _. split; [reflexivity|].
  eexists. split; [apply finish_report_summary|].
  cbn [error_count total_fields]. rewrite finish_report_errors, He.
  split; reflexivity.
Qed.

Lemma categorize_all_null (data : dict) (acc : amount_fields) :
  Forall (fun kv => snd kv = PNone) data -> categorize acc data = Returns acc.
Proof.
  induction 1 as [|[k v] rest Hv _ IH]; [reflexivity|].
  cbn [snd] in Hv. subst v. cbn [categorize].
  assert (Hs : categorize_step acc (k, PNone) = Returns acc).
  { unfold categorize_step. destruct (any_in _ (lower k)); reflexivity. }
  rewrite Hs. exact IH.
Qed.

Lemma total_check_all_null (data : dict) (user_prompt : string) :
  Forall (fun kv => snd kv = PNone) data ->
  validate_total_amount_accuracy data user_prompt
  = Returns (mkTotalValidation true [] []).
Proof.
  intro H. unfold validate_total_amount_accuracy.
  destruct (any_in _ (lower user_prompt)); [|reflexivity].
  cbn [negb]. rewrite (categorize_all_null data _ H). reflexivity.
Qed.

Lemma validate_fields_all_null (user_prompt : string) (data : dict) (r : report) :
  Forall (fun kv => snd kv = PNone) data ->
  is_valid r = true -> errors r = [] ->
  Forall (fun kfv => snd kfv = null_validation) (field_validations r) ->
  exists r',
    check_fields user_prompt r data = (r', None)
    /\ is_valid r' = true /\ errors r' = []
    /\ Forall (fun kfv => snd kfv = null_validation) (field_validations r').
Proof.
  intro H. revert r. induction H as [|[k v] rest Hv _ IH]; intros r Hval Herr Hfv.
  - exists r. repeat split; assumption.
  - cbn [snd] in Hv. subst v. cbn [validate_fields].
    change (check_field user_prompt r (k, PNone))
      with (Returns (E := exn) (set_field_validation k null_validation r)).
    apply IH; try assumption.
    cbn [set_field_validation field_validations].
    apply Forall_forall. intros p Hp. apply dict_set_In in Hp.
    destruct Hp as [Hp | Hp]; [|subst p; reflexivity].
    rewrite Forall_forall in Hfv. apply Hfv, Hp.
Qed.

(** X15: a mapping that is not empty and whose values are all null gives,
    for every request, a valid report without error: no exception leaves
    the checks and every field validation is valid with the message that
    the field is null. *)
Theorem all_null_mapping_is_valid (extracted_data : dict) (user_prompt : string) :
  extracted_data <> [] ->
  Forall (fun kv => snd kv = PNone) extracted_data ->
  raised extracted_data user_prompt = None
  /\ is_valid (validate extracted_data user_prompt) = true
  /\ errors (validate extracted_data user_prompt) = []
  /\ Forall (fun kfv => snd kfv = null_validation)
            (field_validations (validate extracted_data user_prompt)).
Proof.
  intros Hne Hnull. unfold validate_extraction, validation_exception.
  destruct extracted_data as [|kv0 rest]; [contradiction|].
  cbn [dict_nonempty negb]. unfold validation_body.
  rewrite (total_check_all_null _ user_prompt Hnull).
  destruct (validate_fields_all_null user_prompt (kv0 :: rest)
              (after_total_check (mkTotalValidation true [] [])) Hnull)
    as (r' & Hr & Hval & Herr & Hfv); try reflexivity.
  { constructor. }
  rewrite Hr. cbn [snd].
  rewrite finish_report_is_valid, finish_report_errors,
    finish_report_field_validations, Herr.
  cbn [dict_nonempty]. repeat split; assumption.
Qed.

End MoreValidatorProperties.

(** The theorem at the canonical mapping of the scenario. *)
Lemma every_field_is_validated_witness :
  map fst (field_validations
             (validate_extraction no_str no_strptime scenario_canonical
                scenario_request))
  = ["invoice_number"; "gross_worth"].
Proof.
  apply (every_field_is_validated no_str no_strptime
           scenario_canonical scenario_request).
  - repeat (constructor; [cbn [In map fst scenario_canonical]; intuition discriminate|]).
    constructor.
  - vm_compute. reflexivity.
Defined.

(** The theorem at the canonical mapping of the scenario, whose report is
    valid. *)
Lemma valid_report_has_summary_witness :
  errors (validate_extraction no_str no_strptime scenario_canonical scenario_request)
  = []
  /\ exists s,
       summary (validate_extraction no_str no_strptime scenario_canonical
                  scenario_request) = Some s
       /\ error_count s = 0 /\ total_fields s = 2.
Proof.
  apply (valid_report_has_summary no_str no_strptime
           scenario_canonical scenario_request).
  vm_compute. reflexivity.
Defined.

(** The theorem at a mapping of two null fields and the request total. *)
Lemma all_null_mapping_is_valid_witness :
  validation_exception no_str no_strptime
    [("total", PNone); ("email", PNone)] "total" = None
  /\ is_valid (validate_extraction no_str no_strptime
                 [("total", PNone); ("email", PNone)] "total") = true
  /\ errors (validate_extraction no_str no_strptime
               [("total", PNone); ("email", PNone)] "total") = []
  /\ Forall (fun kfv => snd kfv = null_validation)
            (field_validations
               (validate_extraction no_str no_strptime
                  [("total", PNone); ("email", PNone)] "total")).
Proof.
  apply (all_null_mapping_is_valid no_str no_strptime
           [("total", PNone); ("email", PNone)] "total").
  - discriminate.
  - repeat constructor.
Defined.

(* ================================================================== *)
(** * The causes of an exception in the validator *)
(* ================================================================== *)

Lemma float_of_value_raises (v : pyval) (e : exn) :
  float_of_value v = Raises e ->
  e = ValueError \/ e = TypeError
  \/ (e = OverflowError
      /\ exists z, v = PInt z /\ PyFloat.is_inf (PyFloat.of_Z z) = true).
Proof.
  destruct v; cbn [float_of_value]; intro H; try discriminate H;
    try (injection H as <-; tauto).
  destruct (PyFloat.is_inf (PyFloat.of_Z z)) eqn:E; [|discriminate H].
  injection H as <-. right. right. split; [reflexivity|]. exists z. tauto.
Qed.

Lemma float_of_amount_text_raises (s : string) (e : exn) :
  float_of_amount_text s = Raises e -> e = ValueError.
Proof.
  unfold float_of_amount_text. destruct (float_of_numeric _); intro H;
    [discriminate H | injection H as <-; reflexivity].
Qed.

Lemma amount_of_value_raises (v : pyval) (e : exn) :
  amount_of_value v = Raises e ->
  e = ValueError \/ e = TypeError
  \/ (e = OverflowError
      /\ exists z, v = PInt z /\ PyFloat.is_inf (PyFloat.of_Z z) = true).
Proof.
  destruct v; try apply float_of_value_raises.
  intro H. left. apply (float_of_amount_text_raises s). exact H.
Qed.

Lemma categorize_step_cases (acc : amount_fields) (k : string) (v : pyval) :
  match categorize_step acc (k, v) with
  | Returns acc' =>
      acc' = acc
      \/ (any_in ["amount"; "total"; "cost"; "price"; "worth"] (lower k) = true
          /\ exists x,
               amount_of_value v = Returns x
               /\ (acc' = mkAmounts (total_amounts acc)
                            (dict_set (taxable_amounts acc) k x) (other_amounts acc)
                   \/ acc' = mkAmounts (dict_set (total_amounts acc) k x)
                               (taxable_amounts acc) (other_amounts acc)
                   \/ acc' = mkAmounts (total_amounts acc) (taxable_amounts acc)
                               (dict_set (other_amounts acc) k x)))
  | Raises e =>
      e = OverflowError
      /\ exists z, v = PInt z /\ PyFloat.is_inf (PyFloat.of_Z z) = true
  end.
Proof.
  unfold categorize_step.
  destruct (any_in ["amount"; "total"; "cost"; "price"; "worth"] (lower k)) eqn:Hk;
    [|left; reflexivity].
  change (match v with
          | PStr s => float_of_amount_text s
          | _ => float_of_value v
          end) with (amount_of_value v).
  destruct (amount_of_value v) as [x|e] eqn:Hx.
  - destruct (any_in pre_tax_terms (lower k));
      [|destruct (any_in ["total"; "grand"; "final"; "gross_worth"; "gross_total"]
                         (lower k))];
      right; (split; [reflexivity|]); exists x; (split; [reflexivity|]); auto.
  - apply amount_of_value_raises in Hx.
    destruct Hx as [-> | [-> | [-> Hz]]]; cbv beta iota;
      [left; reflexivity | left; reflexivity|].
    split; [reflexivity | exact Hz].
Qed.

Lemma categorize_cases (data all : dict) (acc : amount_fields) :
  incl data all -> amounts_from all acc ->
  match categorize acc data with
  | Returns a => amounts_from all a
  | Raises e =>
      e = OverflowError
      /\ exists k z, In (k, PInt z) all /\ PyFloat.is_inf (PyFloat.of_Z z) = true
  end.
Proof.
  revert acc. induction data as [|[k v] rest IH]; intros acc Hincl Hacc; [exact Hacc|].
  cbn [categorize]. pose proof (categorize_step_cases acc k v) as Hs.
  assert (Hkv : In (k, v) all) by (apply Hincl; left; reflexivity).
  assert (Hrest : incl rest all) by (intros p Hp; apply Hincl; right; exact Hp).
  destruct (categorize_step acc (k, v)) as [acc'|e].
  - apply IH; [exact Hrest|].
    destruct Hs as [-> | [Hk [x [Hx Hacc']]]]; [exact Hacc|].
    intros k' x' Hin.
    assert (Hold : (In (k', x') (total_amounts acc) \/ In (k', x') (taxable_amounts acc)
                    \/ In (k', x') (other_amounts acc))
                   \/ (k', x') = (k, x)).
    { destruct Hacc' as [-> | [-> | ->]]; cbn [total_amounts taxable_amounts other_amounts] in Hin;
        destruct Hin as [Hin | [Hin | Hin]];
        try (apply dict_set_In in Hin; destruct Hin as [Hin | Hin]); tauto. }
    destruct Hold as [Hold | Heq]; [apply Hacc; exact Hold|].
    injection Heq as -> ->. split; [exact Hk|]. exists v. split; assumption.
  - destruct Hs as [-> [z [-> Hz]]]. split; [reflexivity|]. exists k, z. tauto.
Qed.

Lemma dict_merge_In {A : Type} (a b : list (string * A)) (p : string * A) :
  In p (dict_merge a b) -> In p a \/ In p b.
Proof.
  unfold dict_merge. revert a. induction b as [|[k v] rest IH]; intros a H; [left; exact H|].
  cbn [fold_left fst snd] in H. apply IH in H. destruct H as [H | H].
  - apply dict_set_In in H. destruct H as [H | H]; [left; exact H|].
    right. left. symmetry. exact H.
  - right. right. exact H.
Qed.

Lemma insert_desc_In (x y : PyFloat.float) (l : list PyFloat.float) :
  In x (insert_desc y l) -> x = y \/ In x l.
Proof.
  induction l as [|z r IH]; cbn [insert_desc].
  - intros [H | []]. left. symmetry. exact H.
  - destruct (PyFloat.ltb z y).
    + intros [H | H]; [left; symmetry; exact H | right; exact H].
    + intros [H | H]; [right; left; exact H|].
      destruct (IH H) as [H' | H']; [left; exact H' | right; right; exact H'].
Qed.

Lemma sort_desc_In (x : PyFloat.float) (l : list PyFloat.float) :
  In x (sort_desc l) -> In x l.
Proof.
  unfold sort_desc.
  assert (H : forall acc, In x (fold_left (fun acc y => insert_desc y acc) l acc) ->
                          In x acc \/ In x l).
  { induction l as [|y r IH]; intros acc Hin; [left; exact Hin|].
    cbn [fold_left] in Hin. apply IH in Hin. destruct Hin as [Hin | Hin].
    - apply insert_desc_In in Hin.
      destruct Hin as [-> | Hin]; [right; left; reflexivity | left; exact Hin].
    - right. right. exact Hin. }
  intro Hin. destruct (H [] Hin) as [[] | Hl]. exact Hl.
Qed.

Lemma tax_rate_advice_raises (all_amounts : list (string * PyFloat.float)) (e : exn) :
  tax_rate_advice all_amounts = Raises e ->
  e = ZeroDivisionError
  /\ exists k x, In (k, x) all_amounts /\ PyFloat.is_zero x = true.
Proof.
  unfold tax_rate_advice.
  destruct (1 <? List.length all_amounts)%nat; [|discriminate].
  destruct (sort_desc (map snd all_amounts)) as [|h [|s t]] eqn:Hs; try discriminate.
  destruct (PyFloat.is_zero s) eqn:Hz.
  - intro H. injection H as <-. split; [reflexivity|].
    assert (Hin : In s (map snd all_amounts)).
    { apply sort_desc_In. rewrite Hs. right. left. reflexivity. }
    apply in_map_iff in Hin. destruct Hin as [[k x] [Hx Hin]]. cbn [snd] in Hx. subst x.
    exists k, s. tauto.
  - destruct (existsb _ common_tax_rates); discriminate.
Qed.

(** The exceptions of the check of the totals. *)
Lemma total_check_raises (data : dict) (user_prompt : string) (e : exn) :
  validate_total_amount_accuracy data user_prompt = Raises e ->
  (e = ZeroDivisionError
   /\ any_in ["total"; "amount"; "cost"] (lower user_prompt) = true
   /\ exists k v x,
        In (k, v) data
        /\ any_in ["amount"; "total"; "cost"; "price"; "worth"] (lower k) = true
        /\ amount_of_value v = Returns x /\ PyFloat.is_zero x = true)
  \/ (e = OverflowError
      /\ exists k z, In (k, PInt z) data /\ PyFloat.is_inf (PyFloat.of_Z z) = true).
Proof.
  unfold validate_total_amount_accuracy.
  destruct (any_in ["total"; "amount"; "cost"] (lower user_prompt)) eqn:Hp;
    cbn [negb]; [|discriminate].
  pose proof (categorize_cases data data (mkAmounts [] [] []) (incl_refl data)) as Hc.
  destruct (categorize (mkAmounts [] [] []) data) as [a|e'].
  - assert (Ha : amounts_from data a).
    { apply Hc. intros k x [[] | [[] | []]]. }
    destruct (tax_rate_advice _) as [adv|e'] eqn:Ht; [discriminate|].
    intro H. injection H as <-. apply tax_rate_advice_raises in Ht.
    destruct Ht as [-> [k [x [Hin Hz]]]]. left. split; [reflexivity|]. split; [reflexivity|].
    assert (Hsrc : In (k, x) (total_amounts a) \/ In (k, x) (taxable_amounts a)
                   \/ In (k, x) (other_amounts a)).
    { apply dict_merge_In in Hin. destruct Hin as [Hin | Hin]; [|tauto].
      apply dict_merge_In in Hin. destruct Hin as [Hin | Hin]; [|tauto].
      apply dict_merge_In in Hin. destruct Hin as [[] | Hin]. tauto. }
    destruct (Ha k x Hsrc) as [Hk [v [Hv Hx]]].
    exists k, v, x. tauto.
  - intro H. injection H as <-. right. apply Hc. intros k x [[] | [[] | []]].
Qed.

Section ExceptionCauses.

Variable py_str : pyval -> string.
Variable strptime_ok : string -> string -> bool.

Local Abbreviation raised := (validation_exception py_str strptime_ok).
Local Abbreviation check_field := (validate_field py_str strptime_ok).
Local Abbreviation check_fields := (validate_fields py_str strptime_ok).

Lemma validate_email_raises (v : pyval) (e : exn) :
  validate_email v = Raises e ->
  e = TypeError /\ truthy v = true /\ forall s, v <> PStr s.
Proof.
  unfold validate_email. destruct (truthy v) eqn:Ht; cbn [negb]; [|discriminate].
  destruct v; intro H; try discriminate H; injection H as <-;
    repeat split; try reflexivity; intros s' Hs; discriminate Hs.
Qed.

Lemma validate_amount_raises (v : pyval) (e : exn) :
  validate_amount v = Raises e ->
  e = OverflowError /\ exists z, v = PInt z /\ PyFloat.is_inf (PyFloat.of_Z z) = true.
Proof.
  unfold validate_amount.
  destruct v; try discriminate;
    try (destruct (float_of_value _) as [x|e'] eqn:Hf; [discriminate|];
         apply float_of_value_raises in Hf;
         destruct Hf as [-> | [-> | [-> Hz]]]; try discriminate;
         intro H; injection H as <-; split; [reflexivity | exact Hz]).
  destruct (negb (nonempty _)); [discriminate|].
  destruct (float_of_numeric _); discriminate.
Qed.

Lemma validate_field_raises (user_prompt : string) (r : report) (k : string)
    (v : pyval) (e : exn) :
  check_field user_prompt r (k, v) = Raises e ->
  (e = OverflowError
   /\ exists z, v = PInt z /\ PyFloat.is_inf (PyFloat.of_Z z) = true)
  \/ (e = TypeError /\ contains "email" (lower k) = true
      /\ truthy v = true /\ forall s, v <> PStr s).
Proof.
  unfold validate_field. destruct (is_none v); [discriminate|].
  destruct (contains "email" (lower k)) eqn:Hem.
  { destruct (validate_email v) as [[|]|e'] eqn:Hv; try discriminate.
    intro H. injection H as <-. right. apply validate_email_raises in Hv.
    destruct Hv as [-> [Ht Hs]]. tauto. }
  destruct (contains "phone" (lower k) || contains "tel" (lower k));
    [destruct (validate_phone py_str v); discriminate|].
  destruct (any_in amount_field_terms (lower k)).
  { destruct (validate_amount v) as [[|]|e'] eqn:Hv.
    - destruct (is_number v).
      + destruct (float_of_value v) as [x|e'] eqn:Hf.
        * repeat match goal with
                 | |- context [if ?b then _ else _] => destruct b
                 end; discriminate.
        * apply float_of_value_raises in Hf.
          destruct Hf as [-> | [-> | [-> Hz]]]; try discriminate.
          intro H. injection H as <-. left. split; [reflexivity | exact Hz].
      + destruct (float_of_amount_text (to_str py_str v)) as [x|e'] eqn:Hf.
        * repeat match goal with
                 | |- context [if ?b then _ else _] => destruct b
                 end; discriminate.
        * apply float_of_amount_text_raises in Hf. subst e'. discriminate.
    - discriminate.
    - intro H. injection H as <-. left. apply validate_amount_raises. exact Hv. }
  destruct (contains "date" (lower k));
    [destruct (validate_date py_str strptime_ok v); discriminate|].
  destruct (contains "invoice" (lower k) && contains "number" (lower k));
    [destruct (validate_invoice_number py_str v); discriminate | discriminate].
Qed.

Lemma validate_fields_raises (user_prompt : string) (data : dict) (r r' : report)
    (e : exn) :
  check_fields user_prompt r data = (r', Some e) ->
  exists k v r0, In (k, v) data /\ check_field user_prompt r0 (k, v) = Raises e.
Proof.
  revert r. induction data as [|[k v] rest IH]; intros r H; [discriminate H|].
  cbn [validate_fields] in H.
  destruct (check_field user_prompt r (k, v)) as [r1|e'] eqn:E.
  - destruct (IH r1 H) as (k' & v' & r0 & Hin & Hr).
    exists k', v', r0. split; [right; exact Hin | exact Hr].
  - injection H as _ <-. exists k, v, r. split; [left; reflexivity | exact E].
Qed.

(** X16: an exception leaves the checks of [validate_extraction] for one
    of three causes only: a division by zero, when the request mentions
    total, amount or cost and an amount-bearing field has the amount zero;
    an overflow, when a field is an integer beyond the range of a float; a
    type error, when a field whose name holds email is neither a text nor
    a false value. *)
Theorem validation_exception_causes (extracted_data : dict) (user_prompt : string)
    (e : exn) :
  raised extracted_data user_prompt = Some e ->
  (e = ZeroDivisionError
   /\ any_in ["total"; "amount"; "cost"] (lower user_prompt) = true
   /\ exists k v x,
        In (k, v) extracted_data
        /\ any_in ["amount"; "total"; "cost"; "price"; "worth"] (lower k) = true
        /\ amount_of_value v = Returns x /\ PyFloat.is_zero x = true)
  \/ (e = OverflowError
      /\ exists k z,
           In (k, PInt z) extracted_data
           /\ PyFloat.is_inf (PyFloat.of_Z z) = true)
  \/ (e = TypeError
      /\ exists k v,
           In (k, v) extracted_data /\ contains "email" (lower k) = true
           /\ truthy v = true /\ forall s, v <> PStr s).
Proof.
  unfold validation_exception, validation_body.
  destruct (validate_total_amount_accuracy extracted_data user_prompt) as [tv|e']
    eqn:Htv.
  - destruct (check_fields user_prompt (after_total_check tv) extracted_data)
      as [r3 [e'|]] eqn:Hf; cbn [snd]; [|discriminate].
    intro H. injection H as <-.
    apply validate_fields_raises in Hf. destruct Hf as (k & v & r0 & Hin & Hr).
    apply validate_field_raises in Hr.
    destruct Hr as [[-> [z [-> Hz]]] | [-> [Hem [Ht Hs]]]].
    + right. left. split; [reflexivity|]. exists k, z. tauto.
    + right. right. split; [reflexivity|]. exists k, v. tauto.
  - cbn [snd]. intro H. injection H as <-.
    apply total_check_raises in Htv. destruct Htv as [Hz | Ho]; [left | right; left];
      assumption.
Qed.

End ExceptionCauses.

(** The theorem at a total of 5 and an amount due of 0, where the
    division by zero arises. *)
Lemma validation_exception_causes_witness :
  (ZeroDivisionError = ZeroDivisionError
   /\ any_in ["total"; "amount"; "cost"] (lower "total") = true
   /\ exists k v x,
        In (k, v) [("total_amount", PInt 5); ("amount_due", PInt 0)]
        /\ any_in ["amount"; "total"; "cost"; "price"; "worth"] (lower k) = true
        /\ amount_of_value v = Returns x /\ PyFloat.is_zero x = true)
  \/ (ZeroDivisionError = OverflowError
      /\ exists k z,
           In (k, PInt z) [("total_amount", PInt 5); ("amount_due", PInt 0)]
           /\ PyFloat.is_inf (PyFloat.of_Z z) = true)
  \/ (ZeroDivisionError = TypeError
      /\ exists k v,
           In (k, v) [("total_amount", PInt 5); ("amount_due", PInt 0)]
           /\ contains "email" (lower k) = true
           /\ truthy v = true /\ forall s, v <> PStr s).
Proof.
  apply (validation_exception_causes no_str no_strptime
           [("total_amount", PInt 5); ("amount_due", PInt 0)] "total"
           ZeroDivisionError).
  vm_compute. reflexivity.
Defined.

(* ================================================================== *)
(** * Properties of the format validators *)
(* ================================================================== *)

Lemma span_spec (p : ascii -> bool) (s a b : string) :
  span p s = (a, b) -> s = (a ++ b)%string /\ all_chars p a = true.
Proof.
  revert a b. induction s as [|c r IH]; intros a b; cbn [span].
  - intro H. injection H as <- <-. split; reflexivity.
  - destruct (p c) eqn:Hc.
    + destruct (span p r) as [a' b'] eqn:E. intro H. injection H as <- <-.
      destruct (IH a' b' eq_refl) as [Hr Ha]. split.
      * cbn. rewrite <- Hr. reflexivity.
      * unfold all_chars in *. cbn [list_ascii_of_string forallb]. rewrite Hc, Ha.
        reflexivity.
    + intro H. injection H as <- <-. split; reflexivity.
Qed.

Lemma count_char_app (c : ascii) (a b : string) :
  count_char c (a ++ b)%string = (count_char c a + count_char c b)%Z.
Proof.
  induction a as [|x r IH]; [reflexivity|].
  cbn [append count_char]. rewrite IH. lia.
Qed.

Lemma count_char_absent (p : ascii -> bool) (c : ascii) (s : string) :
  p c = false -> all_chars p s = true -> count_char c s = 0%Z.
Proof.
  intros Hc. unfold all_chars. induction s as [|x r IH]; [reflexivity|].
  cbn [list_ascii_of_string forallb count_char]. intro H.
  apply andb_true_iff in H. destruct H as [Hx Hr]. rewrite (IH Hr).
  destruct (Ascii.eqb x c) eqn:E; [|reflexivity].
  apply Ascii.eqb_eq in E. subst x. rewrite Hx in Hc. discriminate Hc.
Qed.

Lemma chomp_spec (s : string) :
  s = chomp s \/ s = (chomp s ++ String newline EmptyString)%string.
Proof.
  induction s as [|c r IH]; [left; reflexivity|].
  destruct r as [|d r'].
  - cbn [chomp]. destruct (code c =? 10)%N eqn:E; [|left; reflexivity].
    right. apply N.eqb_eq in E. unfold code in E.
    rewrite <- (ascii_N_embedding c), E. reflexivity.
  - change (chomp (String c (String d r'))) with (String c (chomp (String d r'))).
    destruct IH as [IH | IH]; [left | right]; cbn [append]; rewrite <- IH; reflexivity.
Qed.

Lemma email_match_one_at_sign (s : string) :
  email_match s = true -> count_char "@" s = 1%Z.
Proof.
  unfold email_match. destruct (span email_local_char s) as [loc r] eqn:Hsp.
  apply span_spec in Hsp. destruct Hsp as [-> Hloc].
  intro H. apply andb_true_iff in H. destruct H as [_ H].
  destruct r as [|c dom]; [discriminate H|].
  apply andb_true_iff in H. destruct H as [Hc Hdom].
  apply Ascii.eqb_eq in Hc. subst c.
  unfold email_domain_ok in Hdom. apply andb_true_iff in Hdom.
  destruct Hdom as [Hchars _].
  rewrite count_char_app.
  rewrite (count_char_absent email_local_char "@" loc eq_refl Hloc).
  cbn [count_char]. change (Ascii.eqb "@" "@") with true.
  assert (Hd : count_char "@" dom = 0%Z).
  { destruct (chomp_spec dom) as [Hd | Hd]; rewrite Hd.
    - apply (count_char_absent email_domain_char "@" _ eq_refl Hchars).
    - rewrite count_char_app.
      rewrite (count_char_absent email_domain_char "@" _ eq_refl Hchars).
      reflexivity. }
  rewrite Hd. reflexivity.
Qed.

(** X17: a text that [validate_email] accepts is the empty text or holds
    exactly one at sign; a value that is no text is accepted only when it
    is a false value, such as null. *)
Theorem accepted_email_has_one_at_sign (email : pyval) :
  validate_email email = Returns true ->
  match email with
  | PStr s => s = EmptyString \/ count_char "@" s = 1%Z
  | _ => truthy email = false
  end.
Proof.
  unfold validate_email. destruct (truthy email) eqn:Ht; cbn [negb].
  - destruct email as [| | | |s| |]; try discriminate.
    intro H. injection H as H. right. apply email_match_one_at_sign. exact H.
  - intros _. destruct email as [| | | |s| |]; try reflexivity.
    left. destruct s; [reflexivity | discriminate Ht].
Qed.

(** The theorem at an address with dots and a hyphen, and at the empty
    text, which is accepted. *)
Lemma accepted_email_has_one_at_sign_witness :
  validate_email (PStr "billing.dept@acme-corp.example.com") = Returns true
  /\ count_char "@" "billing.dept@acme-corp.example.com" = 1%Z
  /\ validate_email (PStr EmptyString) = Returns true.
Proof.
  split; [reflexivity | split; [|reflexivity]].
  destruct (accepted_email_has_one_at_sign
              (PStr "billing.dept@acme-corp.example.com") eq_refl) as [H | H];
    [discriminate H | exact H].
Defined.


(* ================================================================== *)
(** * The total candidate in the result of the filter *)
(* ================================================================== *)

Lemma contains_empty (sub : string) :
  contains sub EmptyString = true -> sub = EmptyString.
Proof.
  unfold contains. destruct sub; [reflexivity|]. cbn. discriminate.
Qed.

Lemma total_candidate_key_nonempty (k : string) (v : pyval) :
  total_candidate (k, v) = true -> nonempty k = true.
Proof.
  destruct k; [|reflexivity]. intro H. exfalso.
  unfold total_candidate in H. cbn [fst] in H.
  apply andb_true_iff in H. destruct H as [_ H].
  change (lower EmptyString) with EmptyString in H.
  apply orb_true_iff in H. destruct H as [H | H].
  - unfold any_in in H. apply existsb_exists in H. destruct H as [x [Hx Hc]].
    apply contains_empty in Hc. subst x.
    unfold total_priority in Hx. cbn [In] in Hx. intuition discriminate.
  - apply contains_empty in H. discriminate H.
Qed.

Lemma dict_set_keeps {A : Type} (d : list (string * A)) (k k' : string) (v v' : A) :
  In (k, v) d -> (k' = k -> v' = v) -> In (k, v) (dict_set d k' v').
Proof.
  intros Hin Hsame. induction d as [|[k0 v0] r IH]; [destruct Hin|].
  cbn [dict_set]. destruct (String.eqb k0 k') eqn:E.
  - apply String.eqb_eq in E. subst k0. destruct Hin as [Hin | Hin].
    + injection Hin as <- <-. left. rewrite (Hsame eq_refl). reflexivity.
    + right. exact Hin.
  - destruct Hin as [Hin | Hin]; [left; exact Hin | right; apply IH; exact Hin].
Qed.

Lemma select_fields_keeps (requested : list string) (user_prompt_lower : string)
    (data filtered : dict) (k : string) (v : pyval) :
  In (k, v) filtered ->
  (forall v', In (k, v') data -> v' = v) ->
  In (k, v) (select_fields requested user_prompt_lower data filtered).
Proof.
  unfold select_fields. revert filtered.
  induction data as [|[k0 v0] rest IH]; intros filtered Hin Huniq; [exact Hin|].
  cbn [fold_left fst snd]. apply IH.
  - destruct (include_field requested user_prompt_lower k0); [|exact Hin].
    apply dict_set_keeps; [exact Hin|].
    intro Heq. subst k0. apply Huniq. left. reflexivity.
  - intros v' Hv'. apply Huniq. right. exact Hv'.
Qed.

Lemma NoDup_keys_unique (data : dict) (k : string) (v v' : pyval) :
  NoDup (map fst data) -> In (k, v) data -> In (k, v') data -> v' = v.
Proof.
  induction data as [|[k0 v0] rest IH]; [intros _ []|].
  cbn [map fst]. intro Hnd. inversion Hnd as [|x xs Hnin Hnd']; subst.
  intros [H | H] [H' | H'].
  - injection H as <- <-. injection H' as <-. reflexivity.
  - injection H as <- <-. exfalso. apply Hnin.
    apply (in_map fst) in H'. exact H'.
  - injection H' as <- <-. exfalso. apply Hnin.
    apply (in_map fst) in H. exact H.
  - apply IH; assumption.
Qed.

(** X18: when the keys of the raw mapping are pairwise distinct and the
    request says total, the pair that the search for the total selects is a
    pair of the result of the filter. *)
Theorem filter_returns_total_candidate (extracted_data : dict) (user_prompt : string)
    (k : string) (v : pyval) :
  NoDup (map fst extracted_data) ->
  contains "total" (lower user_prompt) = true ->
  best_total extracted_data = Some (k, v) ->
  In (k, v) (filter_extracted_data extracted_data user_prompt).
Proof.
  intros Hnd Hp Hbest.
  destruct (best_total_In _ _ _ Hbest) as [Hin Hcand].
  assert (Hf : In (k, v) (intent_filtered extracted_data user_prompt)).
  { unfold intent_filtered. apply select_fields_keeps.
    - unfold total_selection.
      assert (Ht : any_in ["total cost"; "total amount"; "total"] (lower user_prompt)
                   = true).
      { unfold any_in. cbn [existsb]. rewrite Hp, !orb_true_r. reflexivity. }
      rewrite Ht, Hbest, (total_candidate_key_nonempty k v Hcand).
      left. reflexivity.
    - intros v' Hv'. apply (NoDup_keys_unique extracted_data k); assumption. }
  unfold filter_extracted_data.
  destruct (extraction_type (analyze_user_request user_prompt)); try exact Hin.
  all: destruct (negb (dict_nonempty (requested_fields (analyze_user_request user_prompt)))
                 && negb (is_specific_request (analyze_user_request user_prompt)));
    try exact Hin.
  all: destruct (intent_filtered extracted_data user_prompt) as [|p f];
    [destruct Hf | exact Hf].
Qed.

(** The theorem at a mapping with a subtotal and a grand total. *)
Lemma filter_returns_total_candidate_witness :
  In ("grand_total", PInt 120)
     (filter_extracted_data [("subtotal", PInt 100); ("grand_total", PInt 120)]
        "total please").
Proof.
  apply (filter_returns_total_candidate
           [("subtotal", PInt 100); ("grand_total", PInt 120)] "total please").
  - repeat (constructor; [cbn [In map fst]; intuition discriminate|]). constructor.
  - vm_compute. reflexivity.
  - vm_compute. reflexivity.
Defined.

(* ================================================================== *)
(** * The size of the processed mapping *)
(* ================================================================== *)

Lemma dict_set_length {A : Type} (d : list (string * A)) (k : string) (v : A) :
  (List.length d <= List.length (dict_set d k v) <= S (List.length d))%nat.
Proof.
  induction d as [|[k' v'] r IH]; cbn [dict_set List.length]; [lia|].
  destruct (String.eqb k' k); cbn [List.length]; lia.
Qed.

Lemma post_process_fold_length (data acc : dict) :
  (List.length acc <= List.length (fold_left post_process_step data acc)
   <= List.length acc + List.length data)%nat.
Proof.
  revert acc. induction data as [|kv rest IH]; intro acc; cbn [fold_left List.length];
    [lia|].
  specialize (IH (post_process_step acc kv)).
  pose proof (dict_set_length acc (clean_key (fst kv))
                (post_process_value (clean_key (fst kv)) (snd kv))) as Hs.
  unfold post_process_step in *. lia.
Qed.

(** X19: the processed mapping has at most as many fields as the mapping
    it comes from, and it is empty exactly when that mapping is empty. *)
Theorem post_process_data_size (data : dict) :
  (List.length (post_process_data data) <= List.length data)%nat
  /\ (post_process_data data = [] <-> data = []).
Proof.
  rewrite post_process_data_fold. split.
  - pose proof (post_process_fold_length data []) as H. cbn [List.length] in H. lia.
  - split.
    + destruct data as [|kv rest]; [reflexivity|]. intro H. exfalso.
      cbn [fold_left] in H.
      pose proof (post_process_fold_length rest (post_process_step [] kv)) as Hl.
      rewrite H in Hl. unfold post_process_step in Hl. cbn in Hl. lia.
    + intros ->. reflexivity.
Qed.

(* ================================================================== *)
(** * The text handed to the strict parse *)
(* ================================================================== *)

Lemma existsb_rev_list {A : Type} (f : A -> bool) (l : list A) :
  existsb f (rev l) = existsb f l.
Proof.
  induction l as [|x r IH]; [reflexivity|].
  cbn [rev existsb]. rewrite existsb_app, IH. cbn [existsb].
  rewrite orb_false_r. apply orb_comm.
Qed.

Lemma has_char_rev_string (c : ascii) (s : string) :
  has_char c (rev_string s) = has_char c s.
Proof.
  assert (H : forall t, has_char c t = existsb (fun x => Ascii.eqb x c)
                                         (list_ascii_of_string t)).
  { induction t as [|x r IH]; [reflexivity|]. cbn. rewrite IH. reflexivity. }
  unfold rev_string. rewrite !H, list_ascii_of_string_of_list_ascii.
  apply existsb_rev_list.
Qed.

Lemma split_on_aux_no_char (c : ascii) (sep : string) (s : string) :
  has_char c s = false ->
  forall skip cur,
    has_char c cur = false ->
    Forall (fun piece => has_char c piece = false) (split_on_aux sep skip cur s).
Proof.
  induction s as [|x r IH]; intros Hs skip cur Hcur; cbn [split_on_aux].
  - constructor; [|constructor]. rewrite has_char_rev_string. exact Hcur.
  - cbn [has_char] in Hs. apply orb_false_iff in Hs. destruct Hs as [Hx Hr].
    destruct skip as [|k]; [|apply IH; assumption].
    destruct (drop_prefix sep (String x r)).
    + constructor; [rewrite has_char_rev_string; exact Hcur|].
      apply IH; [exact Hr | reflexivity].
    + apply IH; [exact Hr|]. cbn [has_char]. rewrite Hx, Hcur. reflexivity.
Qed.

Lemma find_char_none (c : ascii) (s : string) :
  has_char c s = false -> find_char c s = None.
Proof.
  induction s as [|x r IH]; [reflexivity|]. cbn [has_char find_char].
  intro H. apply orb_false_iff in H. destruct H as [Hx Hr].
  rewrite Hx, (IH Hr). reflexivity.
Qed.

Lemma line_scan_no_brace (lines : list string) :
  Forall (fun line => has_char "{" line = false) lines ->
  fold_left line_step lines (mkScan [] false 0 false) = mkScan [] false 0 false.
Proof.
  induction 1 as [|line rest Hl _ IH]; [reflexivity|].
  cbn [fold_left]. unfold line_step at 2. cbn [stopped in_json json_lines brace_count orb].
  rewrite Hl. exact IH.
Qed.

(** X20: when the cleaned response holds no opening brace, the text handed
    to the strict parse is the whole cleaned response: no line is
    selected and no part is cut out. *)
Theorem isolate_json_without_brace (cleaned_response : string) :
  has_char "{" cleaned_response = false ->
  isolate_json cleaned_response = cleaned_response.
Proof.
  intro H. unfold isolate_json.
  rewrite line_scan_no_brace.
  - cbn [json_lines]. rewrite (find_char_none _ _ H). reflexivity.
  - apply split_on_aux_no_char; [exact H | reflexivity].
Qed.

(** The theorem at a JSON array on two lines. *)
Lemma isolate_json_without_brace_witness :
  isolate_json "[1,
 2]" = "[1,
 2]".
Proof.
  apply (isolate_json_without_brace "[1,
 2]").
  vm_compute. reflexivity.
Defined.

(* ================================================================== *)
(** * The origin of the errors of a report *)
(* ================================================================== *)

Section ErrorOrigins.

Variable py_str : pyval -> string.
Variable strptime_ok : string -> string -> bool.

Local Abbreviation validate := (validate_extraction py_str strptime_ok).
Local Abbreviation check_field := (validate_field py_str strptime_ok).
Local Abbreviation check_fields := (validate_fields py_str strptime_ok).

Lemma validate_field_errors (data : dict) (user_prompt : string) (r r' : report)
    (k : string) (v : pyval) :
  In k (map fst data) ->
  check_field user_prompt r (k, v) = Returns r' ->
  errors r' = errors r
  \/ exists m, errors r' = errors r ++ [m] /\ error_origin data user_prompt m.
Proof.
  intro Hk. unfold validate_field.
  repeat match goal with
         | |- context [if ?b then _ else _] => destruct b eqn:?
         | |- context [match ?x with _ => _ end] => destruct x eqn:?
         end;
    intro H; try discriminate H; injection H as <-;
    first [ left; reflexivity
          | right; eexists; split; [reflexivity|];
            cbn [error_origin]; repeat split; assumption ].
Qed.

Lemma validate_fields_errors (all : dict) (user_prompt : string) (data : dict)
    (r : report) :
  incl (map fst data) (map fst all) ->
  Forall (error_origin all user_prompt) (errors r) ->
  Forall (error_origin all user_prompt)
         (errors (fst (check_fields user_prompt r data))).
Proof.
  revert r. induction data as [|[k v] rest IH]; intros r Hincl Hr; [exact Hr|].
  cbn [validate_fields].
  destruct (check_field user_prompt r (k, v)) as [r1|e] eqn:E; [|exact Hr].
  apply IH.
  - intros x Hx. apply Hincl. right. exact Hx.
  - assert (Hk : In k (map fst all)) by (apply Hincl; left; reflexivity).
    destruct (validate_field_errors all user_prompt r r1 k v Hk E)
      as [-> | [m [-> Hm]]]; [exact Hr|].
    apply Forall_app. split; [exact Hr | constructor; [exact Hm | constructor]].
Qed.

(** X21: every error of a report is the error of the empty mapping, the
    error of the handler of an exception, an invalid format of a field
    whose key holds email, an invalid format of a field whose key holds an
    amount term, or a pre-tax key under a request that says total: the
    checks of phone numbers, dates and invoice numbers and the search for
    missing fields never add an error. *)
Theorem report_errors_origin (extracted_data : dict) (user_prompt : string) :
  Forall (error_origin extracted_data user_prompt)
         (errors (validate extracted_data user_prompt)).
Proof.
  unfold validate_extraction.
  destruct extracted_data as [|kv0 rest]; cbn [dict_nonempty negb].
  { repeat constructor. }
  unfold validation_body.
  destruct (validate_total_amount_accuracy (kv0 :: rest) user_prompt) as [tv|e].
  2: { repeat constructor. }
  pose proof (validate_fields_errors (kv0 :: rest) user_prompt (kv0 :: rest)
                (after_total_check tv) (incl_refl _)) as Hf.
  rewrite after_total_check_errors in Hf. specialize (Hf (Forall_nil _)).
  destruct (check_fields user_prompt (after_total_check tv) (kv0 :: rest))
    as [r3 [e|]]; cbn [fst] in Hf.
  - cbn [add_errors set_invalid errors]. apply Forall_app.
    split; [exact Hf | repeat constructor].
  - rewrite finish_report_errors. exact Hf.
Qed.

End ErrorOrigins.

(* ================================================================== *)
(** * One-line responses *)
(* ================================================================== *)

Lemma append_empty_r (s : string) : (s ++ EmptyString)%string = s.
Proof. induction s as [|c r IH]; [reflexivity|]. cbn. rewrite IH. reflexivity. Qed.

Lemma append_assoc_string (a b c : string) :
  ((a ++ b) ++ c)%string = (a ++ (b ++ c))%string.
Proof. induction a as [|x r IH]; [reflexivity|]. cbn. rewrite IH. reflexivity. Qed.

Lemma string_of_list_ascii_app (l m : list ascii) :
  string_of_list_ascii (l ++ m)
  = (string_of_list_ascii l ++ string_of_list_ascii m)%string.
Proof. induction l as [|x r IH]; [reflexivity|]. cbn. rewrite IH. reflexivity. Qed.

Lemma rev_string_cons (c : ascii) (s : string) :
  rev_string (String c s) = (rev_string s ++ String c EmptyString)%string.
Proof.
  unfold rev_string. cbn [list_ascii_of_string rev].
  rewrite string_of_list_ascii_app. reflexivity.
Qed.

Lemma split_on_newline_one_line (s cur : string) :
  has_char newline s = false ->
  split_on_aux (String newline EmptyString) 0 cur s = [(rev_string cur ++ s)%string].
Proof.
  revert cur. induction s as [|c r IH]; intros cur H; cbn [split_on_aux].
  - rewrite append_empty_r. reflexivity.
  - cbn [has_char] in H. apply orb_false_iff in H. destruct H as [Hc Hr].
    cbn [drop_prefix]. rewrite Ascii.eqb_sym, Hc.
    rewrite (IH (String c cur) Hr), rev_string_cons, append_assoc_string.
    reflexivity.
Qed.

Lemma contains_prefix_of (a b s : string) :
  String.prefix a b = true -> contains b s = true -> contains a s = true.
Proof.
  intros Hab. unfold contains.
  assert (Hp : forall t, String.prefix b t = true -> String.prefix a t = true).
  { revert Hab. revert b. induction a as [|x a' IH]; intros b Hab t Ht; [destruct t; reflexivity|].
    destruct b as [|y b']; [discriminate Hab|]. cbn in Hab.
    destruct (ascii_dec x y) as [->|]; [|discriminate Hab].
    destruct t as [|z t']; [discriminate Ht|]. cbn in Ht |- *.
    destruct (ascii_dec y z) as [->|]; [|discriminate Ht].
    apply (IH b'); assumption. }
  induction s as [|c r IH]; cbn [contains].
  - fold (contains b EmptyString). unfold contains. intro H.
    rewrite orb_false_r in H |- *. apply Hp. exact H.
  - fold (contains b r). fold (contains a r). intro H.
    apply orb_true_iff in H. apply orb_true_iff. destruct H as [H | H].
    + left. apply Hp. exact H.
    + right. apply IH. exact H.
Qed.

Lemma read_token_brace (c : ascii) (r : string) (n : nat) :
  read_token (String c r) = Some (TLBrace, n) -> Ascii.eqb c "{" = true.
Proof.
  unfold read_token. destruct (Ascii.eqb c "{"); [reflexivity|].
  repeat match goal with
         | |- context [if ?b then _ else _] => destruct b
         | |- context [match ?x with _ => _ end] => destruct x
         end; intro H; discriminate H.
Qed.

Lemma lex_brace (s : string) :
  forall (k : nat) (ts : list token),
    lex k s = Some ts -> In TLBrace ts -> has_char "{" s = true.
Proof.
  induction s as [|c r IH]; intros k ts Hl Hin.
  - destruct k; injection Hl as <-; destruct Hin.
  - cbn [lex] in Hl. cbn [has_char]. destruct k as [|k].
    + destruct (is_json_ws c).
      * rewrite (IH _ _ Hl Hin). apply orb_true_r.
      * destruct (read_token (String c r)) as [[t n]|] eqn:Ht; [|discriminate Hl].
        destruct (lex (n - 1) r) as [ts'|] eqn:Hl'; [|discriminate Hl].
        injection Hl as <-. destruct Hin as [Hin | Hin].
        -- subst t. apply read_token_brace in Ht.
           rewrite Ht. reflexivity.
        -- rewrite (IH _ _ Hl' Hin). apply orb_true_r.
    + rewrite (IH _ _ Hl Hin). apply orb_true_r.
Qed.

Lemma read_number_not_dict (s : string) (v : pyval) (n : nat) :
  read_number s = Some (v, n) -> is_dict v = false.
Proof.
  unfold read_number.
  repeat match goal with
         | |- context [let '(_, _) := ?x in _] => destruct x
         | |- context [match ?x with _ => _ end] => destruct x
         | |- context [if ?b then _ else _] => destruct b
         end;
    intro H; try discriminate H; injection H as <- _; reflexivity.
Qed.

Lemma read_token_atom (s : string) (v : pyval) (n : nat) :
  read_token s = Some (TAtom v, n) -> is_dict v = false.
Proof.
  unfold read_token. destruct s as [|c r]; [discriminate|].
  destruct (read_number (String c r)) as [[v' n']|] eqn:Hn.
  - apply read_number_not_dict in Hn.
    repeat match goal with
           | |- context [if ?b then _ else _] => destruct b
           | |- context [match ?x with _ => _ end] => destruct x
           end; intro H; try discriminate H; injection H as <- _;
      first [reflexivity | exact Hn].
  - repeat match goal with
           | |- context [if ?b then _ else _] => destruct b
           | |- context [match ?x with _ => _ end] => destruct x
           end; intro H; try discriminate H; injection H as <- _; reflexivity.
Qed.

Lemma lex_atoms (s : string) :
  forall (k : nat) (ts : list token) (v : pyval),
    lex k s = Some ts -> In (TAtom v) ts -> is_dict v = false.
Proof.
  induction s as [|c r IH]; intros k ts v Hl Hin.
  - destruct k; injection Hl as <-; destruct Hin.
  - cbn [lex] in Hl. destruct k as [|k]; [|exact (IH _ _ _ Hl Hin)].
    destruct (is_json_ws c); [exact (IH _ _ _ Hl Hin)|].
    destruct (read_token (String c r)) as [[t n]|] eqn:Ht; [|discriminate Hl].
    destruct (lex (n - 1) r) as [ts'|] eqn:Hl'; [|discriminate Hl].
    injection Hl as <-. destruct Hin as [Hin | Hin].
    + subst t. exact (read_token_atom _ _ _ Ht).
    + exact (IH _ _ _ Hl' Hin).
Qed.

Ltac under_array_shape :=
  split;
  [ first [ eexists nil; eexists; reflexivity
          | eexists (_ :: _); eexists; reflexivity ]
  | intros w Hw; discriminate Hw ].

Lemma complete_under_array (v : pyval) (st0 : list frame) (acc : list pyval)
    (ms : mode * list frame) :
  complete v (st0 ++ [FArr acc]) = Some ms -> under_array ms.
Proof.
  destruct st0 as [|[a|a|a k] st0]; cbn; intro H; try discriminate H;
    injection H as <-; under_array_shape.
Qed.

Lemma start_value_under_array (t : token) (st0 : list frame) (acc : list pyval)
    (ms : mode * list frame) :
  start_value t (st0 ++ [FArr acc]) = Some ms -> under_array ms.
Proof.
  destruct t; cbn [start_value]; intro H; try discriminate H;
    try (apply complete_under_array in H; exact H);
    injection H as <-; unfold under_array; cbn [fst snd];
    split; try (intros w Hw; discriminate Hw);
    eexists (_ :: _); eexists; reflexivity.
Qed.

Lemma step_under_array (m : mode) (st0 : list frame) (acc : list pyval)
    (t : token) (ms : mode * list frame) :
  (forall w, m <> MDone w) ->
  step (m, st0 ++ [FArr acc]) t = Some ms ->
  under_array ms \/ exists l, fst ms = MDone (PList l).
Proof.
  intros Hm.
  destruct m; try (exfalso; exact (Hm _ eq_refl)); cbn [step].
  - intro H. left. exact (start_value_under_array _ _ _ _ H).
  - destruct t; try (intro H; left; exact (start_value_under_array _ _ _ _ H)).
    destruct st0 as [|[a|a|a k] st0]; cbn [app];
      try (intro H; left;
           exact (start_value_under_array TRBracket (_ :: _) _ _ H)).
    + cbn. intro H. injection H as <-. right. eexists. reflexivity.
    + intro H. left. exact (complete_under_array _ _ _ _ H).
  - destruct t; try discriminate;
      destruct st0 as [|[a|a|a k] st0]; cbn [app]; try discriminate;
      intro H.
    + left. exact (complete_under_array _ _ _ _ H).
    + injection H as <-. left. under_array_shape.
  - destruct t; try discriminate;
      destruct st0 as [|[a|a|a k] st0]; cbn [app]; try discriminate;
      intro H; injection H as <-; left; under_array_shape.
  - destruct t; try discriminate. intro H. injection H as <-. left.
    split; [eexists; eexists; reflexivity | intros w Hw; discriminate Hw].
  - destruct t; try discriminate;
      destruct st0 as [|[a|a|a k] st0]; cbn [app]; try discriminate;
      intro H.
    + left. exact (complete_under_array _ _ _ _ H).
    + cbn in H. injection H as <-. right. eexists. reflexivity.
    + left. exact (complete_under_array _ _ _ _ H).
    + injection H as <-. left. under_array_shape.
    + injection H as <-. left. under_array_shape.
    + injection H as <-. left. under_array_shape.
Qed.

Lemma run_under_array (ts : list token) :
  forall (ms : mode * list frame) (v : pyval) (st : list frame),
    under_array ms -> run ms ts = Some (MDone v, st) -> is_dict v = false.
Proof.
  induction ts as [|t ts IH]; intros [m st0] v st [[st1 [acc Hst]] Hm].
  - cbn. intro H. injection H as -> _. exfalso. exact (Hm _ eq_refl).
  - cbn [fst snd] in Hst, Hm. subst st0. cbn [run].
    destruct (step (m, st1 ++ [FArr acc]) t) as [ms'|] eqn:Hs; [|discriminate].
    destruct (step_under_array _ _ _ _ _ Hm Hs) as [Hu | [l Hl]].
    + apply IH. exact Hu.
    + destruct ms' as [m' st']. cbn [fst] in Hl. subst m'.
      destruct ts as [|t' ts']; [|discriminate].
      cbn. intro H. injection H as <- _. reflexivity.
Qed.

(** A text that [loads] reads as a dictionary holds an opening brace. *)
Lemma loads_dict_brace (s : string) (d : dict) :
  loads s = Some (PDict d) -> has_char "{" s = true.
Proof.
  unfold loads. destruct (lex 0 s) as [ts|] eqn:Hlex; [|discriminate].
  destruct (run (MValue, []) ts) as [[m st]|] eqn:Hrun; [|discriminate].
  destruct m; try discriminate. intro H. injection H as ->.
  destruct ts as [|t ts']; [discriminate Hrun|].
  cbn [run step] in Hrun.
  destruct t; cbn [start_value complete] in Hrun; try discriminate Hrun.
  - apply (lex_brace _ _ _ Hlex). left. reflexivity.
  - apply run_under_array in Hrun; [discriminate Hrun|].
    split; [exists [], []; reflexivity | intros w Hw; discriminate Hw].
  - destruct ts'; discriminate Hrun.
  - destruct ts'; [|discriminate Hrun]. injection Hrun as Hv _.
    pose proof (lex_atoms _ _ _ _ Hlex (or_introl eq_refl)) as Hd.
    rewrite Hv in Hd. discriminate Hd.
Qed.

Lemma isolate_json_one_line (s : string) :
  has_char newline s = false -> has_char "{" s = true -> isolate_json s = s.
Proof.
  intros Hnl Hbrace. unfold isolate_json, split_on.
  change (String (ascii_of_N 10) EmptyString) with (String newline EmptyString).
  rewrite (split_on_newline_one_line s EmptyString Hnl).
  change (rev_string EmptyString ++ s)%string with s.
  cbn [fold_left]. unfold line_step. cbn [stopped in_json orb].
  rewrite Hbrace. cbn [json_lines app]. reflexivity.
Qed.

Lemma strip_fences_no_fence (s : string) :
  contains fence s = false -> strip_fences s = s.
Proof.
  intro Hfence. unfold strip_fences.
  destruct (contains "```json" s) eqn:Ej.
  - apply (contains_prefix_of fence) in Ej; [|reflexivity].
    rewrite Ej in Hfence. discriminate Hfence.
  - rewrite Hfence. reflexivity.
Qed.

(** X22: when the trimmed response is written on one line, holds no code
    fence and is a JSON object, [parse_llm_response] returns that object:
    the removal of fences and the search for the lines of the object leave
    such a response as it is. *)
Theorem one_line_object_is_returned (response : string) (d : dict) :
  has_char newline (strip response) = false ->
  contains fence (strip response) = false ->
  loads (strip response) = Some (PDict d) ->
  parse_llm_response response = Returns (PDict d).
Proof.
  intros Hnl Hfence Hloads.
  pose proof (loads_dict_brace _ _ Hloads) as Hbrace.
  unfold parse_llm_response.
  rewrite (strip_fences_no_fence _ Hfence),
          (isolate_json_one_line _ Hnl Hbrace), Hloads.
  assert (Hs : nonempty (strip response) = true)
    by (destruct (strip response); [discriminate Hbrace | reflexivity]).
  assert (Hr : nonempty response = true)
    by (destruct response; [discriminate Hs | reflexivity]).
  rewrite Hs, Hr. reflexivity.
Qed.

Lemma one_line_object_is_returned_witness :
  parse_llm_response ("  {" ++ q "total" ++ ": 5}  ")%string
  = Returns (PDict [("total", PInt 5)]).
Proof.
  apply (one_line_object_is_returned ("  {" ++ q "total" ++ ": 5}  ")%string);
    vm_compute; reflexivity.
Defined.
